(** * Static endpoint extraction: a model of the analyzers package

    The development follows the layout of [src/analyzers]:
    - [Py]       the pieces of the Python runtime the analyzers rely on
                 (string methods, truthiness, exceptions);
    - [Ast]      the part of Python's [ast] trees the analyzers inspect;
    - [Fs]       a project directory as the analyzers observe it;
    - [Base]     [base.py]: the endpoint records and the shared helpers;
    - [FastAPI]  [fastapi_analyzer.py], the single-pass extractor;
    - [Re]       the regular expressions of the source, as matchers;
    - [Django]   [django_analyzer.py], the multi-pass extractor;
    - [Detector] [detector.py];
    - [Notions]  the vocabulary of the properties;
    - [Markers]  route markers as the specification speaks of them;
    - [Samples]  small projects the analyzers are run on;
    - [Invariants], [More_samples] the vocabulary and the samples of the
                 further properties;
    then the facts about each part, the properties of the
    specification, [C1] to [C10], and further properties of the
    analyzers, [X1] to [X24].

    An analyzer object is a record of its attributes, and a method is a
    function from the state before the call to the state after it; what
    the [except] clauses print is kept in the state as well. A call that
    may raise returns a [res]. [ast.unparse] is a parameter of the
    analyzers.

    Characters are modelled by [ascii]; case conversion and the character
    classes [\s] and [\w] are those of Python on ASCII text. *)

From Stdlib Require Import ZArith Ascii String List Bool Lia.
From Stdlib Require Import Numbers.DecimalString.
From stdpp Require Import base option gmap strings.
Import ListNotations.

Local Open Scope string_scope.
Local Open Scope Z_scope.

Set Warnings "-register-all".

(* ===================================================================== *)
(** ** Python runtime *)
(* ===================================================================== *)

Module Py.

(** Exceptions the modelled code can meet. *)
Inductive exn := IndexError | AttributeError | OSError | SyntaxError.

(** Outcome of a computation that may raise. *)
Inductive res (A : Type) :=
| Ok (a : A)
| Raise (e : exn).
Arguments Ok {A} a.
Arguments Raise {A} e.

Definition bind {A B} (m : res A) (k : A -> res B) : res B :=
  match m with
  | Ok a => k a
  | Raise e => Raise e
  end.

(** Literal values carried by [ast.Constant] nodes: [None], the booleans,
    the integers and the strings. The other literals (floats, bytes, ...)
    are left out of the model. *)
Inductive constant :=
| CNone
| CBool (b : bool)
| CInt (z : Z)
| CStr (s : string).

(** [bool(c)]. *)
Definition truthy (c : constant) : bool :=
  match c with
  | CNone => false
  | CBool b => b
  | CInt z => negb (z =? 0)
  | CStr s => negb (String.eqb s "")
  end.

(** [str(c)]. *)
Definition str (c : constant) : string :=
  match c with
  | CNone => "None"
  | CBool true => "True"
  | CBool false => "False"
  | CInt z => NilEmpty.string_of_int (Z.to_int z)
  | CStr s => s
  end.

Definition nat_in (lo hi : nat) (c : ascii) : bool :=
  (Nat.leb lo (nat_of_ascii c) && Nat.leb (nat_of_ascii c) hi)%bool.

Definition is_lower (c : ascii) : bool := nat_in 97 122 c.
Definition is_upper (c : ascii) : bool := nat_in 65 90 c.
Definition is_digit (c : ascii) : bool := nat_in 48 57 c.

(** [c.isspace()], also the class [\s]. *)
Definition is_space (c : ascii) : bool :=
  (nat_in 9 13 c || nat_in 28 32 c)%bool.

(** The class [\w]. *)
Definition is_word (c : ascii) : bool :=
  (is_lower c || is_upper c || is_digit c || Ascii.eqb c "_")%bool.

Definition upper_char (c : ascii) : ascii :=
  if is_lower c then ascii_of_nat (nat_of_ascii c - 32) else c.

Definition lower_char (c : ascii) : ascii :=
  if is_upper c then ascii_of_nat (nat_of_ascii c + 32) else c.

(** [s.upper()]. *)
Fixpoint upper (s : string) : string :=
  match s with
  | EmptyString => EmptyString
  | String c r => String (upper_char c) (upper r)
  end.

(** [s.title()]: a letter that follows a letter is lowered, a letter that
    starts a run of letters is raised. *)
Fixpoint title_from (prev_cased : bool) (s : string) : string :=
  match s with
  | EmptyString => EmptyString
  | String c r =>
      if is_lower c then
        String (if prev_cased then c else upper_char c) (title_from true r)
      else if is_upper c then
        String (if prev_cased then lower_char c else c) (title_from true r)
      else String c (title_from false r)
  end.

Definition title (s : string) : string := title_from false s.

Fixpoint lstrip (s : string) : string :=
  match s with
  | EmptyString => EmptyString
  | String c r => if is_space c then lstrip r else s
  end.

Fixpoint rstrip (s : string) : string :=
  match s with
  | EmptyString => EmptyString
  | String c r =>
      match rstrip r with
      | EmptyString => if is_space c then EmptyString else String c EmptyString
      | r' => String c r'
      end
  end.

(** [s.strip()]. *)
Definition strip (s : string) : string := rstrip (lstrip s).

Definition newline : ascii := ascii_of_nat 10.

(** [s.split] at newlines: never empty. *)
Fixpoint split_lines (s : string) : list string :=
  match s with
  | EmptyString => [EmptyString]
  | String c r =>
      if Ascii.eqb c newline then EmptyString :: split_lines r
      else match split_lines r with
           | l :: ls => String c l :: ls
           | [] => [String c EmptyString]
           end
  end.

(** [join] with a newline between the lines. *)
Fixpoint join_lines (ls : list string) : string :=
  match ls with
  | [] => EmptyString
  | [l] => l
  | l :: ls' => l ++ String newline (join_lines ls')
  end.

(** [sep.join(ls)] for the path separator. *)
Fixpoint join_with (sep : string) (ls : list string) : string :=
  match ls with
  | [] => EmptyString
  | [l] => l
  | l :: ls' => l ++ sep ++ join_with sep ls'
  end.

(** [needle in hay]. *)
Fixpoint contains (needle hay : string) : bool :=
  (String.prefix needle hay ||
   match hay with
   | EmptyString => false
   | String _ r => contains needle r
   end)%bool.

(** [s.endswith(suffix)]. *)
Fixpoint endswith (suffix s : string) : bool :=
  (String.eqb suffix s ||
   match s with
   | EmptyString => false
   | String _ r => endswith suffix r
   end)%bool.

(** [x in xs] for a list of strings. *)
Definition str_in (x : string) (xs : list string) : bool :=
  existsb (String.eqb x) xs.

(** [a or b] on an optional string: [None] and the empty string are
    falsy. *)
Definition str_or (a : option string) (b : string) : string :=
  match a with
  | Some s => if String.eqb s "" then b else s
  | None => b
  end.

End Py.

(* ===================================================================== *)
(** ** Syntax trees *)
(* ===================================================================== *)

Module Ast.
Import Py.

(** Expressions. [EOther] stands for every expression form the analyzers
    never look into (operators, tuples, lambdas, ...). *)
Inductive expr :=
| EName (id : string)
| EConstant (value : constant)
| EAttribute (value : expr) (attr : string)
| ESubscript (value : expr) (slice : expr)
| ECall (func : expr) (args : list expr) (keywords : list (option string * expr))
| EList (elts : list expr)
| EOther (src : string).

(** [ast.keyword]: [arg] is absent for [**kwargs]. *)
Definition keyword : Type := option string * expr.
Definition kw_arg (k : keyword) : option string := fst k.
Definition kw_value (k : keyword) : expr := snd k.

Definition kw_is (name : string) (k : keyword) : bool :=
  match kw_arg k with
  | Some a => String.eqb a name
  | None => false
  end.

(** [ast.arg]. *)
Record arg := { arg_name : string; annotation : option expr }.

(** [ast.arguments]: the positional parameters and the defaults, which
    are aligned to the right. *)
Record arguments := { args : list arg; defaults : list expr }.

(** What the analyzers read of a [FunctionDef], apart from its body.
    [fdoc] is the value of [ast.get_docstring]. *)
Record funcdef := {
  fname : string;
  fargs : arguments;
  decorator_list : list expr;
  returns : option expr;
  fdoc : option string;
  flineno : Z
}.

(** What the analyzers read of a [ClassDef], apart from its body. *)
Record classdef := {
  cname : string;
  bases : list expr;
  cdoc : option string;
  clineno : Z
}.

(** Nodes that can hold statements. [Other] is any other node (an [if],
    a [try], an exception handler, ...) with the statement-bearing
    children [ast.iter_child_nodes] yields, in its order. *)
Inductive node :=
| FunctionDef (f : funcdef) (body : list node)
| ClassDef (c : classdef) (body : list node)
| Assign (targets : list expr) (value : expr)
| AnnAssign (target : expr)
| Other (children : list node).

Definition children (n : node) : list node :=
  match n with
  | FunctionDef _ body => body
  | ClassDef _ body => body
  | Other cs => cs
  | Assign _ _ | AnnAssign _ => []
  end.

Fixpoint height (n : node) : nat :=
  let heights :=
    fix heights (ns : list node) : nat :=
      match ns with
      | [] => O
      | m :: ms => Nat.max (height m) (heights ms)
      end in
  match n with
  | FunctionDef _ body => S (heights body)
  | ClassDef _ body => S (heights body)
  | Other cs => S (heights cs)
  | Assign _ _ | AnnAssign _ => 1%nat
  end.

(** [ast.walk]: breadth first, a queue fed with the children of each
    node taken from its front; that is, level by level. *)
Fixpoint walk_levels (fuel : nat) (level : list node) : list node :=
  match fuel with
  | O => []
  | S k => level ++ walk_levels k (flat_map children level)
  end.

Definition walk (t : node) : list node := walk_levels (height t) [t].

End Ast.

(* ===================================================================== *)
(** ** Project directories *)
(* ===================================================================== *)

Module Fs.
Import Py Ast.

(** A directory entry as the analyzers observe it: its path relative to
    the project root, what reading it as UTF-8 text gives ([None] when it
    cannot be opened or decoded), and what [ast.parse] makes of that text
    ([None] when it raises). *)
Record entry := {
  parts : list string;
  content : option string;
  tree : option node
}.

(** [root] is the text [str(project_path)] puts before a relative path,
    separator included; [entries] lists every file and directory below
    the root in the order [Path.glob] walks them. *)
Record project := {
  root : string;
  entries : list entry
}.

(** [file_path.name]. *)
Definition name (e : entry) : string := List.last (parts e) "".

(** [str(file_path.relative_to(project_path))]. *)
Definition rel_str (e : entry) : string := join_with "/" (parts e).

(** [str(file_path)]. *)
Definition path_str (p : project) (e : entry) : string := root p ++ rel_str e.

(** [project_path.rglob] and [project_path.glob] for the Python files. *)
Definition python_files (p : project) : list entry :=
  List.filter (fun e => endswith ".py" (name e)) (entries p).

End Fs.

(* ===================================================================== *)
(** ** base.py *)
(* ===================================================================== *)

Module Base.
Import Py Ast Fs.

Record EndpointParameter := {
  name : string;
  param_type : string;
  data_type : string;
  required : bool;
  default : option string;
  description : option string
}.

(** The dataclass constructor with its defaults: [required=True],
    [default=None], [description=None]. *)
Definition mkParam (n pt dt : string) (req : bool) (d : option string)
  : EndpointParameter :=
  {| name := n; param_type := pt; data_type := dt; required := req;
     default := d; description := None |}.

(** [path], [tags] and [status_code] hold whatever literal the source
    gave, hence [constant]. *)
Record EndpointInfo := {
  path : constant;
  method : string;
  function_name : string;
  summary : option string;
  ep_description : option string;
  parameters : list EndpointParameter;
  request_model : option string;
  response_model : option string;
  tags : list constant;
  status_code : constant;
  file_path : string;
  line_number : Z
}.

(** Messages printed by the [except] clauses. *)
Inductive diagnostic :=
| ErrorAnalyzing (file : string) (e : exn)
| ErrorExtractingSerializers (file : string) (e : exn)
| ErrorExtractingViews (file : string) (e : exn)
| ErrorParsingUrlPatterns (file : string) (e : exn).

Definition skip_patterns : list string :=
  ["__pycache__"; "venv"; "env"; ".venv"; ".git"; "test_"; "tests"; "migrations"].

Definition _should_skip_file (p : project) (f : entry) : bool :=
  existsb (fun pattern => contains pattern (path_str p f)) skip_patterns.

Definition _parse_docstring (docstring : option string)
  : option string * option string :=
  match docstring with
  | None => (None, None)
  | Some d =>
      if String.eqb d "" then (None, None)
      else
        let lines := split_lines (strip d) in
        let summary := match lines with l :: _ => Some l | [] => None end in
        let description :=
          if (1 <? Z.of_nat (List.length lines))
          then Some (strip (join_lines (tl lines)))
          else None in
        (summary, description)
  end.

(** Reading and parsing a file inside a [try]: the tree, or the exception
    that the [except] clause reports. *)
Definition read_and_parse (f : entry) : res node :=
  match content f with
  | None => Raise OSError
  | Some _ =>
      match tree f with
      | None => Raise SyntaxError
      | Some t => Ok t
      end
  end.

End Base.

(* ===================================================================== *)
(** ** fastapi_analyzer.py *)
(* ===================================================================== *)

Module FastAPI.
Import Py Ast Fs Base.

(** [self.endpoints], and the text printed so far. *)
Record state := {
  endpoints : list EndpointInfo;
  stdout : list diagnostic
}.

Definition print (d : diagnostic) (s : state) : state :=
  {| endpoints := endpoints s; stdout := stdout s ++ [d] |}.

Definition append_endpoint (e : EndpointInfo) (s : state) : state :=
  {| endpoints := endpoints s ++ [e]; stdout := stdout s |}.

Definition http_methods : list string :=
  ["get"; "post"; "put"; "delete"; "patch"; "options"; "head"].

Definition _parse_decorator (decorator : expr) (http_methods : list string)
  : option string * option constant :=
  match decorator with
  | ECall (EAttribute _ method) (EConstant path :: _) _ =>
      if str_in method http_methods then (Some method, Some path)
      else (None, None)
  | _ => (None, None)
  end.

(** [if method and path]. *)
Definition method_and_path (mp : option string * option constant) : bool :=
  match mp with
  | (Some method, Some path) => (negb (String.eqb method "") && truthy path)%bool
  | _ => false
  end.

Definition _extract_tags (decorator : expr) : list constant :=
  match decorator with
  | ECall _ _ keywords =>
      flat_map
        (fun kw =>
           if kw_is "tags" kw then
             match kw_value kw with
             | EList elts =>
                 flat_map (fun elt => match elt with
                                      | EConstant v => [v]
                                      | _ => []
                                      end) elts
             | _ => []
             end
           else []) keywords
  | _ => []
  end.

Fixpoint status_code_of (keywords : list keyword) : option constant :=
  match keywords with
  | [] => None
  | kw :: rest =>
      if kw_is "status_code" kw then
        match kw_value kw with
        | EConstant v => Some v
        | _ => status_code_of rest
        end
      else status_code_of rest
  end.

Definition _extract_status_code (decorator : expr) : option constant :=
  match decorator with
  | ECall _ _ keywords => status_code_of keywords
  | _ => None
  end.

(** [_extract_status_code(decorator) or 200]. *)
Definition status_or_200 (c : option constant) : constant :=
  match c with
  | Some v => if truthy v then v else CInt 200
  | None => CInt 200
  end.

Section WithUnparse.
(** [ast.unparse], the standard library's printer. *)
Variable unparse : expr -> string.

Definition _get_type_string (annotation : expr) : string :=
  match annotation with
  | EName id => id
  | ESubscript _ _ => unparse annotation
  | EAttribute _ _ => unparse annotation
  | _ => "Any"
  end.

(** The location chosen from the annotation text. *)
Definition location_of (type_str : string) : string :=
  if contains "Path" type_str then "path"
  else if contains "Body" type_str then "body"
  else if contains "Header" type_str then "header"
  else "query".

(** One turn of the loop of [_extract_parameters] for a parameter that
    is not [self] or [cls]. *)
Definition parameter_of (defaults : list expr) (num_args num_defaults i : Z)
    (a : arg) : res EndpointParameter :=
  let default_offset := i - (num_args - num_defaults) in
  bind
    (if 0 <=? default_offset then
       match nth_error defaults (Z.to_nat default_offset) with
       | Some default_node =>
           Ok (false,
               Some match default_node with
                    | EConstant v =>
                        match v with CNone => "None" | _ => str v end
                    | _ => unparse default_node
                    end)
       | None => Raise IndexError
       end
     else Ok (true, None))
    (fun rd =>
       let '(param_type, data_type) :=
         match annotation a with
         | Some ann =>
             let type_str := _get_type_string ann in
             (location_of type_str, type_str)
         | None => ("query", "string")
         end in
       Ok (mkParam (arg_name a) param_type data_type (fst rd) (snd rd))).

Fixpoint parameters_loop (defaults : list expr) (num_args num_defaults : Z)
    (i : Z) (rest : list arg) (parameters : list EndpointParameter)
  : res (list EndpointParameter) :=
  match rest with
  | [] => Ok parameters
  | a :: rest' =>
      if str_in (arg_name a) ["self"; "cls"] then
        parameters_loop defaults num_args num_defaults (i + 1) rest' parameters
      else
        bind (parameter_of defaults num_args num_defaults i a)
          (fun param =>
             parameters_loop defaults num_args num_defaults (i + 1) rest'
               (parameters ++ [param]))
  end.

Definition _extract_parameters (func_node : funcdef) : res (list EndpointParameter) :=
  let args := args (fargs func_node) in
  let defaults := defaults (fargs func_node) in
  let num_defaults := Z.of_nat (List.length defaults) in
  let num_args := Z.of_nat (List.length args) in
  parameters_loop defaults num_args num_defaults 0 args [].

Definition is_request_type (type_str : string) : bool :=
  match type_str with
  | EmptyString => false
  | String c _ =>
      (is_upper c && negb (contains "Path" type_str)
       && negb (contains "Query" type_str))%bool
  end.

Fixpoint request_model_of (args : list arg) : option string :=
  match args with
  | [] => None
  | a :: rest =>
      match annotation a with
      | Some ann =>
          let type_str := _get_type_string ann in
          if is_request_type type_str then Some type_str
          else request_model_of rest
      | None => request_model_of rest
      end
  end.

Definition _extract_models (func_node : funcdef) (decorator : expr)
  : option string * option string :=
  let response_model := option_map _get_type_string (returns func_node) in
  let response_model :=
    match decorator with
    | ECall _ _ keywords =>
        fold_left
          (fun acc kw =>
             if kw_is "response_model" kw
             then Some (_get_type_string (kw_value kw)) else acc)
          keywords response_model
    | _ => response_model
    end in
  (request_model_of (args (fargs func_node)), response_model).

(** The body of [if method and path:]. *)
Definition build_endpoint (file : entry) (func_node : funcdef)
    (decorator : expr) (method : string) (path : constant)
  : res EndpointInfo :=
  let docstring := Some (match fdoc func_node with Some d => d | None => "" end) in
  let '(summary, description) := _parse_docstring docstring in
  bind (_extract_parameters func_node)
    (fun parameters =>
       let '(request_model, response_model) := _extract_models func_node decorator in
       let tags := _extract_tags decorator in
       let status_code := status_or_200 (_extract_status_code decorator) in
       Ok {| Base.path := path;
             method := upper method;
             function_name := fname func_node;
             summary := summary;
             ep_description := description;
             parameters := parameters;
             request_model := request_model;
             response_model := response_model;
             tags := tags;
             status_code := status_code;
             file_path := rel_str file;
             line_number := flineno func_node |}).

Fixpoint first_marker (file : entry) (func_node : funcdef)
    (decorators : list expr) : res (option EndpointInfo) :=
  match decorators with
  | [] => Ok None
  | decorator :: rest =>
      match _parse_decorator decorator http_methods with
      | (Some method, Some path) =>
          if method_and_path (Some method, Some path) then
            bind (build_endpoint file func_node decorator method path)
              (fun endpoint => Ok (Some endpoint))
          else first_marker file func_node rest
      | _ => first_marker file func_node rest
      end
  end.

Definition _extract_endpoint_from_function (file : entry)
    (func_node : funcdef) : res (option EndpointInfo) :=
  first_marker file func_node (decorator_list func_node).

(** The [for node in ast.walk(tree)] loop; an exception leaves it. *)
Fixpoint visit (file : entry) (nodes : list node) (s : state)
  : res unit * state :=
  match nodes with
  | [] => (Ok tt, s)
  | FunctionDef f _ :: rest =>
      match _extract_endpoint_from_function file f with
      | Ok (Some endpoint) => visit file rest (append_endpoint endpoint s)
      | Ok None => visit file rest s
      | Raise e => (Raise e, s)
      end
  | _ :: rest => visit file rest s
  end.

Definition _analyze_file (p : project) (file : entry) (s : state) : state :=
  match read_and_parse file with
  | Raise e => print (ErrorAnalyzing (path_str p file) e) s
  | Ok t =>
      match visit file (walk t) s with
      | (Ok _, s') => s'
      | (Raise e, s') => print (ErrorAnalyzing (path_str p file) e) s'
      end
  end.

Definition analyze_files (p : project) (files : list entry) (s : state) : state :=
  fold_left
    (fun s file => if _should_skip_file p file then s else _analyze_file p file s)
    files s.

(** [analyze]: the returned list and the state it leaves. *)
Definition analyze (p : project) (s : state) : list EndpointInfo * state :=
  let s := {| endpoints := []; stdout := stdout s |} in
  let s := analyze_files p (python_files p) s in
  (endpoints s, s).

End WithUnparse.

End FastAPI.

(* ===================================================================== *)
(** ** The regular expressions of the analyzers *)
(* ===================================================================== *)

(** Each pattern of the source is written out as the matcher Python's
    backtracking engine amounts to on it. A matcher is tried at a position
    of the text and answers with the captured groups and the number of
    characters the match spans. *)
Module Re.
Import Py.

(** The rest of [s] after the literal [lit]. *)
Fixpoint literal (lit s : string) : option string :=
  match lit with
  | EmptyString => Some s
  | String a lit' =>
      match s with
      | String b s' => if Ascii.eqb a b then literal lit' s' else None
      | EmptyString => None
      end
  end.

(** The longest prefix of [s] made of [cls] characters, and the rest. *)
Fixpoint span (cls : ascii -> bool) (s : string) : string * string :=
  match s with
  | EmptyString => (EmptyString, EmptyString)
  | String c r =>
      if cls c then let '(a, b) := span cls r in (String c a, b)
      else (EmptyString, s)
  end.

(** The class of the two quote characters, written [Q] below. *)
Definition is_quote (c : ascii) : bool :=
  (Ascii.eqb c (ascii_of_nat 39) || Ascii.eqb c (ascii_of_nat 34))%bool.

Definition quote (s : string) : option string :=
  match s with
  | String c r => if is_quote c then Some r else None
  | EmptyString => None
  end.

Definition spanned (s rest : string) : nat := String.length s - String.length rest.

(** [(\w+)]: at least one word character, as many as there are. *)
Definition word (s : string) : option (string * string) :=
  match span is_word s with
  | (EmptyString, _) => None
  | (w, rest) => Some (w, rest)
  end.

(** [router\.register\(r?Q([^Q]+)Q,\s*(?:views\.)?(\w+)] *)
Definition router_pattern (s : string) : option ((string * string) * nat) :=
  r0 ← literal "router.register(" s;
  let r1 := match r0 with
            | String c r => if Ascii.eqb c "r" then r else r0
            | EmptyString => r0
            end in
  r2 ← quote r1;
  let '(g1, r3) := span (fun c => negb (is_quote c)) r2 in
  if String.eqb g1 "" then None else
  r4 ← quote r3;
  r5 ← literal "," r4;
  let r6 := snd (span is_space r5) in
  let plain := '(g2, rest) ← word r6; Some ((g1, g2), spanned s rest) in
  match literal "views." r6 with
  | Some r7 =>
      match word r7 with
      | Some (g2, rest) => Some ((g1, g2), spanned s rest)
      | None => plain
      end
  | None => plain
  end.

(** What follows [(.+?)] in the path pattern:
    [Q,\s*(?:\w+\.)?(\w+)(?:\.as_view\(\))?]. The second group and
    the rest of the text. *)
Definition path_tail (s : string) : option (string * string) :=
  r0 ← quote s;
  r1 ← literal "," r0;
  let r2 := snd (span is_space r1) in
  '(w1, r3) ← word r2;
  let '(g2, r4) :=
    match literal "." r3 with
    | Some r5 =>
        match word r5 with
        | Some (w2, r6) => (w2, r6)
        | None => (w1, r3)
        end
    | None => (w1, r3)
    end in
  match literal ".as_view()" r4 with
  | Some r7 => Some (g2, r7)
  | None => Some (g2, r4)
  end.

(** [(.+?)]: the fewest characters, none of them a newline and at least
    one, after which the rest of the pattern matches. *)
Fixpoint lazy_dots (taken s : string) : option (string * (string * string)) :=
  match s with
  | EmptyString => None
  | String c r =>
      if Ascii.eqb c newline then None
      else
        let taken' := taken ++ String c EmptyString in
        match path_tail r with
        | Some t => Some (taken', t)
        | None => lazy_dots taken' r
        end
  end.

(** [path\(Q(.+?)Q,\s*(?:\w+\.)?(\w+)(?:\.as_view\(\))?] *)
Definition path_pattern (s : string) : option ((string * string) * nat) :=
  r0 ← literal "path(" s;
  r1 ← quote r0;
  '(g1, (g2, rest)) ← lazy_dots "" r1;
  Some ((g1, g2), spanned s rest).

(** [pattern.finditer(content)]: matches are looked for from left to
    right and do not overlap. [skip] counts the characters of the last
    match still to pass. *)
Fixpoint finditer_from {A} (pattern : string -> option (A * nat))
    (skip : nat) (s : string) : list A :=
  match skip with
  | S k =>
      match s with
      | String _ r => finditer_from pattern k r
      | EmptyString => []
      end
  | O =>
      match pattern s with
      | Some (groups, len) =>
          groups :: match s with
                    | String _ r => finditer_from pattern (len - 1) r
                    | EmptyString => []
                    end
      | None =>
          match s with
          | String _ r => finditer_from pattern O r
          | EmptyString => []
          end
      end
  end.

Definition finditer {A} (pattern : string -> option (A * nat)) (s : string)
  : list A := finditer_from pattern O s.

(** [^\s*from X|^\s*import X] tried at the start of a line. *)
Definition import_here (module : string) (s : string) : bool :=
  let r := snd (span is_space s) in
  (String.prefix ("from " ++ module) r || String.prefix ("import " ++ module) r)%bool.

(** [re.compile(r'^\s*from X|^\s*import X', re.MULTILINE).search]. *)
Fixpoint search_import_from (module : string) (line_start : bool) (s : string)
  : bool :=
  ((line_start && import_here module s) ||
   match s with
   | EmptyString => false
   | String c r => search_import_from module (Ascii.eqb c newline) r
   end)%bool.

Definition search_import (module content : string) : bool :=
  search_import_from module true content.

End Re.

(* ===================================================================== *)
(** ** django_analyzer.py *)
(* ===================================================================== *)

Module Django.
Import Py Ast Fs Base.

(** An entry of [self.url_patterns]. *)
Inductive url_pattern :=
| Router (prefix viewset file : string)
| PathDecl (path view file : string).

(** An entry of [self.serializers]. *)
Record serializer_info := {
  fields : list string;
  s_file : string
}.

(** What [_parse_action_decorator] returns. *)
Record custom_action := {
  ca_name : string;
  ca_methods : list constant;
  ca_detail : constant;
  ca_docstring : option string;
  ca_line : Z
}.

Record method_info := {
  mi_method : string;
  mi_docstring : option string;
  mi_line : Z
}.

(** The dictionary [_extract_viewset] builds. *)
Record viewset_info := {
  vs_name : string;
  vs_file : string;
  vs_line : Z;
  vs_serializer : option string;
  vs_queryset : option string;
  vs_actions : list string;
  vs_custom_actions : list custom_action;
  vs_docstring : option string
}.

(** The dictionary [_extract_apiview] and [_extract_function_based_view]
    build. *)
Record apiview_info := {
  av_name : string;
  av_file : string;
  av_line : Z;
  av_methods : list method_info;
  av_docstring : option string
}.

(** A value of [self.viewsets], which holds both kinds. *)
Inductive view :=
| ViewSet (v : viewset_info)
| ApiView (a : apiview_info).

Definition view_name (v : view) : string :=
  match v with ViewSet i => vs_name i | ApiView i => av_name i end.
Definition view_file (v : view) : string :=
  match v with ViewSet i => vs_file i | ApiView i => av_file i end.
Definition view_line (v : view) : Z :=
  match v with ViewSet i => vs_line i | ApiView i => av_line i end.
Definition view_docstring (v : view) : option string :=
  match v with ViewSet i => vs_docstring i | ApiView i => av_docstring i end.
(** [viewset.get(key, [])] and [viewset.get(key)]. *)
Definition get_actions (v : view) : list string :=
  match v with ViewSet i => vs_actions i | ApiView _ => [] end.
Definition get_custom_actions (v : view) : list custom_action :=
  match v with ViewSet i => vs_custom_actions i | ApiView _ => [] end.
Definition get_serializer (v : view) : option string :=
  match v with ViewSet i => vs_serializer i | ApiView _ => None end.
Definition get_methods (v : view) : list method_info :=
  match v with ViewSet _ => [] | ApiView i => av_methods i end.

(** The attributes of a [DjangoAnalyzer], and the text printed so far. *)
Record state := {
  endpoints : list EndpointInfo;
  url_patterns : list url_pattern;
  viewsets : gmap string view;
  serializers : gmap string serializer_info;
  stdout : list diagnostic
}.

(** [__init__]. *)
Definition init : state :=
  {| endpoints := []; url_patterns := []; viewsets := ∅; serializers := ∅;
     stdout := [] |}.

Definition print (d : diagnostic) (s : state) : state :=
  {| endpoints := endpoints s; url_patterns := url_patterns s;
     viewsets := viewsets s; serializers := serializers s;
     stdout := stdout s ++ [d] |}.

Definition set_endpoints (es : list EndpointInfo) (s : state) : state :=
  {| endpoints := es; url_patterns := url_patterns s;
     viewsets := viewsets s; serializers := serializers s;
     stdout := stdout s |}.

Definition append_endpoint (e : EndpointInfo) (s : state) : state :=
  set_endpoints (endpoints s ++ [e]) s.

Definition append_pattern (u : url_pattern) (s : state) : state :=
  {| endpoints := endpoints s; url_patterns := url_patterns s ++ [u];
     viewsets := viewsets s; serializers := serializers s;
     stdout := stdout s |}.

Definition set_view (k : string) (v : view) (s : state) : state :=
  {| endpoints := endpoints s; url_patterns := url_patterns s;
     viewsets := <[k := v]> (viewsets s); serializers := serializers s;
     stdout := stdout s |}.

Definition set_serializer (k : string) (i : serializer_info) (s : state) : state :=
  {| endpoints := endpoints s; url_patterns := url_patterns s;
     viewsets := viewsets s; serializers := <[k := i]> (serializers s);
     stdout := stdout s |}.

Definition standard_actions : list string :=
  ["list"; "retrieve"; "create"; "update"; "partial_update"; "destroy"].

Definition http_methods : list string :=
  ["get"; "post"; "put"; "patch"; "delete"; "head"; "options"].

(** The literal elements of a list display: [elt.value for elt in elts
    if isinstance(elt, ast.Constant)]. *)
Definition constant_elts (elts : list expr) : list constant :=
  flat_map (fun elt => match elt with EConstant v => [v] | _ => [] end) elts.

(** [m.upper()] on a literal: only strings have the method. *)
Definition upper_method (m : constant) : res string :=
  match m with
  | CStr s => Ok (upper s)
  | _ => Raise AttributeError
  end.

Fixpoint map_res {A B} (f : A -> res B) (l : list A) : res (list B) :=
  match l with
  | [] => Ok []
  | x :: r => bind (f x) (fun y => bind (map_res f r) (fun ys => Ok (y :: ys)))
  end.

Definition _extract_serializer_fields (body : list node) : list string :=
  flat_map
    (fun item =>
       match item with
       | Assign targets _ =>
           flat_map (fun target => match target with
                                   | EName id => [id]
                                   | _ => []
                                   end) targets
       | AnnAssign (EName id) => [id]
       | _ => []
       end) body.

Fixpoint serializer_class_in (targets : list expr) (value : expr) : option string :=
  match targets with
  | [] => None
  | EName id :: rest =>
      if String.eqb id "serializer_class" then
        match value with
        | EName v => Some v
        | _ => serializer_class_in rest value
        end
      else serializer_class_in rest value
  | _ :: rest => serializer_class_in rest value
  end.

Fixpoint _get_serializer_class (body : list node) : option string :=
  match body with
  | [] => None
  | Assign targets value :: rest =>
      match serializer_class_in targets value with
      | Some v => Some v
      | None => _get_serializer_class rest
      end
  | _ :: rest => _get_serializer_class rest
  end.

Definition _get_queryset_model (body : list node) : option string := None.

Definition _extract_viewset_actions (body : list node) : list string :=
  flat_map
    (fun item =>
       match item with
       | FunctionDef f _ =>
           if str_in (fname f) standard_actions then [fname f] else []
       | _ => []
       end) body.

Definition _is_action_decorator (decorator : expr) : bool :=
  match decorator with
  | ECall (EName id) _ _ => String.eqb id "action"
  | EName id => String.eqb id "action"
  | _ => false
  end.

Definition _parse_action_decorator (decorator : expr) (func : funcdef)
  : option custom_action :=
  match decorator with
  | ECall _ _ keywords =>
      let '(methods, detail) :=
        fold_left
          (fun (md : list constant * constant) (kw : keyword) =>
             if kw_is "methods" kw then
               match kw_value kw with
               | EList elts => (constant_elts elts, snd md)
               | _ => md
               end
             else if kw_is "detail" kw then
               match kw_value kw with
               | EConstant v => (fst md, v)
               | _ => md
               end
             else md)
          keywords ([CStr "get"], CBool false) in
      Some {| ca_name := fname func; ca_methods := methods;
              ca_detail := detail; ca_docstring := fdoc func;
              ca_line := flineno func |}
  | _ => None
  end.

Definition _extract_custom_actions (body : list node) : list custom_action :=
  flat_map
    (fun item =>
       match item with
       | FunctionDef f _ =>
           flat_map
             (fun decorator =>
                if _is_action_decorator decorator then
                  match _parse_action_decorator decorator f with
                  | Some action_info => [action_info]
                  | None => []
                  end
                else []) (decorator_list f)
       | _ => []
       end) body.

Definition _extract_apiview_methods (body : list node) : list method_info :=
  flat_map
    (fun item =>
       match item with
       | FunctionDef f _ =>
           if str_in (fname f) http_methods then
             [{| mi_method := upper (fname f); mi_docstring := fdoc f;
                 mi_line := flineno f |}]
           else []
       | _ => []
       end) body.

Definition _has_api_view_decorator (f : funcdef) : bool :=
  existsb
    (fun decorator =>
       match decorator with
       | ECall (EName id) _ _ => String.eqb id "api_view"
       | EName id => String.eqb id "api_view"
       | _ => false
       end) (decorator_list f).

Fixpoint api_view_methods (decorators : list expr) : list constant :=
  match decorators with
  | [] => []
  | ECall (EName id) (EList elts :: _) _ :: rest =>
      if String.eqb id "api_view" then constant_elts elts
      else api_view_methods rest
  | _ :: rest => api_view_methods rest
  end.

Definition _parse_api_view_decorator (f : funcdef) : list constant :=
  api_view_methods (decorator_list f).

Definition _extract_function_based_view (file : entry) (f : funcdef) (s : state)
  : res unit * state :=
  let methods := _parse_api_view_decorator f in
  let methods := match methods with [] => [CStr "GET"] | _ => methods end in
  match map_res
          (fun m => bind (upper_method m)
                      (fun u => Ok {| mi_method := u; mi_docstring := fdoc f;
                                      mi_line := flineno f |}))
          methods with
  | Raise e => (Raise e, s)
  | Ok infos =>
      let fbv_info :=
        {| av_name := fname f; av_file := rel_str file; av_line := flineno f;
           av_methods := infos; av_docstring := fdoc f |} in
      (Ok tt, set_view (fname f) (ApiView fbv_info) s)
  end.

Definition _extract_viewset (file : entry) (c : classdef) (body : list node)
    (s : state) : state :=
  let viewset_info :=
    {| vs_name := cname c; vs_file := rel_str file; vs_line := clineno c;
       vs_serializer := _get_serializer_class body;
       vs_queryset := _get_queryset_model body;
       vs_actions := _extract_viewset_actions body;
       vs_custom_actions := _extract_custom_actions body;
       vs_docstring := cdoc c |} in
  set_view (cname c) (ViewSet viewset_info) s.

Definition _extract_apiview (file : entry) (c : classdef) (body : list node)
    (s : state) : state :=
  let apiview_info :=
    {| av_name := cname c; av_file := rel_str file; av_line := clineno c;
       av_methods := _extract_apiview_methods body; av_docstring := cdoc c |} in
  set_view (cname c) (ApiView apiview_info) s.

Inductive view_type := viewset | apiview.

Section WithUnparse.
(** [ast.unparse], the standard library's printer. *)
Variable unparse : expr -> string.

Definition _is_serializer_class (c : classdef) : bool :=
  existsb (fun base => contains "Serializer" (unparse base)) (bases c).

Fixpoint view_type_of (bases : list expr) : option view_type :=
  match bases with
  | [] => None
  | base :: rest =>
      let base_name := unparse base in
      if contains "ViewSet" base_name then Some viewset
      else if (contains "APIView" base_name
               || contains "GenericAPIView" base_name)%bool then Some apiview
      else view_type_of rest
  end.

Definition _get_view_type (c : classdef) : option view_type :=
  view_type_of (bases c).

Definition _extract_serializers (p : project) (file : entry) (s : state) : state :=
  match read_and_parse file with
  | Raise e => print (ErrorExtractingSerializers (path_str p file) e) s
  | Ok t =>
      fold_left
        (fun s n =>
           match n with
           | ClassDef c body =>
               if _is_serializer_class c then
                 set_serializer (cname c)
                   {| fields := _extract_serializer_fields body;
                      s_file := rel_str file |} s
               else s
           | _ => s
           end)
        (walk t) s
  end.

(** The [for node in ast.walk(tree)] loop of [_extract_views]; an
    exception leaves it. *)
Fixpoint visit_views (file : entry) (nodes : list node) (s : state)
  : res unit * state :=
  match nodes with
  | [] => (Ok tt, s)
  | ClassDef c body :: rest =>
      match _get_view_type c with
      | Some viewset => visit_views file rest (_extract_viewset file c body s)
      | Some apiview => visit_views file rest (_extract_apiview file c body s)
      | None => visit_views file rest s
      end
  | FunctionDef f _ :: rest =>
      if _has_api_view_decorator f then
        match _extract_function_based_view file f s with
        | (Ok _, s') => visit_views file rest s'
        | (Raise e, s') => (Raise e, s')
        end
      else visit_views file rest s
  | _ :: rest => visit_views file rest s
  end.

Definition _extract_views (p : project) (file : entry) (s : state) : state :=
  match read_and_parse file with
  | Raise e => print (ErrorExtractingViews (path_str p file) e) s
  | Ok t =>
      match visit_views file (walk t) s with
      | (Ok _, s') => s'
      | (Raise e, s') => print (ErrorExtractingViews (path_str p file) e) s'
      end
  end.

Definition non_view_names : list string :=
  ["include"; "path"; "re_path"; "name"; "basename"].

Definition _parse_url_patterns (p : project) (file : entry) (s : state) : state :=
  match content file with
  | None => print (ErrorParsingUrlPatterns (path_str p file) OSError) s
  | Some text =>
      let s :=
        fold_left
          (fun s m =>
             let '(url_prefix, viewset_name) := m in
             if String.eqb viewset_name "basename" then s
             else append_pattern (Router url_prefix viewset_name (rel_str file)) s)
          (Re.finditer Re.router_pattern text) s in
      fold_left
        (fun s m =>
           let '(url_path, view_name) := m in
           if str_in view_name non_view_names then s
           else append_pattern (PathDecl url_path view_name (rel_str file)) s)
        (Re.finditer Re.path_pattern text) s
  end.

Definition _get_viewset_parameters (action : string) : list EndpointParameter :=
  let parameters : list EndpointParameter := [] in
  let parameters :=
    if str_in action ["retrieve"; "update"; "partial_update"; "destroy"]
    then (parameters ++ [mkParam "id" "path" "int" true None])%list
    else parameters in
  let parameters :=
    if String.eqb action "list"
    then (parameters ++ [mkParam "page" "query" "int" false None;
                         mkParam "page_size" "query" "int" false None])%list
    else parameters in
  parameters.

(** The dictionary [action_mappings], in insertion order. *)
Definition action_mappings (prefix : string) : list (string * (string * string)) :=
  [("list", ("GET", "/" ++ prefix ++ "/"));
   ("create", ("POST", "/" ++ prefix ++ "/"));
   ("retrieve", ("GET", "/" ++ prefix ++ "/{id}/"));
   ("update", ("PUT", "/" ++ prefix ++ "/{id}/"));
   ("partial_update", ("PATCH", "/" ++ prefix ++ "/{id}/"));
   ("destroy", ("DELETE", "/" ++ prefix ++ "/{id}/"))].

Fixpoint lookup_action (action : string) (m : list (string * (string * string)))
  : option (string * string) :=
  match m with
  | [] => None
  | (k, v) :: rest => if String.eqb action k then Some v else lookup_action action rest
  end.

(** The endpoint built for a standard action found in the table. *)
Definition standard_endpoint (prefix : string) (vs : view) (action : string)
    (method path : string) : EndpointInfo :=
  let '(summary, description) := _parse_docstring (view_docstring vs) in
  {| Base.path := CStr path;
     method := method;
     function_name := action;
     summary := Some (str_or summary (title action ++ " " ++ prefix));
     ep_description := description;
     parameters := _get_viewset_parameters action;
     request_model := get_serializer vs;
     response_model := get_serializer vs;
     tags := [CStr (title prefix)];
     status_code :=
       if String.eqb method "GET" then CInt 200
       else if String.eqb method "POST" then CInt 201 else CInt 200;
     file_path := view_file vs;
     line_number := view_line vs |}.

(** The endpoint built for one method of a custom action; [method.upper()]
    may raise. *)
Definition custom_endpoint (prefix : string) (vs : view) (ca : custom_action)
    (method : constant) : res EndpointInfo :=
  let path_suffix :=
    if truthy (ca_detail ca) then "{id}/" ++ ca_name ca ++ "/"
    else ca_name ca ++ "/" in
  let path := "/" ++ prefix ++ "/" ++ path_suffix in
  let '(summary, description) := _parse_docstring (ca_docstring ca) in
  bind (upper_method method)
    (fun m =>
       Ok {| Base.path := CStr path;
             method := m;
             function_name := ca_name ca;
             summary := Some (str_or summary (title (ca_name ca) ++ " " ++ prefix));
             ep_description := description;
             parameters := [];
             request_model := None;
             response_model := None;
             tags := [CStr (title prefix)];
             status_code := CInt 200;
             file_path := view_file vs;
             line_number := ca_line ca |}).

(** A loop whose body may raise: the state reached, and whether the loop
    ran to its end. *)
Fixpoint for_each {A} (body : A -> state -> res unit * state) (l : list A)
    (s : state) : res unit * state :=
  match l with
  | [] => (Ok tt, s)
  | x :: rest =>
      match body x s with
      | (Ok _, s') => for_each body rest s'
      | (Raise e, s') => (Raise e, s')
      end
  end.

Definition _create_viewset_endpoints (prefix : string) (vs : view) (s : state)
  : res unit * state :=
  let actions := get_actions vs in
  let actions :=
    match actions with
    | [] => map fst (action_mappings prefix)
    | _ => actions
    end in
  let s :=
    fold_left
      (fun s action =>
         match lookup_action action (action_mappings prefix) with
         | Some (method, path) =>
             append_endpoint (standard_endpoint prefix vs action method path) s
         | None => s
         end)
      actions s in
  for_each
    (fun ca s =>
       for_each
         (fun method s =>
            match custom_endpoint prefix vs ca method with
            | Ok endpoint => (Ok tt, append_endpoint endpoint s)
            | Raise e => (Raise e, s)
            end)
         (ca_methods ca) s)
    (get_custom_actions vs) s.

Definition _create_apiview_endpoints (path : string) (v : view) (s : state)
  : state :=
  fold_left
    (fun s method_info =>
       let '(summary, description) := _parse_docstring (view_docstring v) in
       append_endpoint
         {| Base.path := CStr ("/" ++ path);
            method := mi_method method_info;
            function_name := view_name v;
            summary := Some (str_or summary (view_name v));
            ep_description := description;
            parameters := [];
            request_model := None;
            response_model := None;
            tags := [CStr "API"];
            status_code := CInt 200;
            file_path := view_file v;
            line_number := view_line v |} s)
    (get_methods v) s.

(** One turn of the loop of [_create_endpoints_from_patterns]. *)
Definition join_pattern (pattern : url_pattern) (s : state) : res unit * state :=
  match pattern with
  | Router prefix viewset_name _ =>
      match viewsets s !! viewset_name with
      | Some vs => _create_viewset_endpoints prefix vs s
      | None => (Ok tt, s)
      end
  | PathDecl path view_name _ =>
      match viewsets s !! view_name with
      | Some v => (Ok tt, _create_apiview_endpoints path v s)
      | None => (Ok tt, s)
      end
  end.

Definition _create_endpoints_from_patterns (s : state) : res unit * state :=
  for_each join_pattern (url_patterns s) s.

Definition pass1 (p : project) (files : list entry) (s : state) : state :=
  fold_left
    (fun s file =>
       if (_should_skip_file p file
           || negb (contains "serializers" (path_str p file)))%bool then s
       else _extract_serializers p file s)
    files s.

Definition pass2 (p : project) (files : list entry) (s : state) : state :=
  fold_left
    (fun s file =>
       if (_should_skip_file p file || contains "admin" (path_str p file))%bool
       then s
       else _extract_views p file s)
    files s.

Definition pass3 (p : project) (files : list entry) (s : state) : state :=
  fold_left
    (fun s file =>
       if contains "urls.py" (Fs.name file) then _parse_url_patterns p file s
       else s)
    files s.

(** [analyze]: the returned list, or the exception that escapes, and the
    state the call leaves. *)
Definition analyze (p : project) (s : state)
  : res (list EndpointInfo) * state :=
  let s := set_endpoints [] s in
  let python_files := python_files p in
  let s := pass1 p python_files s in
  let s := pass2 p python_files s in
  let s := pass3 p python_files s in
  match _create_endpoints_from_patterns s with
  | (Ok _, s') => (Ok (endpoints s'), s')
  | (Raise e, s') => (Raise e, s')
  end.

End WithUnparse.

End Django.

(* ===================================================================== *)
(** ** detector.py *)
(* ===================================================================== *)

Module Detector.
Import Py Ast Fs.

(** [(project_path / name).exists()]. *)
Definition exists_at_root (p : project) (name : string) : bool :=
  existsb
    (fun e => match parts e with
              | [n] => String.eqb n name
              | _ => false
              end) (entries p).

(** The name of the directory holding an entry, when it is not the
    root. *)
Fixpoint parent_name (parts : list string) : option string :=
  match parts with
  | [d; _] => Some d
  | _ :: rest => parent_name rest
  | [] => None
  end.

(** [project_path.glob(pattern)] for the two settings patterns. *)
Inductive settings_pattern :=
| any_settings_py      (* **/settings.py *)
| any_settings_dir_py. (* **/settings/*.py *)

Definition glob (p : project) (pattern : settings_pattern) : list entry :=
  match pattern with
  | any_settings_py =>
      List.filter (fun e => String.eqb (Fs.name e) "settings.py") (entries p)
  | any_settings_dir_py =>
      List.filter
        (fun e => match parent_name (parts e) with
                  | Some d => (String.eqb d "settings"
                               && endswith ".py" (Fs.name e))%bool
                  | None => false
                  end) (entries p)
  end.

Definition settings_patterns : list settings_pattern :=
  [any_settings_py; any_settings_dir_py].

(** [l[:n]]. *)
Definition sample (n : nat) (l : list entry) : list entry := firstn n l.

(** The loop over the sampled files: a file that cannot be read is
    passed over. *)
Definition scan_imports (module : string) (files : list entry) : bool :=
  existsb
    (fun py_file => match content py_file with
                    | Some text => Re.search_import module text
                    | None => false
                    end) files.

Definition _is_django_project (p : project) : bool :=
  if exists_at_root p "manage.py" then true
  else if existsb (fun pattern => match glob p pattern with
                                  | [] => false
                                  | _ => true
                                  end) settings_patterns then true
  else
    let python_files := sample 20 (python_files p) in
    if scan_imports "django" python_files then true else false.

Definition _is_fastapi_project (p : project) : bool :=
  let python_files := sample 20 (python_files p) in
  if scan_imports "fastapi" python_files then true else false.

Definition detect_framework (p : project) : string :=
  if _is_django_project p then "django"
  else if _is_fastapi_project p then "fastapi"
  else "fastapi".

(** The analyzer [get_analyzer] makes, bound to a project path. *)
Inductive analyzer :=
| FastAPIAnalyzer (project_path : string)
| DjangoAnalyzer (project_path : string).

(** What a call of [get_analyzer] gives: an analyzer, or the [ValueError]
    it raises, with its message. *)
Inductive made :=
| Made (a : analyzer)
| ValueError (message : string).

Definition get_analyzer (framework project_path : string) : made :=
  if String.eqb framework "fastapi" then Made (FastAPIAnalyzer project_path)
  else if String.eqb framework "django" then Made (DjangoAnalyzer project_path)
  else ValueError ("Unsupported framework: " ++ framework ++
                   ". Supported: fastapi, django").

End Detector.

(* ===================================================================== *)
(** ** The notions the properties are stated with *)
(* ===================================================================== *)

Module Notions.
Import Py Ast Fs Base.

(** *** Single-pass extractor *)

(** The parameters that are kept: all but [self] and [cls]. *)
Definition declared (args : list arg) : list arg :=
  List.filter (fun a => negb (str_in (arg_name a) ["self"; "cls"])) args.

(** The first of the three words found in the annotation text decides. *)
Definition location_spec (type_str location : string) : Prop :=
  (location = "path" <-> contains "Path" type_str = true) /\
  (location = "body" <->
     contains "Path" type_str = false /\ contains "Body" type_str = true) /\
  (location = "header" <->
     contains "Path" type_str = false /\ contains "Body" type_str = false /\
     contains "Header" type_str = true) /\
  (location = "query" <->
     contains "Path" type_str = false /\ contains "Body" type_str = false /\
     contains "Header" type_str = false).

(** What the record built for a parameter says. *)
Definition param_spec (unparse : expr -> string) (a : arg) (q : EndpointParameter)
  : Prop :=
  name q = arg_name a /\
  (required q = false <-> default q <> None) /\
  match annotation a with
  | Some ann =>
      data_type q = FastAPI._get_type_string unparse ann /\
      location_spec (FastAPI._get_type_string unparse ann) (param_type q)
  | None => data_type q = "string" /\ param_type q = "query"
  end.

(** A decorator on which [if method and path] holds. *)
Definition is_marker (d : expr) : bool :=
  FastAPI.method_and_path (FastAPI._parse_decorator d FastAPI.http_methods).


(** The decorator is a call without the keyword [name]. *)
Definition no_keyword (name : string) (d : expr) : Prop :=
  match d with
  | ECall _ _ keywords => Forall (fun kw => kw_is name kw = false) keywords
  | _ => True
  end.

(** A single-pass analyzer that has found and printed nothing. *)
Definition fresh : FastAPI.state :=
  {| FastAPI.endpoints := []; FastAPI.stdout := [] |}.

(** The endpoints a list of nodes contributes. *)
Definition extracted (unparse : expr -> string) (file : entry) (nodes : list node)
  : list EndpointInfo :=
  FastAPI.endpoints (snd (FastAPI.visit unparse file nodes fresh)).

(** The endpoints a file contributes when it is analysed. *)
Definition file_endpoints (unparse : expr -> string) (file : entry)
  : list EndpointInfo :=
  match read_and_parse file with
  | Ok t => extracted unparse file (walk t)
  | Raise _ => []
  end.

(** What [analyze] returns: the endpoints of the files that are not
    skipped, file after file. *)
Definition inventory (unparse : expr -> string) (p : project) (files : list entry)
  : list EndpointInfo :=
  flat_map
    (fun file => if _should_skip_file p file then []
                 else file_endpoints unparse file) files.

(** *** Multi-pass extractor *)

(** The six standard actions in the order of the table. *)
Definition table_actions : list string :=
  ["list"; "create"; "retrieve"; "update"; "partial_update"; "destroy"].

(** The actions endpoints are made for: the recorded ones, or the whole
    table when none is recorded. *)
Definition effective_actions (vs : Django.view) : list string :=
  match Django.get_actions vs with
  | [] => table_actions
  | l => l
  end.

(** The endpoints of the standard actions. *)
Definition standard_part (prefix : string) (vs : Django.view) (actions : list string)
  : list EndpointInfo :=
  flat_map
    (fun action =>
       match Django.lookup_action action (Django.action_mappings prefix) with
       | Some (method, path) => [Django.standard_endpoint prefix vs action method path]
       | None => []
       end) actions.

(** An endpoint made for a method of a custom action of [vs]. *)
Definition is_custom_endpoint (prefix : string) (vs : Django.view) (e : EndpointInfo)
  : Prop :=
  exists ca m,
    In ca (Django.get_custom_actions vs) /\ In m (Django.ca_methods ca) /\
    Django.custom_endpoint prefix vs ca m = Ok e.

(** The endpoints of a class-based or function-based view. *)
Definition apiview_part (path : string) (v : Django.view) : list EndpointInfo :=
  Django.endpoints (Django._create_apiview_endpoints path v Django.init).

(** The name a URL declaration is joined on. *)
Definition target (pattern : Django.url_pattern) : string :=
  match pattern with
  | Django.Router _ viewset_name _ => viewset_name
  | Django.PathDecl _ view_name _ => view_name
  end.

(** The URL declarations pass 3 finds in a project. *)
Definition declarations (p : project) : list Django.url_pattern :=
  Django.url_patterns (Django.pass3 p (python_files p) Django.init).

(** The status code the join gives to the endpoint of a standard
    action. *)
Definition joined_status (action : string) : constant :=
  if String.eqb action "create" then CInt 201 else CInt 200.

(** The standard actions that have a row in the table. *)
Definition in_table (actions : list string) : list string :=
  List.filter (fun a => str_in a table_actions) actions.

(** The fixed table of the join: the method and the path suffix of each
    standard action. *)
Definition fixed_table (action : string) : option (string * string) :=
  if String.eqb action "list" then Some ("GET", "/")
  else if String.eqb action "create" then Some ("POST", "/")
  else if String.eqb action "retrieve" then Some ("GET", "/{id}/")
  else if String.eqb action "update" then Some ("PUT", "/{id}/")
  else if String.eqb action "partial_update" then Some ("PATCH", "/{id}/")
  else if String.eqb action "destroy" then Some ("DELETE", "/{id}/")
  else None.

(** The endpoint [e] is the row of the table for [action] under
    [prefix]. *)
Definition table_row (prefix action : string) (e : EndpointInfo) : Prop :=
  function_name e = action /\
  exists method suffix,
    fixed_table action = Some (method, suffix) /\
    Base.method e = method /\ Base.path e = CStr ("/" ++ prefix ++ suffix).

(** *** Detector *)

(** The signals of the split convention, in the order they are looked
    for: the marker file at the root, a settings module, a Django import
    in one of the first twenty Python files that can be read. *)
Definition django_signal (p : project) : Prop :=
  Detector.exists_at_root p "manage.py" = true \/
  Detector.glob p Detector.any_settings_py <> [] \/
  Detector.glob p Detector.any_settings_dir_py <> [] \/
  exists file text,
    In file (firstn 20 (python_files p)) /\ content file = Some text /\
    Re.search_import "django" text = true.

End Notions.

(* ===================================================================== *)
(** ** Route markers, in the words of the specification *)
(* ===================================================================== *)

Module Markers.
Import Py Ast Fs Base Notions.




End Markers.

(* ===================================================================== *)
(** ** Sample projects *)
(* ===================================================================== *)

Module Samples.
Import Py Ast Fs Base.

(** What [ast.unparse] prints for names, attribute chains and
    subscripts; enough for the samples below. *)
Fixpoint dotted (e : expr) : string :=
  match e with
  | EName id => id
  | EAttribute v a => dotted v ++ "." ++ a
  | ESubscript v i => dotted v ++ "[" ++ dotted i ++ "]"
  | EOther src => src
  | _ => ""
  end.

Definition nl : string := String newline "".

Definition simple_arg (n : string) : arg := {| arg_name := n; annotation := None |}.

Definition method_def (n : string) (params : list string) (line : Z) : node :=
  FunctionDef
    {| fname := n;
       fargs := {| args := map simple_arg params; defaults := [] |};
       decorator_list := []; returns := None; fdoc := None; flineno := line |}
    [Other []].

(** A Django REST project: a viewset that defines [list] and [retrieve],
    registered with a router. *)
Definition product_class : classdef :=
  {| cname := "ProductViewSet";
     bases := [EAttribute (EName "viewsets") "ModelViewSet"];
     cdoc := None; clineno := 2 |}.

Definition product_body : list node :=
  [method_def "list" ["self"; "request"] 3;
   method_def "retrieve" ["self"; "request"; "pk"] 5].

Definition shop_views : entry :=
  {| parts := ["api"; "views.py"];
     content := Some
       ("from rest_framework import viewsets" ++ nl ++
        "class ProductViewSet(viewsets.ModelViewSet):" ++ nl ++
        "    def list(self, request):" ++ nl ++
        "        pass" ++ nl ++
        "    def retrieve(self, request, pk):" ++ nl ++
        "        pass" ++ nl);
     tree := Some (Other [Other []; ClassDef product_class product_body]) |}.

Definition shop_urls : entry :=
  {| parts := ["api"; "urls.py"];
     content := Some
       ("from rest_framework.routers import DefaultRouter" ++ nl ++
        "from . import views" ++ nl ++
        "router = DefaultRouter()" ++ nl ++
        "router.register(r'products', views.ProductViewSet)" ++ nl ++
        "router.register(r'ghosts', views.GhostViewSet)" ++ nl ++
        "urlpatterns = router.urls" ++ nl);
     tree := Some (Other [Other []; Other [];
                          Assign [EName "router"] (ECall (EName "DefaultRouter") [] []);
                          Other []; Other [];
                          Assign [EName "urlpatterns"] (EAttribute (EName "router") "urls")]) |}.

Definition shop : project :=
  {| root := "shop/";
     entries := [ {| parts := ["api"]; content := None; tree := None |};
                  shop_urls; shop_views ] |}.

(** The record kept for [ProductViewSet]. *)
Definition product_info : Django.viewset_info :=
  {| Django.vs_name := "ProductViewSet"; Django.vs_file := "api/views.py";
     Django.vs_line := 2; Django.vs_serializer := None; Django.vs_queryset := None;
     Django.vs_actions := ["list"; "retrieve"]; Django.vs_custom_actions := [];
     Django.vs_docstring := None |}.

(** The analyzer after the three collection passes over [shop]. *)
Definition shop_collected : Django.state :=
  Django.pass3 shop (python_files shop)
    (Django.pass2 dotted shop (python_files shop)
       (Django.pass1 dotted shop (python_files shop) Django.init)).

(** A FastAPI module:
<<
@app.get('/items/{item_id}')
def read_item(item_id: int, q: Optional[str] = None): ...

@app.get('/items')
@app.post('/items')
def items(): ...

@app.put('/files/{name}')
def upload(meta: PathBody): ...
>> *)
Definition route (verb path : string) : expr :=
  ECall (EAttribute (EName "app") verb) [EConstant (CStr path)] [].

Definition read_item : funcdef :=
  {| fname := "read_item";
     fargs := {| args := [ {| arg_name := "item_id"; annotation := Some (EName "int") |};
                           {| arg_name := "q";
                              annotation := Some (ESubscript (EName "Optional") (EName "str")) |} ];
                 defaults := [EConstant CNone] |};
     decorator_list := [route "get" "/items/{item_id}"];
     returns := None; fdoc := None; flineno := 2 |}.

Definition items : funcdef :=
  {| fname := "items";
     fargs := {| args := []; defaults := [] |};
     decorator_list := [route "get" "/items"; route "post" "/items"];
     returns := None; fdoc := None; flineno := 6 |}.

Definition upload : funcdef :=
  {| fname := "upload";
     fargs := {| args := [ {| arg_name := "meta"; annotation := Some (EName "PathBody") |} ];
                 defaults := [] |};
     decorator_list := [route "put" "/files/{name}"];
     returns := None; fdoc := None; flineno := 9 |}.

Definition main_py : entry :=
  {| parts := ["app"; "main.py"];
     content := Some
       ("@app.get('/items/{item_id}')" ++ nl ++
        "def read_item(item_id: int, q: Optional[str] = None): ..." ++ nl ++ nl ++
        "@app.get('/items')" ++ nl ++
        "@app.post('/items')" ++ nl ++
        "def items(): ..." ++ nl ++ nl ++
        "@app.put('/files/{name}')" ++ nl ++
        "def upload(meta: PathBody): ..." ++ nl);
     tree := Some (Other [FunctionDef read_item [Other []];
                          FunctionDef items [Other []];
                          FunctionDef upload [Other []]]) |}.

(** A file that is not Python: [ast.parse] raises on it. *)
Definition broken_py : entry :=
  {| parts := ["app"; "broken.py"];
     content := Some ("def oops(:" ++ nl);
     tree := None |}.

Definition service : project :=
  {| root := "service/";
     entries := [ {| parts := ["app"]; content := None; tree := None |};
                  broken_py; main_py ] |}.

(** A viewset that defines [create] only, and one with a custom action
    on single objects:
<<
class OrderViewSet(viewsets.ViewSet):
    def create(self, request): ...

class UserViewSet(viewsets.ModelViewSet):
    @action(detail=True, methods=['post'])
    def activate(self, request, pk): ...
>> *)
Definition order_class : classdef :=
  {| cname := "OrderViewSet";
     bases := [EAttribute (EName "viewsets") "ViewSet"];
     cdoc := None; clineno := 1 |}.

Definition order_body : list node := [method_def "create" ["self"; "request"] 2].

Definition user_class : classdef :=
  {| cname := "UserViewSet";
     bases := [EAttribute (EName "viewsets") "ModelViewSet"];
     cdoc := None; clineno := 4 |}.

Definition user_body : list node :=
  [FunctionDef
     {| fname := "activate";
        fargs := {| args := map simple_arg ["self"; "request"; "pk"]; defaults := [] |};
        decorator_list :=
          [ECall (EName "action") []
             [(Some "detail", EConstant (CBool true));
              (Some "methods", EList [EConstant (CStr "post")])]];
        returns := None; fdoc := None; flineno := 6 |}
     [Other []]].

Definition orders_views : entry :=
  {| parts := ["orders"; "views.py"];
     content := Some
       ("class OrderViewSet(viewsets.ViewSet):" ++ nl ++
        "    def create(self, request): ..." ++ nl ++ nl ++
        "class UserViewSet(viewsets.ModelViewSet):" ++ nl ++
        "    @action(detail=True, methods=['post'])" ++ nl ++
        "    def activate(self, request, pk): ..." ++ nl);
     tree := Some (Other [ClassDef order_class order_body;
                          ClassDef user_class user_body]) |}.

End Samples.

(* ===================================================================== *)
(** ** The notions of the further properties *)
(* ===================================================================== *)

Module Invariants.
Import Py Ast Fs Base Notions.

(** The text has no line break. *)
Definition one_line (s : string) : Prop := ~ In newline (list_ascii_of_string s).

(** [enumerate(args)], counting from [i]. *)
Fixpoint enumerate_from (i : Z) (l : list arg) : list (Z * arg) :=
  match l with
  | [] => []
  | a :: r => (i, a) :: enumerate_from (i + 1) r
  end.

(** The numbered parameters that are kept: all but [self] and [cls]. *)
Definition kept (l : list (Z * arg)) : list (Z * arg) :=
  List.filter (fun ia => negb (str_in (arg_name (snd ia)) ["self"; "cls"])) l.

(** The text recorded for a default value. *)
Definition default_text (unparse : expr -> string) (d : expr) : string :=
  match d with
  | EConstant v => str v
  | _ => unparse d
  end.

(** The parameter numbered [i] of a function with [defaults] and [q], the
    record made for it: it is optional exactly when it is one of the last
    [len(defaults)] parameters, and then [q] holds the text of the default
    that stands as far from the end of [defaults] as the parameter stands
    from the end of the parameters. *)
Definition aligned (unparse : expr -> string) (defaults : list expr) (num_args : Z)
    (ia : Z * arg) (q : EndpointParameter) : Prop :=
  let first_optional := num_args - Z.of_nat (List.length defaults) in
  name q = arg_name (snd ia) /\
  (fst ia < first_optional -> required q = true /\ default q = None) /\
  (first_optional <= fst ia ->
   exists d,
     nth_error defaults (Z.to_nat (fst ia - first_optional)) = Some d /\
     required q = false /\ default q = Some (default_text unparse d)).

(** [x] is [n] or lies somewhere below it. *)
Inductive inside (x : node) : node -> Prop :=
| inside_here : inside x x
| inside_child (n c : node) : In c (children n) -> inside x c -> inside x n.

(** The endpoint a function definition gives, if any. *)
Definition endpoint_of (unparse : expr -> string) (file : entry) (n : node)
  : list EndpointInfo :=
  match n with
  | FunctionDef f _ =>
      match FastAPI._extract_endpoint_from_function unparse file f with
      | Ok (Some e) => [e]
      | _ => []
      end
  | _ => []
  end.

(** A [status_code] keyword whose value is a literal. *)
Definition literal_status (kw : keyword) : bool :=
  (kw_is "status_code" kw &&
   match kw_value kw with EConstant _ => true | _ => false end)%bool.

(** The annotation makes its parameter the request model. *)
Definition names_request_model (unparse : expr -> string) (a : arg) : bool :=
  match annotation a with
  | Some ann => FastAPI.is_request_type (FastAPI._get_type_string unparse ann)
  | None => false
  end.

(** The record [v] kept under the key [k]: it bears the name it is kept
    under, its standard actions are rows of the table, and its HTTP
    methods are in upper case. *)
Definition record_ok (k : string) (v : Django.view) : Prop :=
  Django.view_name v = k /\
  Forall (fun a => In a table_actions) (Django.get_actions v) /\
  Forall (fun mi => upper (Django.mi_method mi) = Django.mi_method mi)
    (Django.get_methods v).

Definition views_ok (s : Django.state) : Prop :=
  forall k v, Django.viewsets s !! k = Some v -> record_ok k v.

Definition is_string (c : constant) : bool :=
  match c with CStr _ => true | _ => false end.

(** Every method literal of every custom action is a string. *)
Definition methods_are_strings (vs : Django.view) : bool :=
  forallb (fun ca => forallb is_string (Django.ca_methods ca))
    (Django.get_custom_actions vs).

(** The declaration is not a router registration of a viewset with a
    method literal that is not a string. *)
Definition joinable (s : Django.state) (pattern : Django.url_pattern) : bool :=
  match pattern with
  | Django.Router _ viewset_name _ =>
      match Django.viewsets s !! viewset_name with
      | Some vs => methods_are_strings vs
      | None => true
      end
  | Django.PathDecl _ _ _ => true
  end.

Definition outcome (ok : bool) : res unit :=
  if ok then Ok tt else Raise AttributeError.

Fixpoint all_chars (cls : ascii -> bool) (s : string) : bool :=
  match s with
  | EmptyString => true
  | String c r => (cls c && all_chars cls r)%bool
  end.

(** A name made of word characters, at least one. *)
Definition is_name (s : string) : Prop := s <> "" /\ all_chars is_word s = true.

Definition not_newline (c : ascii) : bool := negb (Ascii.eqb c newline).

(** What a recorded URL declaration of the project [p] looks like. *)
Definition declaration_ok (p : project) (pattern : Django.url_pattern) : Prop :=
  (exists file,
      In file (python_files p) /\ contains "urls.py" (Fs.name file) = true /\
      match pattern with
      | Django.Router _ _ f | Django.PathDecl _ _ f => f = rel_str file
      end) /\
  match pattern with
  | Django.Router prefix viewset_name _ =>
      prefix <> "" /\
      all_chars (fun c => negb (Re.is_quote c)) prefix = true /\
      is_name viewset_name /\ viewset_name <> "basename"
  | Django.PathDecl path view_name _ =>
      path <> "" /\ all_chars not_newline path = true /\
      is_name view_name /\ str_in view_name Django.non_view_names = false
  end.

(** The record kept for a class view or a function view. *)
Definition of_view (a : Django.apiview_info) (e : EndpointInfo) : Prop :=
  file_path e = Django.av_file a /\ line_number e = Django.av_line a.

(** The marker file and the settings modules are looked for by name. *)
Definition named_signals (paths : list (list string)) : bool :=
  (existsb (fun parts => match parts with
                         | [n] => String.eqb n "manage.py"
                         | _ => false
                         end) paths
   || existsb (fun parts => String.eqb (List.last parts "") "settings.py") paths
   || existsb (fun parts => match Detector.parent_name parts with
                            | Some d => (String.eqb d "settings"
                                         && endswith ".py" (List.last parts ""))%bool
                            | None => false
                            end) paths)%bool.

(** Two states of the analyzer with the same endpoints, URL declarations
    and views; the serializer records and the diagnostics may differ. *)
Definition same_core (s s' : Django.state) : Prop :=
  Django.endpoints s = Django.endpoints s' /\
  Django.url_patterns s = Django.url_patterns s' /\
  Django.viewsets s = Django.viewsets s'.

(** A step that looks at the core only. *)
Definition respects (f : Django.state -> Django.state) : Prop :=
  forall s s', same_core s s' -> same_core (f s) (f s').

Definition respects_res (f : Django.state -> res unit * Django.state) : Prop :=
  forall s s', same_core s s' ->
    fst (f s) = fst (f s') /\ same_core (snd (f s)) (snd (f s')).

End Invariants.

(* ===================================================================== *)
(** ** More sample projects *)
(* ===================================================================== *)

Module More_samples.
Import Py Ast Fs Base.

(** A route declared as a method of a class inside an [if] block. *)
Definition purge : funcdef :=
  {| fname := "purge";
     fargs := {| args := [Samples.simple_arg "self";
                          {| arg_name := "uid"; annotation := Some (EName "int") |}];
                 defaults := [] |};
     decorator_list := [Samples.route "delete" "/users/{uid}"];
     returns := None; fdoc := None; flineno := 4 |}.

Definition nested_tree : node :=
  Other
    [Other
       [ClassDef {| cname := "Admin"; bases := []; cdoc := None; clineno := 2 |}
          [FunctionDef purge [Other []]]]].

Definition nested_py : entry :=
  {| parts := ["app"; "admin.py"];
     content := Some
       ("if ENABLED:" ++ Samples.nl ++
        "    class Admin:" ++ Samples.nl ++
        "        @app.delete('/users/{uid}')" ++ Samples.nl ++
        "        def purge(self, uid: int): ..." ++ Samples.nl);
     tree := Some nested_tree |}.

(** A function view with a number among its methods, before a viewset:
<<
@api_view(['GET', 405])
def ping(request): ...
class OrderViewSet(viewsets.ViewSet):
    def create(self, request): ...
>> *)
Definition ping : funcdef :=
  {| fname := "ping";
     fargs := {| args := [Samples.simple_arg "request"]; defaults := [] |};
     decorator_list :=
       [ECall (EName "api_view")
          [EList [EConstant (CStr "GET"); EConstant (CInt 405)]] []];
     returns := None; fdoc := None; flineno := 2 |}.

Definition ping_tree : node :=
  Other [FunctionDef ping [Other []];
         ClassDef Samples.order_class Samples.order_body].

Definition ping_views : entry :=
  {| parts := ["orders"; "views.py"];
     content := Some
       ("@api_view(['GET', 405])" ++ Samples.nl ++
        "def ping(request): ..." ++ Samples.nl ++ Samples.nl ++
        "class OrderViewSet(viewsets.ViewSet):" ++ Samples.nl ++
        "    def create(self, request): ..." ++ Samples.nl);
     tree := Some ping_tree |}.

(** A class view:
<<
class HealthView(APIView):
    def get(self, request): ...
    def head(self, request): ...
>> *)
Definition health_class : classdef :=
  {| cname := "HealthView"; bases := [EName "APIView"]; cdoc := None; clineno := 1 |}.

Definition health_body : list node :=
  [Samples.method_def "get" ["self"; "request"] 2;
   Samples.method_def "head" ["self"; "request"] 3;
   Samples.method_def "helper" ["self"] 4].

Definition health_info : Django.apiview_info :=
  {| Django.av_name := "HealthView"; Django.av_file := "orders/views.py";
     Django.av_line := 1;
     Django.av_methods :=
       [ {| Django.mi_method := "GET"; Django.mi_docstring := None; Django.mi_line := 2 |};
         {| Django.mi_method := "HEAD"; Django.mi_docstring := None; Django.mi_line := 3 |} ];
     Django.av_docstring := None |}.

Definition health_state : Django.state :=
  Django._extract_apiview Samples.orders_views health_class health_body Django.init.

Definition twenty_names : list string :=
  ["a.py"; "b.py"; "c.py"; "d.py"; "e.py"; "f.py"; "g.py"; "h.py"; "i.py"; "j.py";
   "k.py"; "l.py"; "m.py"; "n.py"; "o.py"; "p.py"; "q.py"; "r.py"; "s.py"; "t.py"].

(** Twenty modules without imports, and a twenty-first one. *)
Definition flat_project (last : string) : project :=
  {| root := "flat/";
     entries :=
       map (fun n => {| parts := [n]; content := Some "x = 1"; tree := Some (Other []) |})
         twenty_names
       ++ [ {| parts := ["u.py"]; content := Some last; tree := Some (Other []) |} ] |}.

(** A project whose only module imports [django_filters] inside a block. *)
Definition filters_py : entry :=
  {| parts := ["api"; "filters.py"];
     content := Some ("import os" ++ String newline "" ++ "    " ++ "import django" ++ "_filters");
     tree := Some (Other []) |}.

Definition filters_project : project :=
  {| root := "svc/"; entries := [filters_py] |}.


End More_samples.

(* ===================================================================== *)
(** ** Facts about the tree walk *)
(* ===================================================================== *)

Module Ast_facts.
Import Ast.

Lemma height_child (n c : node) :
  In c (children n) -> (height c < height n)%nat.
Proof.
  assert (H : forall body : list node,
             In c body ->
             (height c <=
              (fix heights (ns : list node) : nat :=
                 match ns with
                 | [] => O
                 | m :: ms => Nat.max (height m) (heights ms)
                 end) body)%nat).
  { induction body as [|m ms IH]; intros Hin; [destruct Hin|].
    destruct Hin as [->|Hin]; [lia|]. specialize (IH Hin). lia. }
  destruct n as [f body|cl body|ts v|t|cs]; cbn [children];
    try (intros []); intros Hin; apply H in Hin; cbn [height]; lia.
Qed.

Lemma walk_levels_nil (k : nat) : walk_levels k [] = [].
Proof. induction k as [|k IH]; [reflexivity|]. cbn. exact IH. Qed.

(** Fuel beyond the height of the tallest node of a level changes
    nothing: the walk has reached every node by then. *)
Lemma walk_levels_enough (k : nat) :
  forall (level : list node) (extra : nat),
    Forall (fun n => (height n <= k)%nat) level ->
    walk_levels (k + extra) level = walk_levels k level.
Proof.
  induction k as [|k IH]; intros level extra Hall.
  - destruct level as [|n level].
    + rewrite walk_levels_nil. reflexivity.
    + inversion Hall as [|? ? Hn _]. destruct n; cbn [height] in Hn; lia.
  - cbn [Nat.add walk_levels]. f_equal. apply IH.
    apply List.Forall_forall. intros c Hc. apply in_flat_map in Hc.
    destruct Hc as [n [Hn Hc]].
    rewrite List.Forall_forall in Hall. specialize (Hall n Hn).
    apply height_child in Hc. lia.
Qed.

Lemma walk_fuel (t : node) (extra : nat) :
  walk_levels (height t + extra) [t] = walk t.
Proof.
  unfold walk. apply walk_levels_enough. constructor; [lia|constructor].
Qed.

End Ast_facts.

(* ===================================================================== *)
(** ** Facts about the single-pass extractor *)
(* ===================================================================== *)

Module FastAPI_facts.
Import Py Ast Fs Base FastAPI Notions.

Lemma location_of_spec (t : string) : location_spec t (location_of t).
Proof.
  unfold location_spec, location_of.
  destruct (contains "Path" t), (contains "Body" t), (contains "Header" t);
    repeat split; intros; try discriminate; try tauto;
    try (exfalso; intuition discriminate).
Qed.

Section Parameters.
Variable unparse : expr -> string.
Variable defaults : list expr.
Variable num_args : Z.

Let num_defaults := Z.of_nat (List.length defaults).

Lemma parameter_of_ok (i : Z) (a : arg) :
  0 <= i < num_args ->
  exists q,
    parameter_of unparse defaults num_args num_defaults i a = Ok q /\
    param_spec unparse a q.
Proof.
  intros Hi. unfold parameter_of.
  set (off := i - (num_args - num_defaults)).
  destruct (0 <=? off) eqn:Hoff.
  - apply Z.leb_le in Hoff.
    assert (Hlt : (Z.to_nat off < List.length defaults)%nat).
    { subst off num_defaults. lia. }
    destruct (nth_error defaults (Z.to_nat off)) as [d|] eqn:Hd.
    + cbn [bind fst snd].
      destruct (annotation a) as [ann|] eqn:Ha.
      * eexists. split; [reflexivity|].
        unfold param_spec. rewrite Ha. cbn.
        split; [reflexivity|]. split; [split; congruence|].
        split; [reflexivity|apply location_of_spec].
      * eexists. split; [reflexivity|].
        unfold param_spec. rewrite Ha. cbn.
        split; [reflexivity|]. split; [split; congruence|].
        split; reflexivity.
    + apply nth_error_None in Hd. lia.
  - cbn [bind fst snd].
    destruct (annotation a) as [ann|] eqn:Ha.
    + eexists. split; [reflexivity|].
      unfold param_spec. rewrite Ha. cbn.
      split; [reflexivity|]. split; [split; congruence|].
      split; [reflexivity|apply location_of_spec].
    + eexists. split; [reflexivity|].
      unfold param_spec. rewrite Ha. cbn.
      split; [reflexivity|]. split; [split; congruence|].
      split; reflexivity.
Qed.

Lemma parameters_loop_ok (rest : list arg) :
  forall (i : Z) (acc : list EndpointParameter),
    0 <= i -> i + Z.of_nat (List.length rest) = num_args ->
    exists qs,
      parameters_loop unparse defaults num_args num_defaults i rest acc
        = Ok (acc ++ qs)%list /\
      Forall2 (param_spec unparse) (declared rest) qs.
Proof.
  induction rest as [|a rest IH]; intros i acc Hi Hlen.
  - exists []. cbn. rewrite app_nil_r. split; [reflexivity|constructor].
  - cbn [parameters_loop declared List.filter].
    cbn [List.length] in Hlen.
    destruct (str_in (arg_name a) ["self"; "cls"]) eqn:Hself; cbn [negb].
    + apply IH; lia.
    + destruct (parameter_of_ok i a) as [q [Hq Hspec]]; [lia|].
      rewrite Hq. cbn [bind].
      destruct (IH (i + 1) (acc ++ [q])%list) as [qs [Hqs Hall]]; [lia|lia|].
      exists (q :: qs). split.
      * rewrite Hqs. f_equal. rewrite <- app_assoc. reflexivity.
      * constructor; assumption.
Qed.

End Parameters.

(** [_extract_parameters] never raises, and its result follows the
    declared parameters one for one. *)
Lemma extract_parameters_ok (unparse : expr -> string) (f : funcdef) :
  exists ps,
    _extract_parameters unparse f = Ok ps /\
    Forall2 (param_spec unparse) (declared (args (fargs f))) ps.
Proof.
  unfold _extract_parameters.
  destruct (parameters_loop_ok unparse (defaults (fargs f))
              (Z.of_nat (List.length (args (fargs f))))
              (args (fargs f)) 0 []) as [qs [H1 H2]]; [lia|lia|].
  exists qs. split; [exact H1|exact H2].
Qed.

Section Extraction.
Variable unparse : expr -> string.
Variable file : entry.

Lemma build_endpoint_ok (f : funcdef) (d : expr) (m : string) (path : constant) :
  exists e,
    build_endpoint unparse file f d m path = Ok e /\
    Base.path e = path /\ method e = upper m /\
    function_name e = fname f /\
    tags e = _extract_tags d /\
    status_code e = status_or_200 (_extract_status_code d) /\
    _extract_parameters unparse f = Ok (parameters e).
Proof.
  unfold build_endpoint.
  destruct (_parse_docstring _) as [summary description].
  destruct (extract_parameters_ok unparse f) as [ps [Hps _]].
  rewrite Hps. cbn [bind].
  destruct (_extract_models unparse f d) as [rq rs].
  eexists. split; [reflexivity|]. cbn. repeat split; reflexivity.
Qed.

Lemma first_marker_skip (f : funcdef) (pre rest : list expr) :
  Forall (fun d => is_marker d = false) pre ->
  first_marker unparse file f (pre ++ rest) = first_marker unparse file f rest.
Proof.
  induction 1 as [|d pre Hd _ IH]; [reflexivity|].
  cbn [app first_marker]. unfold is_marker in Hd.
  destruct (_parse_decorator d http_methods) as [[m|] [c|]]; try exact IH.
  rewrite Hd. exact IH.
Qed.

Lemma first_marker_hit (f : funcdef) (d : expr) (rest : list expr)
    (m : string) (path : constant) :
  _parse_decorator d http_methods = (Some m, Some path) ->
  is_marker d = true ->
  first_marker unparse file f (d :: rest)
    = bind (build_endpoint unparse file f d m path) (fun e => Ok (Some e)).
Proof.
  intros Hd Hm. cbn [first_marker]. unfold is_marker in Hm.
  rewrite Hd in *. rewrite Hm. reflexivity.
Qed.

Lemma first_marker_never_raises (f : funcdef) (ds : list expr) :
  exists r, first_marker unparse file f ds = Ok r.
Proof.
  induction ds as [|d ds IH]; [eexists; reflexivity|].
  cbn [first_marker].
  destruct (_parse_decorator d http_methods) as [[m|] [c|]]; try exact IH.
  destruct (method_and_path _); [|exact IH].
  destruct (build_endpoint_ok f d m c) as [e [He _]].
  rewrite He. eexists. reflexivity.
Qed.

Lemma visit_frame (nodes : list node) :
  forall s,
    visit unparse file nodes s
      = (Ok tt, {| endpoints := endpoints s ++ extracted unparse file nodes;
                   stdout := stdout s |}).
Proof.
  unfold extracted.
  induction nodes as [|n nodes IH]; intros s.
  - cbn. rewrite app_nil_r. destruct s; reflexivity.
  - destruct n as [f body|c body|ts v|t|cs]; cbn [visit]; try apply IH.
    unfold _extract_endpoint_from_function.
    destruct (first_marker_never_raises f (decorator_list f)) as [[e|] Hr];
      rewrite Hr; [|apply IH].
    rewrite (IH (append_endpoint e s)), (IH (append_endpoint e fresh)).
    cbn. rewrite <- app_assoc. reflexivity.
Qed.

Lemma analyze_file_frame (p : project) (s : state) :
  _analyze_file unparse p file s
    = {| endpoints := endpoints s ++ file_endpoints unparse file;
         stdout := stdout s ++
                   match read_and_parse file with
                   | Ok _ => []
                   | Raise e => [ErrorAnalyzing (path_str p file) e]
                   end |}.
Proof.
  unfold _analyze_file, file_endpoints.
  destruct (read_and_parse file) as [t|e].
  - rewrite visit_frame. rewrite !app_nil_r. reflexivity.
  - unfold print. rewrite app_nil_r. reflexivity.
Qed.

End Extraction.

Lemma analyze_files_endpoints (unparse : expr -> string) (p : project)
    (files : list entry) :
  forall s,
    endpoints (analyze_files unparse p files s)
      = (endpoints s ++ inventory unparse p files)%list.
Proof.
  unfold analyze_files, inventory.
  induction files as [|file files IH]; intros s; cbn [fold_left flat_map].
  - rewrite app_nil_r. reflexivity.
  - rewrite IH. destruct (_should_skip_file p file).
    + reflexivity.
    + rewrite analyze_file_frame. cbn [endpoints].
      rewrite <- app_assoc. reflexivity.
Qed.

Lemma analyze_returns (unparse : expr -> string) (p : project) (s : state) :
  fst (analyze unparse p s) = inventory unparse p (python_files p).
Proof.
  unfold analyze. cbn [fst]. rewrite analyze_files_endpoints. reflexivity.
Qed.

End FastAPI_facts.

(* ===================================================================== *)
(** ** Facts about the join pass of the multi-pass extractor *)
(* ===================================================================== *)

Module Django_facts.
Import Py Ast Fs Base Django Notions.

Lemma set_endpoints_same (s : state) : set_endpoints (endpoints s) s = s.
Proof. destruct s; reflexivity. Qed.

Lemma for_each_app {A} (body : A -> state -> res unit * state) (l1 l2 : list A) :
  forall s,
    for_each body (l1 ++ l2) s
      = match for_each body l1 s with
        | (Ok _, s') => for_each body l2 s'
        | (Raise e, s') => (Raise e, s')
        end.
Proof.
  induction l1 as [|x l1 IH]; intros s; cbn [app for_each]; [reflexivity|].
  destruct (body x s) as [[u|e] s']; [apply IH|reflexivity].
Qed.

Section Viewset.
Variable prefix : string.
Variable vs : view.

Lemma standard_loop (actions : list string) :
  forall s,
    fold_left
      (fun s action =>
         match lookup_action action (action_mappings prefix) with
         | Some (method, path) =>
             append_endpoint (standard_endpoint prefix vs action method path) s
         | None => s
         end) actions s
    = set_endpoints (endpoints s ++ standard_part prefix vs actions) s.
Proof.
  induction actions as [|a actions IH]; intros s; cbn [fold_left standard_part flat_map].
  - rewrite app_nil_r. symmetry. apply set_endpoints_same.
  - rewrite IH. fold (standard_part prefix vs actions).
    destruct (lookup_action a (action_mappings prefix)) as [[m pth]|].
    + unfold append_endpoint. cbn [endpoints set_endpoints].
      rewrite <- app_assoc. reflexivity.
    + reflexivity.
Qed.

Lemma methods_loop (ca : custom_action) (methods : list constant) :
  forall s,
    exists es,
      snd (for_each
             (fun method s =>
                match custom_endpoint prefix vs ca method with
                | Ok endpoint => (Ok tt, append_endpoint endpoint s)
                | Raise e => (Raise e, s)
                end) methods s)
      = set_endpoints (endpoints s ++ es) s /\
      Forall (fun e => exists m, In m methods /\
                                 custom_endpoint prefix vs ca m = Ok e) es.
Proof.
  induction methods as [|m methods IH]; intros s; cbn [for_each].
  - exists []. rewrite app_nil_r, set_endpoints_same. split; [reflexivity|constructor].
  - destruct (custom_endpoint prefix vs ca m) as [e|x] eqn:He.
    + destruct (IH (append_endpoint e s)) as [es [Hes Hall]].
      exists (e :: es). split.
      * rewrite Hes. unfold append_endpoint. cbn [endpoints set_endpoints].
        rewrite <- app_assoc. reflexivity.
      * constructor.
        -- exists m. split; [left; reflexivity|exact He].
        -- eapply List.Forall_impl; [|exact Hall].
           intros e' [m' [Hin Hm']]. exists m'. split; [right; exact Hin|exact Hm'].
    + exists []. cbn [snd]. rewrite app_nil_r, set_endpoints_same.
      split; [reflexivity|constructor].
Qed.

Lemma custom_loop (cas : list custom_action) :
  (forall ca, In ca cas -> In ca (get_custom_actions vs)) ->
  forall s,
    exists es,
      snd (for_each
             (fun ca s =>
                for_each
                  (fun method s =>
                     match custom_endpoint prefix vs ca method with
                     | Ok endpoint => (Ok tt, append_endpoint endpoint s)
                     | Raise e => (Raise e, s)
                     end) (ca_methods ca) s) cas s)
      = set_endpoints (endpoints s ++ es) s /\
      Forall (is_custom_endpoint prefix vs) es.
Proof.
  induction cas as [|ca cas IH]; intros Hsub s; cbn [for_each].
  - exists []. rewrite app_nil_r, set_endpoints_same. split; [reflexivity|constructor].
  - destruct (methods_loop ca (ca_methods ca) s) as [es1 [H1 Hall1]].
    assert (Hall1' : Forall (is_custom_endpoint prefix vs) es1).
    { eapply List.Forall_impl; [|exact Hall1].
      intros e [m [Hin Hm]]. exists ca, m.
      split; [apply Hsub; left; reflexivity|]. split; assumption. }
    destruct (for_each _ (ca_methods ca) s) as [[u|x] s1] eqn:Hloop;
      cbn [snd] in H1; subst s1.
    + destruct (IH (fun c Hc => Hsub c (or_intror Hc))
                  (set_endpoints (endpoints s ++ es1) s)) as [es2 [H2 Hall2]].
      exists (es1 ++ es2)%list. split.
      * rewrite H2. cbn [endpoints set_endpoints].
        rewrite <- app_assoc. reflexivity.
      * apply Forall_app. split; assumption.
    + exists es1. split; [reflexivity|exact Hall1'].
Qed.

(** [_create_viewset_endpoints] touches [self.endpoints] only, adding
    the endpoints of the standard actions and then those of the custom
    actions it gets to. *)
Lemma create_viewset_endpoints_adds (s : state) :
  exists customs,
    snd (_create_viewset_endpoints prefix vs s)
      = set_endpoints
          (endpoints s ++ standard_part prefix vs (effective_actions vs) ++ customs) s
    /\ Forall (is_custom_endpoint prefix vs) customs.
Proof.
  unfold _create_viewset_endpoints.
  assert (Heff : match get_actions vs with
                 | [] => map fst (action_mappings prefix)
                 | _ :: _ => get_actions vs
                 end = effective_actions vs).
  { unfold effective_actions. destruct (get_actions vs); reflexivity. }
  rewrite Heff, standard_loop.
  destruct (custom_loop (get_custom_actions vs) (fun _ H => H)
              (set_endpoints
                 (endpoints s ++ standard_part prefix vs (effective_actions vs)) s))
    as [customs [Hc Hall]].
  exists customs. split; [|exact Hall].
  rewrite Hc. cbn [endpoints set_endpoints].
  rewrite <- app_assoc. reflexivity.
Qed.

End Viewset.

Lemma append_loop {A} (E : A -> EndpointInfo) (l : list A) :
  forall s,
    fold_left (fun s x => append_endpoint (E x) s) l s
      = set_endpoints (endpoints s ++ map E l) s.
Proof.
  induction l as [|x l IH]; intros s; cbn [fold_left map].
  - rewrite app_nil_r. symmetry. apply set_endpoints_same.
  - rewrite IH. unfold append_endpoint. cbn [endpoints set_endpoints].
    rewrite <- app_assoc. reflexivity.
Qed.

Lemma create_apiview_endpoints_adds (path : string) (v : view) (s : state) :
  _create_apiview_endpoints path v s
    = set_endpoints (endpoints s ++ apiview_part path v) s.
Proof.
  unfold apiview_part, _create_apiview_endpoints.
  destruct (_parse_docstring (view_docstring v)) as [summary description].
  rewrite !append_loop. reflexivity.
Qed.

Lemma join_pattern_adds (pattern : url_pattern) (s : state) :
  exists es, snd (join_pattern pattern s) = set_endpoints (endpoints s ++ es) s.
Proof.
  destruct pattern as [prefix n f|path n f]; cbn [join_pattern];
    destruct (viewsets s !! n) as [v|].
  - destruct (create_viewset_endpoints_adds prefix v s) as [customs [H _]].
    eexists. rewrite H. reflexivity.
  - exists []. cbn [snd]. rewrite app_nil_r, set_endpoints_same. reflexivity.
  - exists (apiview_part path v). cbn [snd]. apply create_apiview_endpoints_adds.
  - exists []. cbn [snd]. rewrite app_nil_r, set_endpoints_same. reflexivity.
Qed.

Lemma join_pattern_viewsets (pattern : url_pattern) (s : state) :
  viewsets (snd (join_pattern pattern s)) = viewsets s.
Proof.
  destruct (join_pattern_adds pattern s) as [es H]. rewrite H. reflexivity.
Qed.

Lemma join_loop_viewsets (patterns : list url_pattern) :
  forall s, viewsets (snd (for_each join_pattern patterns s)) = viewsets s.
Proof.
  induction patterns as [|pat patterns IH]; intros s; cbn [for_each]; [reflexivity|].
  pose proof (join_pattern_viewsets pat s) as Hv.
  destruct (join_pattern pat s) as [[u|e] s']; cbn [snd] in *.
  - rewrite IH. exact Hv.
  - exact Hv.
Qed.

Lemma join_unmatched (pattern : url_pattern) (s : state) :
  viewsets s !! target pattern = None ->
  join_pattern pattern s = (Ok tt, s).
Proof.
  intros H. destruct pattern; cbn [join_pattern target] in *; rewrite H; reflexivity.
Qed.

(** A declaration that matches no record can be struck from the list. *)
Lemma join_loop_unmatched (pre post : list url_pattern) (pattern : url_pattern) :
  forall s,
    viewsets s !! target pattern = None ->
    for_each join_pattern (pre ++ pattern :: post) s
      = for_each join_pattern (pre ++ post) s.
Proof.
  intros s H. rewrite !for_each_app.
  pose proof (join_loop_viewsets pre s) as Hv.
  destruct (for_each join_pattern pre s) as [[u|e] s']; cbn [snd] in Hv; [|reflexivity].
  cbn [for_each]. rewrite join_unmatched; [reflexivity|].
  rewrite Hv. exact H.
Qed.

Lemma join_loop_adds (patterns : list url_pattern) :
  forall s,
    exists es, snd (for_each join_pattern patterns s) = set_endpoints es s.
Proof.
  induction patterns as [|pat patterns IH]; intros s; cbn [for_each].
  - exists (endpoints s). symmetry. apply set_endpoints_same.
  - destruct (join_pattern_adds pat s) as [es Hes].
    destruct (join_pattern pat s) as [[u|e] s']; cbn [snd] in Hes; subst s'.
    + destruct (IH (set_endpoints (endpoints s ++ es) s)) as [es' Hes'].
      exists es'. rewrite Hes'. reflexivity.
    + eexists. reflexivity.
Qed.

(** *** What the passes do to [self.url_patterns] *)

Lemma fold_keeps_patterns {A} (step : state -> A -> state) (l : list A) :
  (forall s a, url_patterns (step s a) = url_patterns s) ->
  forall s, url_patterns (fold_left step l s) = url_patterns s.
Proof.
  intros Hstep. induction l as [|a l IH]; intros s; cbn [fold_left]; [reflexivity|].
  rewrite IH. apply Hstep.
Qed.

Lemma fold_adds_patterns {A} (step : state -> A -> state)
    (found : A -> list url_pattern) (l : list A) :
  (forall s a, url_patterns (step s a) = (url_patterns s ++ found a)%list) ->
  forall s, url_patterns (fold_left step l s) = (url_patterns s ++ flat_map found l)%list.
Proof.
  intros Hstep. induction l as [|a l IH]; intros s; cbn [fold_left flat_map].
  - rewrite app_nil_r. reflexivity.
  - rewrite IH, Hstep, <- app_assoc. reflexivity.
Qed.

Section Passes.
Variable unparse : expr -> string.
Variable p : project.

Lemma extract_serializers_patterns (file : entry) (s : state) :
  url_patterns (_extract_serializers unparse p file s) = url_patterns s.
Proof.
  unfold _extract_serializers. destruct (read_and_parse file) as [t|e]; [|reflexivity].
  apply fold_keeps_patterns. intros s0 n.
  destruct n as [f b|c b| | |]; try reflexivity.
  destruct (_is_serializer_class unparse c); reflexivity.
Qed.

Lemma visit_views_patterns (file : entry) (nodes : list node) :
  forall s, url_patterns (snd (visit_views unparse file nodes s)) = url_patterns s.
Proof.
  induction nodes as [|n nodes IH]; intros s; [reflexivity|].
  destruct n as [f b|c b| | |]; cbn [visit_views]; try apply IH.
  - destruct (_has_api_view_decorator f); [|apply IH].
    unfold _extract_function_based_view.
    destruct (map_res _ _) as [infos|e]; [|reflexivity].
    rewrite IH. reflexivity.
  - destruct (_get_view_type unparse c) as [[|]|]; rewrite IH; reflexivity.
Qed.

Lemma extract_views_patterns (file : entry) (s : state) :
  url_patterns (_extract_views unparse p file s) = url_patterns s.
Proof.
  unfold _extract_views. destruct (read_and_parse file) as [t|e]; [|reflexivity].
  pose proof (visit_views_patterns file (walk t) s) as H.
  destruct (visit_views unparse file (walk t) s) as [[u|e] s']; exact H.
Qed.

Lemma pass1_patterns (files : list entry) (s : state) :
  url_patterns (pass1 unparse p files s) = url_patterns s.
Proof.
  unfold pass1. apply fold_keeps_patterns. intros s0 file.
  destruct (_ || _)%bool; [reflexivity|apply extract_serializers_patterns].
Qed.

Lemma pass2_patterns (files : list entry) (s : state) :
  url_patterns (pass2 unparse p files s) = url_patterns s.
Proof.
  unfold pass2. apply fold_keeps_patterns. intros s0 file.
  destruct (_ || _)%bool; [reflexivity|apply extract_views_patterns].
Qed.

Lemma router_matches_add (file : entry) (l : list (string * string)) (s : state) :
  url_patterns
    (fold_left
       (fun s m =>
          let '(url_prefix, viewset_name) := m in
          if String.eqb viewset_name "basename" then s
          else append_pattern (Router url_prefix viewset_name (rel_str file)) s)
       l s)
  = (url_patterns s ++
     flat_map (fun m : string * string =>
                 if String.eqb (snd m) "basename" then []
                 else [Router (fst m) (snd m) (rel_str file)]) l)%list.
Proof.
  apply fold_adds_patterns. intros s0 [u v]. cbn [fst snd].
  destruct (String.eqb v "basename"); [rewrite app_nil_r|]; reflexivity.
Qed.

Lemma path_matches_add (file : entry) (l : list (string * string)) (s : state) :
  url_patterns
    (fold_left
       (fun s m =>
          let '(url_path, view_name) := m in
          if str_in view_name non_view_names then s
          else append_pattern (PathDecl url_path view_name (rel_str file)) s)
       l s)
  = (url_patterns s ++
     flat_map (fun m : string * string =>
                 if str_in (snd m) non_view_names then []
                 else [PathDecl (fst m) (snd m) (rel_str file)]) l)%list.
Proof.
  apply fold_adds_patterns. intros s0 [u v]. cbn [fst snd].
  destruct (str_in v non_view_names); [rewrite app_nil_r|]; reflexivity.
Qed.

Lemma parse_url_patterns_adds (file : entry) (s : state) :
  url_patterns (_parse_url_patterns p file s)
    = (url_patterns s ++ url_patterns (_parse_url_patterns p file init))%list.
Proof.
  unfold _parse_url_patterns. destruct (content file) as [text|].
  - cbv zeta. rewrite !path_matches_add, !router_matches_add.
    cbn [url_patterns init app]. rewrite app_assoc. reflexivity.
  - cbn. rewrite app_nil_r. reflexivity.
Qed.

Lemma pass3_adds (files : list entry) :
  forall s,
    url_patterns (pass3 p files s)
      = (url_patterns s ++ url_patterns (pass3 p files init))%list.
Proof.
  unfold pass3.
  induction files as [|file files IH]; intros s; cbn [fold_left].
  - cbn. rewrite app_nil_r. reflexivity.
  - rewrite IH. rewrite (IH (if contains "urls.py" (Fs.name file)
                             then _parse_url_patterns p file init else init)).
    destruct (contains "urls.py" (Fs.name file)).
    + rewrite parse_url_patterns_adds, <- app_assoc. reflexivity.
    + reflexivity.
Qed.

(** [analyze] never empties [self.url_patterns]: each call adds the
    declarations of the project to those the analyzer holds already. *)
Lemma analyze_accumulates_patterns (s : state) :
  url_patterns (snd (analyze unparse p s)) = (url_patterns s ++ declarations p)%list.
Proof.
  unfold analyze, declarations, _create_endpoints_from_patterns.
  set (s3 := pass3 p (python_files p) _).
  assert (H3 : url_patterns s3 = (url_patterns s ++ declarations p)%list).
  { unfold s3, declarations. rewrite pass3_adds, pass2_patterns, pass1_patterns.
    reflexivity. }
  destruct (join_loop_adds (url_patterns s3) s3) as [es Hes].
  destruct (for_each join_pattern (url_patterns s3) s3) as [[u|e] s'];
    cbn [snd] in *; subst s'; exact H3.
Qed.

(** A second call on the same analyzer therefore joins every declaration
    twice. *)
Lemma second_analyze_doubles_patterns :
  url_patterns (snd (analyze unparse p (snd (analyze unparse p init))))
    = (declarations p ++ declarations p)%list.
Proof. rewrite !analyze_accumulates_patterns. reflexivity. Qed.

(** A file that cannot be read or parsed is reported and passed over by
    the collection passes. *)
Lemma unparsed_file_in_passes (file : entry) (e : exn) (s : state) :
  read_and_parse file = Raise e ->
  _extract_serializers unparse p file s
    = print (ErrorExtractingSerializers (path_str p file) e) s /\
  _extract_views unparse p file s
    = print (ErrorExtractingViews (path_str p file) e) s.
Proof.
  intros H. unfold _extract_serializers, _extract_views. rewrite H. split; reflexivity.
Qed.

End Passes.

End Django_facts.

(* ===================================================================== *)
(** ** The properties of the specification *)
(* ===================================================================== *)

Import Py Ast Fs Base Notions.

Lemma Forall2_right {A B} (R : A -> B -> Prop) (P : B -> Prop)
    (l : list A) (l' : list B) :
  Forall2 R l l' -> (forall a b, R a b -> P b) -> Forall P l'.
Proof.
  intros H HP. induction H as [|a b l l' Hab _ IH]; constructor; eauto.
Qed.

Lemma Forall2_nth {A B} (R : A -> B -> Prop) (l : list A) (l' : list B) :
  Forall2 R l l' ->
  forall i a, nth_error l i = Some a -> exists b, nth_error l' i = Some b /\ R a b.
Proof.
  induction 1 as [|a b l l' Hab _ IH]; intros i x Hx.
  - destruct i; discriminate.
  - destruct i as [|i]; cbn in *.
    + injection Hx as <-. eauto.
    + eauto.
Qed.










(** C5, as amended: for a parameter with a type annotation, the location
    is chosen from the annotation text by the first of the three tests that
    succeeds: "path" when the text contains "Path"; "body" when it contains
    "Body" but not "Path"; "header" when it contains "Header" but neither
    of the other two; "query" otherwise. A bare [int] annotation gives
    "query". *)
Theorem C5_location_from_annotation :
  forall (unparse : expr -> string) (f : funcdef) (i : nat) (a : arg) (ann : expr),
    nth_error (Notions.declared (args (fargs f))) i = Some a ->
    annotation a = Some ann ->
    exists ps q,
      FastAPI._extract_parameters unparse f = Ok ps /\
      nth_error ps i = Some q /\
      name q = arg_name a /\
      data_type q = FastAPI._get_type_string unparse ann /\
      Notions.location_spec (FastAPI._get_type_string unparse ann) (param_type q) /\
      (ann = EName "int" -> param_type q = "query").
Proof.
  intros unparse f i a ann Hi Hann.
  destruct (FastAPI_facts.extract_parameters_ok unparse f) as [ps [Hps Hall]].
  destruct (Forall2_nth _ _ _ Hall i a Hi) as [q [Hq [Hname [_ Hloc]]]].
  rewrite Hann in Hloc. destruct Hloc as [Hdt Hloc].
  exists ps, q. repeat (split; [assumption|]).
  intros ->. apply Hloc. cbn. repeat split; reflexivity.
Qed.

Lemma C5_location_from_annotation_witness :
  exists ps q,
    FastAPI._extract_parameters Samples.dotted Samples.read_item = Ok ps /\
    nth_error ps 0 = Some q /\
    name q = "item_id" /\
    data_type q = "int" /\
    Notions.location_spec "int" (param_type q) /\
    (EName "int" = EName "int" -> param_type q = "query").
Proof.
  exact (C5_location_from_annotation Samples.dotted Samples.read_item 0
           {| arg_name := "item_id"; annotation := Some (EName "int") |}
           (EName "int") eq_refl eq_refl).
Defined.

(** C5 fails as stated: the annotation text [PathBody] contains "Body",
    yet the location of the parameter is "path", not "body". *)
Lemma C5_counterexample :
  FastAPI._extract_parameters Samples.dotted Samples.upload
    = Ok [mkParam "meta" "path" "PathBody" true None] /\
  contains "Body" "PathBody" = true.
Proof. split; reflexivity. Qed.

(** C2, as amended: in the single-pass extractor a parameter is optional
    exactly when a default value is present. The parameters synthesized by
    the multi-pass extractor never hold a default value: [id] is required,
    [page] and [page_size] are optional without a default. So in every
    record a default value that is present means the parameter is
    optional. *)
Theorem C2_required_and_default :
  forall (unparse : expr -> string),
    (forall f : funcdef,
        exists ps,
          FastAPI._extract_parameters unparse f = Ok ps /\
          Forall (fun q => required q = false <-> default q <> None) ps) /\
    (forall action : string,
        Forall (fun q => default q = None /\ (required q = true <-> name q = "id") /\
                         (default q <> None -> required q = false))
          (Django._get_viewset_parameters action)).
Proof.
  intros unparse. split.
  - intros f.
    destruct (FastAPI_facts.extract_parameters_ok unparse f) as [ps [Hps Hall]].
    exists ps. split; [exact Hps|].
    eapply Forall2_right; [exact Hall|].
    intros a q [_ [H _]]. exact H.
  - intros action. unfold Django._get_viewset_parameters.
    destruct (str_in action _), (String.eqb action "list"); cbn;
      repeat constructor; cbn; intros; try congruence; try discriminate.
Qed.

(** C2 fails as stated: the [page] parameter synthesized for the [list]
    action is optional although no default value is present. *)
Lemma C2_counterexample :
  exists q,
    In q (Django._get_viewset_parameters "list") /\
    name q = "page" /\ required q = false /\ default q = None.
Proof.
  exists (mkParam "page" "query" "int" false None).
  split; [left; reflexivity|]. repeat split.
Qed.

Lemma status_code_of_absent (keywords : list keyword) :
  Forall (fun kw => kw_is "status_code" kw = false) keywords ->
  FastAPI.status_code_of keywords = None.
Proof.
  induction 1 as [|kw kws Hkw _ IH]; [reflexivity|].
  cbn [FastAPI.status_code_of]. rewrite Hkw. exact IH.
Qed.

Lemma extract_status_code_absent (d : expr) :
  no_keyword "status_code" d -> FastAPI._extract_status_code d = None.
Proof.
  destruct d; cbn; try reflexivity. apply status_code_of_absent.
Qed.

Lemma extract_tags_absent (d : expr) :
  no_keyword "tags" d -> FastAPI._extract_tags d = [].
Proof.
  destruct d as [| | | |fn ar kws| |]; cbn; try reflexivity.
  induction 1 as [|kw kws Hkw _ IH]; [reflexivity|].
  cbn [flat_map]. rewrite Hkw. exact IH.
Qed.

Lemma lookup_action_cases (prefix action method path : string) :
  Django.lookup_action action (Django.action_mappings prefix) = Some (method, path) ->
  (action = "list" /\ method = "GET" /\ path = "/" ++ prefix ++ "/") \/
  (action = "create" /\ method = "POST" /\ path = "/" ++ prefix ++ "/") \/
  (action = "retrieve" /\ method = "GET" /\ path = "/" ++ prefix ++ "/{id}/") \/
  (action = "update" /\ method = "PUT" /\ path = "/" ++ prefix ++ "/{id}/") \/
  (action = "partial_update" /\ method = "PATCH" /\ path = "/" ++ prefix ++ "/{id}/") \/
  (action = "destroy" /\ method = "DELETE" /\ path = "/" ++ prefix ++ "/{id}/").
Proof.
  unfold Django.action_mappings. cbn [Django.lookup_action].
  repeat match goal with
         | |- context [String.eqb action ?k] =>
             destruct (String.eqb_spec action k) as [->|_]
         end;
    intros H; try discriminate; injection H as <- <-; tauto.
Qed.

Lemma standard_endpoint_fields (prefix : string) (vs : Django.view)
    (action method path : string) :
  let e := Django.standard_endpoint prefix vs action method path in
  function_name e = action /\ Base.method e = method /\ Base.path e = CStr path /\
  parameters e = Django._get_viewset_parameters action /\
  status_code e = (if String.eqb method "GET" then CInt 200
                   else if String.eqb method "POST" then CInt 201 else CInt 200).
Proof.
  unfold Django.standard_endpoint.
  destruct (_parse_docstring _) as [summary description]. cbn. tauto.
Qed.

Lemma custom_endpoint_fields (prefix : string) (vs : Django.view)
    (ca : Django.custom_action) (m : constant) (e : EndpointInfo) :
  Django.custom_endpoint prefix vs ca m = Ok e ->
  function_name e = Django.ca_name ca /\
  parameters e = [] /\ status_code e = CInt 200 /\
  Base.path e =
    CStr ("/" ++ prefix ++ "/" ++
          (if truthy (Django.ca_detail ca) then "{id}/" ++ Django.ca_name ca ++ "/"
           else Django.ca_name ca ++ "/")).
Proof.
  unfold Django.custom_endpoint.
  destruct (_parse_docstring _) as [summary description].
  destruct (Django.upper_method m) as [u|x]; cbn [bind]; [|discriminate].
  intros H. injection H as <-. cbn. tauto.
Qed.

Lemma standard_part_names (prefix : string) (vs : Django.view) (actions : list string) :
  map function_name (Notions.standard_part prefix vs actions) = in_table actions.
Proof.
  unfold Notions.standard_part, in_table.
  induction actions as [|a actions IH]; [reflexivity|].
  cbn [flat_map List.filter]. rewrite map_app, IH. clear IH.
  unfold Django.action_mappings, Notions.table_actions, str_in.
  cbn [Django.lookup_action existsb].
  repeat match goal with
         | |- context [String.eqb a ?k] => destruct (String.eqb a k)
         end; cbn [orb]; try reflexivity;
    unfold Django.standard_endpoint;
    destruct (_parse_docstring _) as [summary description]; reflexivity.
Qed.

Lemma standard_part_forall (prefix : string) (vs : Django.view)
    (P : EndpointInfo -> Prop) (actions : list string) :
  (forall action method path,
      Django.lookup_action action (Django.action_mappings prefix) = Some (method, path) ->
      P (Django.standard_endpoint prefix vs action method path)) ->
  Forall P (Notions.standard_part prefix vs actions).
Proof.
  intros HP. unfold Notions.standard_part.
  induction actions as [|a actions IH]; cbn [flat_map]; [constructor|].
  apply Forall_app. split; [|exact IH].
  destruct (Django.lookup_action a _) as [[m pth]|] eqn:Hl; repeat constructor.
  apply HP. exact Hl.
Qed.

(** C3, as amended: an endpoint of the single-pass extractor whose route
    marker has no [status_code] keyword has status code 200, and its tags
    are empty when the marker has no [tags] keyword. The multi-pass join
    gives status code 200 to every endpoint except the one of the standard
    [create] action of a viewset, which gets 201. *)
Theorem C3_status_and_tag_defaults :
  (forall (unparse : expr -> string) (file : entry) (f : funcdef)
          (pre post : list expr) (d : expr) (m : string) (path : constant),
      decorator_list f = (pre ++ d :: post)%list ->
      Forall (fun d' => Notions.is_marker d' = false) pre ->
      FastAPI._parse_decorator d FastAPI.http_methods = (Some m, Some path) ->
      Notions.is_marker d = true ->
      exists e,
        FastAPI._extract_endpoint_from_function unparse file f = Ok (Some e) /\
        (no_keyword "status_code" d -> status_code e = CInt 200) /\
        (no_keyword "tags" d -> tags e = [])) /\
  (forall (prefix : string) (vs : Django.view) (s : Django.state),
      exists std customs,
        Django.endpoints (snd (Django._create_viewset_endpoints prefix vs s))
          = (Django.endpoints s ++ std ++ customs)%list /\
        map function_name std = in_table (Notions.effective_actions vs) /\
        Forall (fun e => status_code e = joined_status (function_name e)) std /\
        Forall (fun e => Notions.is_custom_endpoint prefix vs e /\
                         status_code e = CInt 200) customs) /\
  (forall (path : string) (v : Django.view) (s : Django.state),
      exists es,
        Django.endpoints (Django._create_apiview_endpoints path v s)
          = (Django.endpoints s ++ es)%list /\
        Forall (fun e => status_code e = CInt 200) es).
Proof.
  split; [|split].
  - intros unparse file f pre post d m path Hdec Hpre Hd Hm.
    destruct (FastAPI_facts.build_endpoint_ok unparse file f d m path)
      as [e [He [_ [_ [_ [Ht [Hs _]]]]]]].
    exists e. split; [|split].
    + unfold FastAPI._extract_endpoint_from_function. rewrite Hdec.
      rewrite FastAPI_facts.first_marker_skip by exact Hpre.
      rewrite (FastAPI_facts.first_marker_hit unparse file f d post m path Hd Hm).
      rewrite He. reflexivity.
    + intros Hno. rewrite Hs, (extract_status_code_absent d Hno). reflexivity.
    + intros Hno. rewrite Ht. apply extract_tags_absent. exact Hno.
  - intros prefix vs s.
    destruct (Django_facts.create_viewset_endpoints_adds prefix vs s)
      as [customs [Hsnd Hcustoms]].
    exists (Notions.standard_part prefix vs (Notions.effective_actions vs)),
      customs.
    split; [rewrite Hsnd; reflexivity|].
    split; [apply standard_part_names|]. split.
    + apply standard_part_forall. intros action method path Hl.
      destruct (standard_endpoint_fields prefix vs action method path)
        as [Hn [_ [_ [_ Hst]]]].
      rewrite Hst, Hn. unfold joined_status.
      destruct (lookup_action_cases _ _ _ _ Hl)
        as [H|[H|[H|[H|[H|H]]]]]; destruct H as [-> [-> _]]; reflexivity.
    + eapply List.Forall_impl; [|exact Hcustoms].
      intros e He. split; [exact He|].
      destruct He as [ca [m [_ [_ He]]]].
      apply custom_endpoint_fields in He. tauto.
  - intros path v s. exists (Notions.apiview_part path v).
    rewrite Django_facts.create_apiview_endpoints_adds. split; [reflexivity|].
    unfold Notions.apiview_part, Django._create_apiview_endpoints.
    destruct (_parse_docstring _) as [summary description].
    rewrite Django_facts.append_loop. cbn [Django.endpoints Django.set_endpoints Django.init app].
    apply List.Forall_forall. intros e He. apply in_map_iff in He.
    destruct He as [mi [<- _]]. reflexivity.
Qed.

Lemma C3_status_and_tag_defaults_witness :
  exists e,
    FastAPI._extract_endpoint_from_function Samples.dotted Samples.main_py
      Samples.read_item = Ok (Some e) /\
    (no_keyword "status_code" (Samples.route "get" "/items/{item_id}") ->
     status_code e = CInt 200) /\
    (no_keyword "tags" (Samples.route "get" "/items/{item_id}") -> tags e = []).
Proof.
  exact (proj1 C3_status_and_tag_defaults Samples.dotted Samples.main_py
           Samples.read_item [] [] (Samples.route "get" "/items/{item_id}")
           "get" (CStr "/items/{item_id}") eq_refl (List.Forall_nil _) eq_refl eq_refl).
Defined.

(** C3 fails as stated: the viewset [OrderViewSet] declares no status
    code, yet the endpoint joined for its [create] action has 201. *)
Lemma C3_counterexample :
  map (fun e => (function_name e, method e, status_code e))
    (Django.endpoints
       (snd (Django.join_pattern
               (Django.Router "orders" "OrderViewSet" "orders/urls.py")
               (Django._extract_viewset Samples.orders_views Samples.order_class
                  Samples.order_body Django.init))))
  = [("create", "POST", CInt 201)].
Proof. vm_compute. reflexivity. Qed.

Lemma str_in_In (x : string) (l : list string) : str_in x l = true -> In x l.
Proof.
  unfold str_in. intros H. apply existsb_exists in H.
  destruct H as [y [Hy Heq]]. apply String.eqb_eq in Heq. subst. exact Hy.
Qed.

Lemma extract_viewset_actions_in_table (body : list node) :
  Forall (fun a => In a Notions.table_actions) (Django._extract_viewset_actions body).
Proof.
  unfold Django._extract_viewset_actions.
  induction body as [|item body IH]; cbn [flat_map]; [constructor|].
  apply Forall_app. split; [|exact IH].
  destruct item as [f b| | | |]; try constructor.
  destruct (str_in (fname f) Django.standard_actions) eqn:H;
    [constructor; [|constructor]|constructor].
  apply str_in_In in H. unfold Django.standard_actions in H.
  unfold Notions.table_actions. cbn [In] in *. tauto.
Qed.

Lemma standard_part_rows (prefix : string) (vs : Django.view) (actions : list string) :
  Forall (fun a => In a Notions.table_actions) actions ->
  Forall2 (table_row prefix) actions (Notions.standard_part prefix vs actions).
Proof.
  unfold Notions.standard_part.
  induction 1 as [|a actions Ha _ IH]; cbn [flat_map]; [constructor|].
  assert (Hrow : exists m pth,
             Django.lookup_action a (Django.action_mappings prefix) = Some (m, pth) /\
             exists sfx, fixed_table a = Some (m, sfx) /\ pth = "/" ++ prefix ++ sfx).
  { unfold Notions.table_actions in Ha. cbn [In] in Ha.
    destruct Ha as [<-|[<-|[<-|[<-|[<-|[<-|[]]]]]]];
      do 2 eexists; (split; [reflexivity|]); eexists; split; reflexivity. }
  destruct Hrow as [m [pth [Hl [sfx [Hf ->]]]]]. rewrite Hl.
  cbn [app]. constructor; [|exact IH].
  destruct (standard_endpoint_fields prefix vs a m ("/" ++ prefix ++ sfx))
    as [Hn [Hm [Hp _]]].
  split; [exact Hn|]. exists m, sfx. tauto.
Qed.

Lemma effective_actions_in_table (info : Django.viewset_info) (body : list node) :
  Django.vs_actions info = Django._extract_viewset_actions body ->
  Forall (fun a => In a Notions.table_actions)
    (Notions.effective_actions (Django.ViewSet info)).
Proof.
  intros H. unfold Notions.effective_actions. cbn [Django.get_actions].
  destruct (Django.vs_actions info) as [|a l] eqn:Ha.
  - unfold Notions.table_actions.
    repeat (constructor; [cbn [In]; tauto|]). constructor.
  - rewrite H. apply extract_viewset_actions_in_table.
Qed.

Lemma no_custom_endpoints (prefix : string) (vs : Django.view) (es : list EndpointInfo) :
  Django.get_custom_actions vs = [] ->
  Forall (Notions.is_custom_endpoint prefix vs) es -> es = [].
Proof.
  intros Hnone Hall. destruct es as [|e es]; [reflexivity|].
  inversion Hall as [|? ? [ca [m [Hin _]]] _]. rewrite Hnone in Hin. destruct Hin.
Qed.

(** C4: a router registration whose target is a recorded viewset gives one
    endpoint for each standard action recorded for the viewset, in the
    order they were found and as the fixed table says; when none was
    recorded the six rows of the table are used. The endpoints of the
    custom actions follow. A viewset with [list] and [retrieve] only and
    no custom action gives [GET /prefix/] and [GET /prefix/{id}/] and
    nothing else. *)
Theorem C4_viewset_join :
  forall (s : Django.state) (prefix viewset_name file : string)
         (info : Django.viewset_info) (body : list node),
    Django.viewsets s !! viewset_name = Some (Django.ViewSet info) ->
    Django.vs_actions info = Django._extract_viewset_actions body ->
    exists std customs,
      Django.join_pattern (Django.Router prefix viewset_name file) s
        = Django._create_viewset_endpoints prefix (Django.ViewSet info) s /\
      Django.endpoints (snd (Django.join_pattern (Django.Router prefix viewset_name file) s))
        = (Django.endpoints s ++ std ++ customs)%list /\
      Forall2 (table_row prefix)
        (match Django.vs_actions info with
         | [] => ["list"; "create"; "retrieve"; "update"; "partial_update"; "destroy"]
         | found => found
         end) std /\
      Forall (Notions.is_custom_endpoint prefix (Django.ViewSet info)) customs /\
      (Django.vs_custom_actions info = [] -> customs = []) /\
      (Django.vs_actions info = ["list"; "retrieve"] ->
       map (fun e => (function_name e, method e, Base.path e)) std
         = [("list", "GET", CStr ("/" ++ prefix ++ "/"));
            ("retrieve", "GET", CStr ("/" ++ prefix ++ "/{id}/"))]).
Proof.
  intros s prefix viewset_name file info body Hlook Hacts.
  set (vs := Django.ViewSet info).
  destruct (Django_facts.create_viewset_endpoints_adds prefix vs s)
    as [customs [Hsnd Hcustoms]].
  exists (Notions.standard_part prefix vs (Notions.effective_actions vs)), customs.
  assert (Hjoin : Django.join_pattern (Django.Router prefix viewset_name file) s
                  = Django._create_viewset_endpoints prefix vs s).
  { cbn [Django.join_pattern]. rewrite Hlook. reflexivity. }
  split; [exact Hjoin|]. rewrite Hjoin.
  split; [rewrite Hsnd; reflexivity|]. split; [|split; [exact Hcustoms|split]].
  - apply (standard_part_rows prefix vs).
    exact (effective_actions_in_table info body Hacts).
  - intros Hnone. eapply no_custom_endpoints; [|exact Hcustoms]. exact Hnone.
  - intros Htwo. unfold Notions.effective_actions, vs. cbn [Django.get_actions].
    rewrite Htwo. unfold Notions.standard_part. cbn [flat_map].
    unfold Django.action_mappings. cbn [Django.lookup_action String.eqb Ascii.eqb Bool.eqb].
    cbn [app map]. unfold Django.standard_endpoint.
    destruct (_parse_docstring _) as [summary description]. reflexivity.
Qed.

Lemma C4_viewset_join_witness :
  exists std customs,
    Django.join_pattern (Django.Router "products" "ProductViewSet" "api/urls.py")
      Samples.shop_collected
      = Django._create_viewset_endpoints "products"
          (Django.ViewSet Samples.product_info) Samples.shop_collected /\
    Django.endpoints
      (snd (Django.join_pattern (Django.Router "products" "ProductViewSet" "api/urls.py")
              Samples.shop_collected))
      = (Django.endpoints Samples.shop_collected ++ std ++ customs)%list /\
    Forall2 (table_row "products")
      (match Django.vs_actions Samples.product_info with
       | [] => ["list"; "create"; "retrieve"; "update"; "partial_update"; "destroy"]
       | found => found
       end) std /\
    Forall (Notions.is_custom_endpoint "products"
              (Django.ViewSet Samples.product_info)) customs /\
    (Django.vs_custom_actions Samples.product_info = [] -> customs = []) /\
    (Django.vs_actions Samples.product_info = ["list"; "retrieve"] ->
     map (fun e => (function_name e, method e, Base.path e)) std
       = [("list", "GET", CStr ("/" ++ "products" ++ "/"));
          ("retrieve", "GET", CStr ("/" ++ "products" ++ "/{id}/"))]).
Proof.
  apply (C4_viewset_join Samples.shop_collected "products" "ProductViewSet"
           "api/urls.py" Samples.product_info Samples.product_body).
  - vm_compute. reflexivity.
  - reflexivity.
Defined.

(** C7: a URL declaration whose target is not a recorded view or viewset
    adds no endpoint and raises nothing, and the join goes on as if the
    declaration were not in the list. *)
Theorem C7_unmatched_declaration_dropped :
  forall (s : Django.state) (pre post : list Django.url_pattern)
         (pattern : Django.url_pattern),
    Django.url_patterns s = (pre ++ pattern :: post)%list ->
    Django.viewsets s !! Notions.target pattern = None ->
    (forall s', Django.viewsets s' = Django.viewsets s ->
                Django.join_pattern pattern s' = (Ok tt, s')) /\
    Django._create_endpoints_from_patterns s
      = Django.for_each Django.join_pattern (pre ++ post) s.
Proof.
  intros s pre post pattern Hpats Hnone. split.
  - intros s' Hs'. apply Django_facts.join_unmatched. rewrite Hs'. exact Hnone.
  - unfold Django._create_endpoints_from_patterns. rewrite Hpats.
    apply Django_facts.join_loop_unmatched. exact Hnone.
Qed.

Lemma C7_unmatched_declaration_dropped_witness :
  (forall s', Django.viewsets s' = Django.viewsets Samples.shop_collected ->
              Django.join_pattern (Django.Router "ghosts" "GhostViewSet" "api/urls.py") s'
                = (Ok tt, s')) /\
  Django._create_endpoints_from_patterns Samples.shop_collected
    = Django.for_each Django.join_pattern
        ([Django.Router "products" "ProductViewSet" "api/urls.py"] ++ [])
        Samples.shop_collected.
Proof.
  apply (C7_unmatched_declaration_dropped Samples.shop_collected
           [Django.Router "products" "ProductViewSet" "api/urls.py"] []
           (Django.Router "ghosts" "GhostViewSet" "api/urls.py")).
  - vm_compute. reflexivity.
  - vm_compute. reflexivity.
Defined.

(** C10: the endpoints made for the custom actions of a joined viewset
    have no parameters, also when the action is a detail action and the
    path holds the [{id}/] segment; the endpoints of the standard detail
    actions have the required integer path parameter [id]. *)
Theorem C10_custom_actions_without_parameters :
  forall (prefix : string) (vs : Django.view) (s : Django.state),
    exists std customs,
      Django.endpoints (snd (Django._create_viewset_endpoints prefix vs s))
        = (Django.endpoints s ++ std ++ customs)%list /\
      map function_name std = in_table (Notions.effective_actions vs) /\
      Forall (fun e => parameters e = Django._get_viewset_parameters (function_name e)) std /\
      Forall (fun action => Django._get_viewset_parameters action
                            = [mkParam "id" "path" "int" true None])
        ["retrieve"; "update"; "partial_update"; "destroy"] /\
      Forall (fun e =>
                parameters e = [] /\
                exists ca,
                  In ca (Django.get_custom_actions vs) /\
                  function_name e = Django.ca_name ca /\
                  Base.path e =
                    CStr ("/" ++ prefix ++ "/" ++
                          (if truthy (Django.ca_detail ca)
                           then "{id}/" ++ Django.ca_name ca ++ "/"
                           else Django.ca_name ca ++ "/"))) customs.
Proof.
  intros prefix vs s.
  destruct (Django_facts.create_viewset_endpoints_adds prefix vs s)
    as [customs [Hsnd Hcustoms]].
  exists (Notions.standard_part prefix vs (Notions.effective_actions vs)), customs.
  split; [rewrite Hsnd; reflexivity|].
  split; [apply standard_part_names|]. split; [|split].
  - apply standard_part_forall. intros action method path _.
    destruct (standard_endpoint_fields prefix vs action method path)
      as [Hn [_ [_ [Hp _]]]].
    rewrite Hp, Hn. reflexivity.
  - repeat constructor.
  - eapply List.Forall_impl; [|exact Hcustoms].
    intros e [ca [m [Hin [_ He]]]].
    apply custom_endpoint_fields in He. destruct He as [Hn [Hp [_ Hpath]]].
    split; [exact Hp|]. exists ca. tauto.
Qed.

(** The custom detail action [activate] of [UserViewSet]: the path names
    the object, the parameter list is empty. *)
Example activate_endpoint_of_users :
  map (fun e => (function_name e, method e, Base.path e, parameters e))
    (Django.endpoints
       (snd (Django.join_pattern
               (Django.Router "users" "UserViewSet" "orders/urls.py")
               (Django._extract_viewset Samples.orders_views Samples.user_class
                  Samples.user_body Django.init))))
  = [("list", "GET", CStr "/users/",
      [mkParam "page" "query" "int" false None;
       mkParam "page_size" "query" "int" false None]);
     ("create", "POST", CStr "/users/", []);
     ("retrieve", "GET", CStr "/users/{id}/", [mkParam "id" "path" "int" true None]);
     ("update", "PUT", CStr "/users/{id}/", [mkParam "id" "path" "int" true None]);
     ("partial_update", "PATCH", CStr "/users/{id}/", [mkParam "id" "path" "int" true None]);
     ("destroy", "DELETE", CStr "/users/{id}/", [mkParam "id" "path" "int" true None]);
     ("activate", "POST", CStr "/users/{id}/activate/", [])].
Proof. vm_compute. reflexivity. Qed.

Lemma inventory_app (unparse : expr -> string) (p : project) (l1 l2 : list entry) :
  Notions.inventory unparse p (l1 ++ l2)
    = (Notions.inventory unparse p l1 ++ Notions.inventory unparse p l2)%list.
Proof. unfold Notions.inventory. apply flat_map_app. Qed.

Lemma inventory_unparsed (unparse : expr -> string) (p : project) (bad : entry) (e : exn) :
  read_and_parse bad = Raise e -> Notions.inventory unparse p [bad] = [].
Proof.
  intros H. unfold Notions.inventory, Notions.file_endpoints. cbn [flat_map].
  rewrite H. destruct (_should_skip_file p bad); reflexivity.
Qed.

Lemma analyze_files_stdout (unparse : expr -> string) (p : project) (files : list entry) :
  forall s,
    exists printed,
      FastAPI.stdout (FastAPI.analyze_files unparse p files s)
        = (FastAPI.stdout s ++ printed)%list /\
      forall bad e,
        In bad files -> _should_skip_file p bad = false ->
        read_and_parse bad = Raise e ->
        In (ErrorAnalyzing (path_str p bad) e) printed.
Proof.
  unfold FastAPI.analyze_files.
  induction files as [|file files IH]; intros s; cbn [fold_left].
  - exists []. rewrite app_nil_r. split; [reflexivity|]. intros bad e [].
  - destruct (_should_skip_file p file) eqn:Hskip.
    + destruct (IH s) as [printed [Hout Hall]]. exists printed. split; [exact Hout|].
      intros bad e [<-|Hin] Hs Hr; [congruence|]. eapply Hall; eassumption.
    + rewrite FastAPI_facts.analyze_file_frame.
      destruct (IH {| FastAPI.endpoints :=
                        FastAPI.endpoints s ++ Notions.file_endpoints unparse file;
                      FastAPI.stdout :=
                        FastAPI.stdout s ++
                        match read_and_parse file with
                        | Ok _ => []
                        | Raise e => [ErrorAnalyzing (path_str p file) e]
                        end |}) as [printed [Hout Hall]].
      cbn [FastAPI.stdout] in Hout.
      eexists. split; [rewrite Hout, <- app_assoc; reflexivity|].
      intros bad e [<-|Hin] Hs Hr.
      * rewrite Hr. apply in_or_app. left. left. reflexivity.
      * apply in_or_app. right. eapply Hall; eassumption.
Qed.

(** C8: a file that cannot be parsed does not stop the single-pass
    analysis. It is reported, and the list returned is the one the other
    files give, which is what the analysis returns without the file. *)
Theorem C8_unparsed_file_is_skipped :
  forall (unparse : expr -> string) (r : string) (pre post : list entry)
         (bad : entry) (e : exn) (s : FastAPI.state),
    read_and_parse bad = Raise e ->
    let p := {| root := r; entries := pre ++ bad :: post |} in
    let others := {| root := r; entries := pre ++ post |} in
    fst (FastAPI.analyze unparse p s)
      = Notions.inventory unparse others (python_files others) /\
    fst (FastAPI.analyze unparse p s) = fst (FastAPI.analyze unparse others s) /\
    (endswith ".py" (Fs.name bad) = true ->
     _should_skip_file p bad = false ->
     In (ErrorAnalyzing (path_str p bad) e)
        (FastAPI.stdout (snd (FastAPI.analyze unparse p s)))).
Proof.
  intros unparse r pre post bad e s Hbad p others.
  assert (Hinv : fst (FastAPI.analyze unparse p s)
                 = Notions.inventory unparse others (python_files others)).
  { rewrite FastAPI_facts.analyze_returns.
    unfold python_files, p, others. cbn [entries].
    rewrite !List.filter_app. cbn [List.filter].
    rewrite !inventory_app.
    change (bad :: List.filter (fun e0 => endswith ".py" (Fs.name e0)) post)
      with ([bad] ++ List.filter (fun e0 => endswith ".py" (Fs.name e0)) post)%list.
    destruct (endswith ".py" (Fs.name bad)).
    - rewrite inventory_app.
      rewrite (inventory_unparsed unparse _ bad e Hbad). reflexivity.
    - reflexivity. }
  split; [exact Hinv|]. split.
  - rewrite Hinv. symmetry. apply FastAPI_facts.analyze_returns.
  - intros Hpy Hskip. unfold FastAPI.analyze. cbn [snd].
    destruct (analyze_files_stdout unparse p (python_files p)
                {| FastAPI.endpoints := []; FastAPI.stdout := FastAPI.stdout s |})
      as [printed [Hout Hall]].
    rewrite Hout. apply in_or_app. right.
    apply (Hall bad e); [|exact Hskip|exact Hbad].
    unfold python_files, p. cbn [entries]. apply filter_In. split; [|exact Hpy].
    apply in_or_app. right. left. reflexivity.
Qed.

Lemma C8_unparsed_file_is_skipped_witness :
  let p := {| root := "service/";
              entries := [ {| parts := ["app"]; content := None; tree := None |} ]
                         ++ Samples.broken_py :: [Samples.main_py] |} in
  let others := {| root := "service/";
                   entries := [ {| parts := ["app"]; content := None; tree := None |} ]
                              ++ [Samples.main_py] |} in
  fst (FastAPI.analyze Samples.dotted p Notions.fresh)
    = Notions.inventory Samples.dotted others (python_files others) /\
  fst (FastAPI.analyze Samples.dotted p Notions.fresh)
    = fst (FastAPI.analyze Samples.dotted others Notions.fresh) /\
  (endswith ".py" (Fs.name Samples.broken_py) = true ->
   _should_skip_file p Samples.broken_py = false ->
   In (ErrorAnalyzing (path_str p Samples.broken_py) SyntaxError)
      (FastAPI.stdout (snd (FastAPI.analyze Samples.dotted p Notions.fresh)))).
Proof.
  exact (C8_unparsed_file_is_skipped Samples.dotted "service/"
           [ {| parts := ["app"]; content := None; tree := None |} ]
           [Samples.main_py] Samples.broken_py SyntaxError Notions.fresh eq_refl).
Defined.

(** The analysis of [service]: the broken file is reported and the three
    routes of the other file are returned. *)
Example service_inventory :
  map (fun e => (method e, Base.path e, function_name e))
    (fst (FastAPI.analyze Samples.dotted Samples.service Notions.fresh))
  = [("GET", CStr "/items/{item_id}", "read_item");
     ("GET", CStr "/items", "items");
     ("PUT", CStr "/files/{name}", "upload")] /\
  FastAPI.stdout (snd (FastAPI.analyze Samples.dotted Samples.service Notions.fresh))
  = [ErrorAnalyzing "service/app/broken.py" SyntaxError].
Proof. split; vm_compute; reflexivity. Qed.

Lemma scan_imports_true (module : string) (files : list entry) :
  Detector.scan_imports module files = true <->
  exists file text,
    In file files /\ content file = Some text /\ Re.search_import module text = true.
Proof.
  unfold Detector.scan_imports. rewrite existsb_exists. split.
  - intros [file [Hin H]]. destruct (content file) as [text|] eqn:Hc; [|discriminate].
    exists file, text. tauto.
  - intros [file [text [Hin [Hc H]]]]. exists file. rewrite Hc. tauto.
Qed.

Lemma is_django_project_signal (p : project) :
  Detector._is_django_project p = true <-> django_signal p.
Proof.
  unfold Detector._is_django_project, django_signal, Detector.settings_patterns,
    Detector.sample.
  cbn [existsb].
  rewrite <- scan_imports_true.
  destruct (Detector.exists_at_root p "manage.py"); [tauto|].
  destruct (Detector.glob p Detector.any_settings_py) as [|x l]; cbn [orb].
  - destruct (Detector.glob p Detector.any_settings_dir_py) as [|y l']; cbn [orb].
    + destruct (Detector.scan_imports "django" (firstn 20 (python_files p))).
      * tauto.
      * split; [discriminate|]. intros [H|[H|[H|H]]]; congruence.
    + split; [|reflexivity]. intros _. right. right. left. discriminate.
  - split; [|reflexivity]. intros _. right. left. discriminate.
Qed.

(** C9: [detect_framework] answers for every project, with "django" or
    with "fastapi" and nothing else: "django" exactly when one of the
    signals of the split convention is found, looked for in their order
    and with at most twenty files read; "fastapi" otherwise, whatever the
    scan for FastAPI imports finds. *)
Theorem C9_detect_framework_total :
  forall p : project,
    (Detector.detect_framework p = "django" \/ Detector.detect_framework p = "fastapi") /\
    (Detector.detect_framework p = "django" <-> django_signal p) /\
    (Detector.detect_framework p = "fastapi" <-> ~ django_signal p) /\
    Detector.detect_framework p =
      (if Detector.exists_at_root p "manage.py" then "django"
       else if existsb (fun pattern => match Detector.glob p pattern with
                                       | [] => false
                                       | _ => true
                                       end)
                 [Detector.any_settings_py; Detector.any_settings_dir_py] then "django"
       else if Detector.scan_imports "django" (Detector.sample 20 (python_files p))
            then "django"
       else "fastapi") /\
    (List.length (Detector.sample 20 (python_files p)) <= 20)%nat.
Proof.
  intros p.
  pose proof (is_django_project_signal p) as Hsig.
  assert (Hdet : Detector.detect_framework p
                 = if Detector._is_django_project p then "django" else "fastapi").
  { unfold Detector.detect_framework.
    destruct (Detector._is_django_project p); [reflexivity|].
    destruct (Detector._is_fastapi_project p); reflexivity. }
  split; [|split; [|split; [|split]]].
  - rewrite Hdet. destruct (Detector._is_django_project p); [left|right]; reflexivity.
  - rewrite Hdet, <- Hsig. destruct (Detector._is_django_project p); split;
      intros; try reflexivity; discriminate.
  - rewrite Hdet, <- Hsig. destruct (Detector._is_django_project p); split;
      intros H; try reflexivity; try discriminate.
    exfalso. apply H. reflexivity.
  - rewrite Hdet. unfold Detector._is_django_project, Detector.settings_patterns.
    destruct (Detector.exists_at_root p "manage.py"); [reflexivity|].
    destruct (existsb _ _); [reflexivity|].
    destruct (Detector.scan_imports _ _); reflexivity.
  - unfold Detector.sample. apply firstn_le_length.
Qed.

(** The Django sample is recognised by its imports only when they name
    [django] itself; [service] falls back to "fastapi". *)
Example detect_samples :
  Detector.detect_framework Samples.service = "fastapi" /\
  Detector.detect_framework
    {| root := "shop/";
       entries := {| parts := ["manage.py"]; content := Some ""; tree := Some (Other []) |}
                  :: entries Samples.shop |} = "django".
Proof. split; vm_compute; reflexivity. Qed.

(** C1, for the single-pass extractor: what [analyze] returns does not
    depend on the state the analyzer is in, so a second call returns what
    the first did. *)
Lemma fastapi_analyze_twice (unparse : expr -> string) (p : project) (s : FastAPI.state) :
  fst (FastAPI.analyze unparse p (snd (FastAPI.analyze unparse p s)))
    = fst (FastAPI.analyze unparse p s).
Proof. rewrite !FastAPI_facts.analyze_returns. reflexivity. Qed.

(** C1 fails for the multi-pass extractor: [analyze] empties
    [self.endpoints] but not [self.url_patterns], so a second call on the
    same analyzer joins every URL declaration twice. On [shop] the first
    call returns two endpoints and the second returns them twice. *)
Theorem C1_django_second_analyze_differs :
  let first := Django.analyze Samples.dotted Samples.shop Django.init in
  let second := Django.analyze Samples.dotted Samples.shop (snd first) in
  exists es,
    fst first = Ok es /\
    map (fun e => (method e, Base.path e)) es
      = [("GET", CStr "/products/"); ("GET", CStr "/products/{id}/")] /\
    fst second = Ok (es ++ es)%list /\
    fst second <> fst first.
Proof.
  eexists. split; [vm_compute; reflexivity|].
  split; [vm_compute; reflexivity|].
  split; [vm_compute; reflexivity|].
  vm_compute. discriminate.
Qed.

(* ===================================================================== *)
(** ** Further properties of the analyzers *)
(* ===================================================================== *)

Import Invariants More_samples.

(* ===================================================================== *)
(** ** Further properties of the analyzers *)
(* ===================================================================== *)

(** *** Substrings *)

Lemma prefix_app (n a b : string) :
  String.prefix n a = true -> String.prefix n (a ++ b) = true.
Proof.
  revert a. induction n as [|c n IH]; intros a H; [destruct (a ++ b); reflexivity|].
  destruct a as [|d a]; simpl in *; [discriminate|].
  destruct (ascii_dec c d); [apply IH; exact H|discriminate].
Qed.

Lemma contains_app_l (n a b : string) :
  contains n a = true -> contains n (a ++ b) = true.
Proof.
  induction a as [|c a IH]; cbn [contains append]; intros H.
  - apply orb_true_iff in H. destruct H as [H|H]; [|discriminate].
    destruct n; [|discriminate]. destruct b; reflexivity.
  - apply orb_true_iff in H. apply orb_true_iff. destruct H as [H|H].
    + left. apply (prefix_app n (String c a) b H).
    + right. apply IH. exact H.
Qed.

Lemma contains_app_r (n a b : string) :
  contains n b = true -> contains n (a ++ b) = true.
Proof.
  intros H. induction a as [|c a IH]; cbn [contains append]; [exact H|].
  apply orb_true_iff. right. exact IH.
Qed.

(** *** Projects below a directory whose name is on the skip list *)

Lemma skip_by_root (p : project) (pattern : string) (file : entry) :
  In pattern skip_patterns -> contains pattern (root p) = true ->
  _should_skip_file p file = true.
Proof.
  intros Hin Hc. unfold _should_skip_file. apply existsb_exists.
  exists pattern. split; [exact Hin|]. unfold path_str. apply contains_app_l. exact Hc.
Qed.

Lemma inventory_all_skipped (unparse : expr -> string) (p : project) (files : list entry) :
  (forall file, _should_skip_file p file = true) ->
  inventory unparse p files = [].
Proof.
  intros H. unfold inventory. induction files as [|f files IH]; [reflexivity|].
  cbn [flat_map]. rewrite H, IH. reflexivity.
Qed.

(** X1: the skip patterns are looked for in the whole path of a file, the
    project directory included: when the path of the project itself
    contains one of them (a project kept under [env/], say), the
    single-pass analysis skips every file and returns no endpoint. *)
Theorem skip_pattern_in_project_path :
  forall (unparse : expr -> string) (p : project) (pattern : string) (s : FastAPI.state),
    In pattern skip_patterns ->
    contains pattern (root p) = true ->
    fst (FastAPI.analyze unparse p s) = [] /\
    FastAPI.stdout (snd (FastAPI.analyze unparse p s)) = FastAPI.stdout s.
Proof.
  intros unparse p pattern s Hin Hc.
  assert (Hskip : forall file, _should_skip_file p file = true)
    by (intros file; eapply skip_by_root; eassumption).
  split.
  - rewrite FastAPI_facts.analyze_returns. apply inventory_all_skipped. exact Hskip.
  - unfold FastAPI.analyze, FastAPI.analyze_files. cbn [snd].
    assert (H : forall files s0,
               FastAPI.stdout
                 (fold_left
                    (fun s1 file => if _should_skip_file p file then s1
                                    else FastAPI._analyze_file unparse p file s1)
                    files s0) = FastAPI.stdout s0).
    { induction files as [|f files IH]; intros s0; [reflexivity|].
      cbn [fold_left]. rewrite Hskip. apply IH. }
    rewrite H. reflexivity.
Qed.

Lemma skip_pattern_in_project_path_witness :
  fst (FastAPI.analyze Samples.dotted
         {| root := "/home/dev/env/service/"; entries := entries Samples.service |}
         fresh) = [] /\
  FastAPI.stdout
    (snd (FastAPI.analyze Samples.dotted
            {| root := "/home/dev/env/service/"; entries := entries Samples.service |}
            fresh)) = FastAPI.stdout fresh.
Proof.
  apply (skip_pattern_in_project_path Samples.dotted
           {| root := "/home/dev/env/service/"; entries := entries Samples.service |}
           "env" fresh).
  - unfold skip_patterns. cbn [In]. tauto.
  - vm_compute. reflexivity.
Defined.

Lemma fold_keeps {A B S} (proj : S -> B) (step : S -> A -> S) (l : list A) :
  (forall s a, proj (step s a) = proj s) ->
  forall s, proj (fold_left step l s) = proj s.
Proof.
  intros Hstep. induction l as [|a l IH]; intros s; cbn [fold_left]; [reflexivity|].
  rewrite IH. apply Hstep.
Qed.

Lemma parse_url_patterns_keeps (p : project) (file : entry) (s : Django.state) :
  Django.endpoints (Django._parse_url_patterns p file s) = Django.endpoints s /\
  Django.viewsets (Django._parse_url_patterns p file s) = Django.viewsets s.
Proof.
  unfold Django._parse_url_patterns. destruct (content file) as [text|];
    [|split; reflexivity].
  cbv zeta. split.
  - rewrite (fold_keeps Django.endpoints), (fold_keeps Django.endpoints); [reflexivity| |].
    + intros s0 [u v]. destruct (String.eqb v "basename"); reflexivity.
    + intros s0 [u v]. destruct (str_in v Django.non_view_names); reflexivity.
  - rewrite (fold_keeps Django.viewsets), (fold_keeps Django.viewsets); [reflexivity| |].
    + intros s0 [u v]. destruct (String.eqb v "basename"); reflexivity.
    + intros s0 [u v]. destruct (str_in v Django.non_view_names); reflexivity.
Qed.

Lemma pass3_keeps (p : project) (files : list entry) (s : Django.state) :
  Django.endpoints (Django.pass3 p files s) = Django.endpoints s /\
  Django.viewsets (Django.pass3 p files s) = Django.viewsets s.
Proof.
  unfold Django.pass3. split.
  - apply (fold_keeps Django.endpoints). intros s0 f.
    destruct (contains "urls.py" (Fs.name f)); [apply parse_url_patterns_keeps|reflexivity].
  - apply (fold_keeps Django.viewsets). intros s0 f.
    destruct (contains "urls.py" (Fs.name f)); [apply parse_url_patterns_keeps|reflexivity].
Qed.

Lemma join_loop_no_views (patterns : list Django.url_pattern) (s : Django.state) :
  Django.viewsets s = ∅ ->
  Django.for_each Django.join_pattern patterns s = (Ok tt, s).
Proof.
  intros H. induction patterns as [|pat patterns IH]; [reflexivity|].
  cbn [Django.for_each]. rewrite Django_facts.join_unmatched; [exact IH|].
  rewrite H. apply lookup_empty.
Qed.

(** X2: the same holds for the multi-pass analysis. Every file is skipped
    in the serializer and view passes, no view is recorded, and the URL
    declarations, which are read all the same, are all dropped. *)
Theorem django_skip_pattern_in_project_path :
  forall (unparse : expr -> string) (p : project) (pattern : string),
    In pattern skip_patterns ->
    contains pattern (root p) = true ->
    fst (Django.analyze unparse p Django.init) = Ok [] /\
    Django.viewsets (snd (Django.analyze unparse p Django.init)) = ∅ /\
    Django.url_patterns (snd (Django.analyze unparse p Django.init)) = declarations p.
Proof.
  intros unparse p pattern Hin Hc.
  assert (Hskip : forall file, _should_skip_file p file = true)
    by (intros file; eapply skip_by_root; eassumption).
  assert (H1 : forall files s, Django.pass1 unparse p files s = s).
  { unfold Django.pass1. induction files as [|f files IH]; intros s; [reflexivity|].
    cbn [fold_left]. rewrite Hskip. cbn [orb]. apply IH. }
  assert (H2 : forall files s, Django.pass2 unparse p files s = s).
  { unfold Django.pass2. induction files as [|f files IH]; intros s; [reflexivity|].
    cbn [fold_left]. rewrite Hskip. cbn [orb]. apply IH. }
  pose proof (Django_facts.analyze_accumulates_patterns unparse p Django.init) as Hpat.
  unfold Django.analyze in *. rewrite H1, H2 in *.
  unfold Django._create_endpoints_from_patterns in *.
  destruct (pass3_keeps p (python_files p) (Django.set_endpoints [] Django.init))
    as [He Hv].
  rewrite join_loop_no_views in * by (rewrite Hv; reflexivity).
  cbn [fst snd] in *. rewrite He, Hv. split; [reflexivity|]. split; [reflexivity|exact Hpat].
Qed.

Lemma django_skip_pattern_in_project_path_witness :
  fst (Django.analyze Samples.dotted
         {| root := "/srv/tests/shop/"; entries := entries Samples.shop |}
         Django.init) = Ok [] /\
  Django.viewsets
    (snd (Django.analyze Samples.dotted
            {| root := "/srv/tests/shop/"; entries := entries Samples.shop |}
            Django.init)) = ∅ /\
  Django.url_patterns
    (snd (Django.analyze Samples.dotted
            {| root := "/srv/tests/shop/"; entries := entries Samples.shop |}
            Django.init))
  = declarations {| root := "/srv/tests/shop/"; entries := entries Samples.shop |}.
Proof.
  apply (django_skip_pattern_in_project_path Samples.dotted
           {| root := "/srv/tests/shop/"; entries := entries Samples.shop |} "tests").
  - unfold skip_patterns. cbn [In]. tauto.
  - vm_compute. reflexivity.
Defined.

(** *** Docstrings *)

Lemma split_lines_nonempty (s : string) : split_lines s <> [].
Proof.
  destruct s as [|c r]; cbn [split_lines]; [discriminate|].
  destruct (Ascii.eqb c newline); [discriminate|].
  destruct (split_lines r); discriminate.
Qed.

(** Joining the lines of a text gives the text back. *)
Lemma join_split_lines (s : string) : join_lines (split_lines s) = s.
Proof.
  induction s as [|c r IH]; [reflexivity|]. cbn [split_lines].
  destruct (Ascii.eqb_spec c newline) as [->|Hc].
  - pose proof (split_lines_nonempty r) as Hne.
    destruct (split_lines r) as [|l ls]; [congruence|].
    cbn [join_lines] in *. rewrite IH. reflexivity.
  - destruct (split_lines r) as [|l ls]; cbn [join_lines] in *.
    + subst r. reflexivity.
    + destruct ls as [|l' ls]; [rewrite IH; reflexivity|].
      rewrite <- IH. reflexivity.
Qed.

Lemma split_lines_cases (x : string) :
  (split_lines x = [x] /\ one_line x) \/
  (exists l rest,
      split_lines x = l :: split_lines rest /\
      x = l ++ String newline rest /\ one_line l).
Proof.
  induction x as [|c r IH].
  - left. split; [reflexivity|]. intros [].
  - cbn [split_lines]. destruct (Ascii.eqb_spec c newline) as [->|Hc].
    + right. exists "", r. repeat split. intros [].
    + destruct IH as [[Hs Hone]|[l [rest [Hs [Hx Hone]]]]].
      * left. rewrite Hs. split; [reflexivity|].
        cbn. intros [H|H]; [congruence|exact (Hone H)].
      * right. exists (String c l), rest. rewrite Hs. split; [reflexivity|].
        split; [rewrite Hx; reflexivity|].
        cbn. intros [H|H]; [congruence|exact (Hone H)].
Qed.

(** X3: of a docstring that is not empty the summary is always present
    and is the first line of the stripped text, without a line break; the
    description is absent exactly when the stripped text has one line, and
    is otherwise the rest of the text, stripped again. Nothing of the
    stripped text is lost between the two. *)
Theorem parse_docstring_splits :
  forall d : string,
    d <> "" ->
    exists summary,
      fst (_parse_docstring (Some d)) = Some summary /\
      one_line summary /\
      match snd (_parse_docstring (Some d)) with
      | None => strip d = summary
      | Some description =>
          exists rest,
            strip d = summary ++ String newline rest /\
            description = strip rest
      end.
Proof.
  intros d Hd. unfold _parse_docstring.
  destruct (String.eqb_spec d "") as [->|_]; [congruence|].
  destruct (split_lines_cases (strip d)) as [[Hs Hone]|[l [rest [Hs [Hx Hone]]]]].
  - rewrite Hs. cbn [fst snd List.length].
    change (1 <? Z.of_nat 1) with false. cbv iota.
    exists (strip d). split; [reflexivity|]. split; [exact Hone|reflexivity].
  - rewrite Hs. pose proof (split_lines_nonempty rest) as Hne.
    exists l. cbn [fst snd tl]. split; [reflexivity|]. split; [exact Hone|].
    destruct (split_lines rest) as [|l' ls] eqn:Hrest; [congruence|].
    assert (Hlen : (1 <? Z.of_nat (List.length (l :: l' :: ls))) = true).
    { apply Z.ltb_lt. cbn [List.length]. lia. }
    rewrite Hlen. exists rest. split; [exact Hx|].
    rewrite <- Hrest, join_split_lines. reflexivity.
Qed.

Lemma parse_docstring_splits_witness :
  exists summary,
    fst (_parse_docstring (Some ("  List the items." ++ Samples.nl ++ Samples.nl ++
                                 "  Paged." ++ Samples.nl))) = Some summary /\
    one_line summary /\
    match snd (_parse_docstring (Some ("  List the items." ++ Samples.nl ++ Samples.nl ++
                                       "  Paged." ++ Samples.nl))) with
    | None => strip ("  List the items." ++ Samples.nl ++ Samples.nl ++
                     "  Paged." ++ Samples.nl) = summary
    | Some description =>
        exists rest,
          strip ("  List the items." ++ Samples.nl ++ Samples.nl ++
                 "  Paged." ++ Samples.nl) = summary ++ String newline rest /\
          description = strip rest
    end.
Proof.
  apply (parse_docstring_splits
           ("  List the items." ++ Samples.nl ++ Samples.nl ++ "  Paged." ++ Samples.nl)).
  vm_compute. discriminate.
Defined.

(** *** Parameters of a route function *)

Lemma parameter_of_aligned (unparse : expr -> string) (defaults : list expr)
    (num_args i : Z) (a : arg) :
  0 <= i < num_args ->
  exists q,
    FastAPI.parameter_of unparse defaults num_args (Z.of_nat (List.length defaults)) i a
      = Ok q /\
    aligned unparse defaults num_args (i, a) q.
Proof.
  intros Hi. unfold FastAPI.parameter_of, aligned. cbn [fst snd].
  set (off := i - (num_args - Z.of_nat (List.length defaults))).
  destruct (0 <=? off) eqn:Hoff.
  - apply Z.leb_le in Hoff.
    destruct (nth_error defaults (Z.to_nat off)) as [d|] eqn:Hd.
    + cbn [bind fst snd].
      destruct (match annotation a with
                | Some ann => _
                | None => _
                end) as [pt dt].
      eexists. split; [reflexivity|]. cbn.
      split; [reflexivity|]. split; [intros; lia|].
      intros _. exists d. split; [reflexivity|]. split; [reflexivity|].
      f_equal. destruct d as [|[| | |]| | | | |]; reflexivity.
    + apply nth_error_None in Hd. subst off. lia.
  - apply Z.leb_gt in Hoff. cbn [bind fst snd].
    destruct (match annotation a with
              | Some ann => _
              | None => _
              end) as [pt dt].
    eexists. split; [reflexivity|]. cbn.
    split; [reflexivity|]. split; [intros; split; reflexivity|].
    intros. subst off. lia.
Qed.

Lemma parameters_loop_aligned (unparse : expr -> string) (defaults : list expr)
    (num_args : Z) (rest : list arg) :
  forall (i : Z) (acc : list EndpointParameter),
    0 <= i -> i + Z.of_nat (List.length rest) = num_args ->
    exists qs,
      FastAPI.parameters_loop unparse defaults num_args
        (Z.of_nat (List.length defaults)) i rest acc = Ok (acc ++ qs)%list /\
      Forall2 (aligned unparse defaults num_args) (kept (enumerate_from i rest)) qs.
Proof.
  induction rest as [|a rest IH]; intros i acc Hi Hlen.
  - exists []. cbn. rewrite app_nil_r. split; [reflexivity|constructor].
  - cbn [FastAPI.parameters_loop enumerate_from kept List.filter snd].
    cbn [List.length] in Hlen.
    destruct (str_in (arg_name a) ["self"; "cls"]) eqn:Hself; cbn [negb].
    + apply IH; lia.
    + destruct (parameter_of_aligned unparse defaults num_args i a) as [q [Hq Hspec]];
        [lia|].
      rewrite Hq. cbn [bind].
      destruct (IH (i + 1) (acc ++ [q])%list) as [qs [Hqs Hall]]; [lia|lia|].
      exists (q :: qs). split.
      * rewrite Hqs, <- app_assoc. reflexivity.
      * constructor; assumption.
Qed.

(** X4: defaults are aligned to the right of the parameter list, [self]
    and [cls] counted: a parameter is optional exactly when it is among
    the last [len(defaults)] ones, and its record then holds the text of
    its own default, [str] of a literal (so [None] for the literal
    [None]) and the unparsed source of anything else. *)
Theorem defaults_aligned_right :
  forall (unparse : expr -> string) (f : funcdef),
    exists ps,
      FastAPI._extract_parameters unparse f = Ok ps /\
      Forall2
        (aligned unparse (defaults (fargs f)) (Z.of_nat (List.length (args (fargs f)))))
        (kept (enumerate_from 0 (args (fargs f)))) ps.
Proof.
  intros unparse f. unfold FastAPI._extract_parameters.
  destruct (parameters_loop_aligned unparse (defaults (fargs f))
              (Z.of_nat (List.length (args (fargs f)))) (args (fargs f)) 0 [])
    as [qs [H1 H2]]; [lia|lia|].
  exists qs. split; [exact H1|exact H2].
Qed.

(** A method with [self], a required and two optional parameters. *)
Example defaults_of_a_method :
  FastAPI._extract_parameters Samples.dotted
    {| fname := "search";
       fargs := {| args := map Samples.simple_arg ["self"; "term"; "limit"; "order"];
                   defaults := [EConstant (CInt 10); EAttribute (EName "Order") "ASC"] |};
       decorator_list := []; returns := None; fdoc := None; flineno := 1 |}
  = Ok [mkParam "term" "query" "string" true None;
        mkParam "limit" "query" "string" false (Some "10");
        mkParam "order" "query" "string" false (Some "Order.ASC")].
Proof. vm_compute. reflexivity. Qed.

(** X5: the parameters come in the order of the declaration, and [self]
    and [cls] are never among them. *)
Theorem parameters_in_declaration_order :
  forall (unparse : expr -> string) (f : funcdef),
    exists ps,
      FastAPI._extract_parameters unparse f = Ok ps /\
      map name ps = map arg_name (declared (args (fargs f))) /\
      Forall (fun q => name q <> "self" /\ name q <> "cls") ps.
Proof.
  intros unparse f.
  destruct (FastAPI_facts.extract_parameters_ok unparse f) as [ps [Hps Hall]].
  exists ps. split; [exact Hps|]. clear Hps.
  unfold declared in *. revert Hall.
  generalize (args (fargs f)). intros l. revert ps.
  induction l as [|a l IH]; intros ps Hall; cbn [List.filter] in Hall.
  - inversion Hall. split; [reflexivity|constructor].
  - cbn [List.filter].
    destruct (str_in (arg_name a) ["self"; "cls"]) eqn:Hself; cbn [negb] in *.
    + apply IH. exact Hall.
    + inversion Hall as [|? q ? qs [Hn _] Hrest]; subst.
      destruct (IH qs Hrest) as [Hm Hf]. split.
      * cbn [map]. rewrite Hn, Hm. reflexivity.
      * constructor; [|exact Hf]. rewrite Hn.
        unfold str_in in Hself. cbn [existsb] in Hself.
        split; intros Heq; rewrite Heq in Hself; discriminate.
Qed.

(** *** Where the endpoints of the single-pass analysis come from *)

Lemma height_positive (n : node) : (1 <= height n)%nat.
Proof. destruct n; cbn [height]; lia. Qed.

Lemma inside_walk_levels (x n : node) :
  inside x n ->
  forall (k : nat) (level : list node),
    In n level -> (height n <= k)%nat -> In x (walk_levels k level).
Proof.
  induction 1 as [|n c Hc _ IH]; intros k level Hin Hk.
  - pose proof (height_positive x). destruct k as [|k]; [lia|].
    cbn [walk_levels]. apply in_or_app. left. exact Hin.
  - pose proof (Ast_facts.height_child n c Hc) as Hlt.
    destruct k as [|k]; [lia|].
    cbn [walk_levels]. apply in_or_app. right. apply IH; [|lia].
    apply in_flat_map. exists n. split; assumption.
Qed.

(** [ast.walk] reaches every node of the tree. *)
Lemma inside_walk (x t : node) : inside x t -> In x (walk t).
Proof.
  intros H. unfold walk. apply (inside_walk_levels x t H); [left; reflexivity|lia].
Qed.

Lemma walk_levels_inside (k : nat) :
  forall (level : list node) (x : node),
    In x (walk_levels k level) -> exists n, In n level /\ inside x n.
Proof.
  induction k as [|k IH]; intros level x Hin; [destruct Hin|].
  cbn [walk_levels] in Hin. apply in_app_or in Hin. destruct Hin as [Hin|Hin].
  - exists x. split; [exact Hin|constructor].
  - destruct (IH _ _ Hin) as [c [Hc Hx]]. apply in_flat_map in Hc.
    destruct Hc as [n [Hn Hc]]. exists n. split; [exact Hn|].
    econstructor; eassumption.
Qed.

Lemma walk_inside (x t : node) : In x (walk t) -> inside x t.
Proof.
  intros H. destruct (walk_levels_inside _ _ _ H) as [n [[<-|[]] Hx]]. exact Hx.
Qed.

Lemma extracted_flat_map (unparse : expr -> string) (file : entry) (nodes : list node) :
  extracted unparse file nodes = flat_map (endpoint_of unparse file) nodes.
Proof.
  unfold extracted. induction nodes as [|n nodes IH]; [reflexivity|].
  cbn [flat_map]. rewrite <- IH.
  destruct n as [f b| | | |]; cbn [FastAPI.visit endpoint_of]; try reflexivity.
  unfold FastAPI._extract_endpoint_from_function.
  destruct (FastAPI_facts.first_marker_never_raises unparse file f (decorator_list f))
    as [[e|] Hr]; rewrite Hr; [|reflexivity].
  rewrite FastAPI_facts.visit_frame. cbn [snd FastAPI.endpoints].
  rewrite FastAPI_facts.visit_frame. reflexivity.
Qed.

Lemma first_marker_origin (unparse : expr -> string) (file : entry) (f : funcdef)
    (ds : list expr) (e : EndpointInfo) :
  FastAPI.first_marker unparse file f ds = Ok (Some e) ->
  exists d m path,
    In d ds /\ FastAPI._parse_decorator d FastAPI.http_methods = (Some m, Some path) /\
    is_marker d = true /\ FastAPI.build_endpoint unparse file f d m path = Ok e.
Proof.
  induction ds as [|d ds IH]; cbn [FastAPI.first_marker]; [discriminate|].
  intros H.
  destruct (FastAPI._parse_decorator d FastAPI.http_methods) as [[m|] [c|]] eqn:Hd;
    try (destruct (IH H) as [d' [m' [pth [Hin Hrest]]]];
         exists d', m', pth; split; [right; exact Hin|exact Hrest]).
  destruct (FastAPI.method_and_path (Some m, Some c)) eqn:Hm.
  - destruct (FastAPI.build_endpoint unparse file f d m c) as [e'|x] eqn:Hb;
      cbn [bind] in H; [|discriminate].
    injection H as <-. exists d, m, c. split; [left; reflexivity|].
    split; [exact Hd|]. split; [|exact Hb]. unfold is_marker. rewrite Hd. exact Hm.
  - destruct (IH H) as [d' [m' [pth [Hin Hrest]]]].
    exists d', m', pth. split; [right; exact Hin|exact Hrest].
Qed.

(** Membership in what [analyze] returns. *)
Lemma in_analyze (unparse : expr -> string) (p : project) (s : FastAPI.state)
    (e : EndpointInfo) :
  In e (fst (FastAPI.analyze unparse p s)) <->
  exists file t f body,
    In file (python_files p) /\ _should_skip_file p file = false /\
    read_and_parse file = Ok t /\ inside (FunctionDef f body) t /\
    FastAPI._extract_endpoint_from_function unparse file f = Ok (Some e).
Proof.
  rewrite FastAPI_facts.analyze_returns. unfold inventory. rewrite in_flat_map. split.
  - intros [file [Hfile He]].
    destruct (_should_skip_file p file) eqn:Hskip; [destruct He|].
    unfold file_endpoints in He.
    destruct (read_and_parse file) as [t|x] eqn:Hr; [|destruct He].
    rewrite extracted_flat_map in He. apply in_flat_map in He.
    destruct He as [n [Hn He]].
    destruct n as [f b| | | |]; cbn [endpoint_of] in He; try destruct He.
    destruct (FastAPI._extract_endpoint_from_function unparse file f) as [[e'|]|x] eqn:Hx;
      [destruct He as [<-|[]]|destruct He|destruct He].
    exists file, t, f, b. repeat split; try assumption. apply walk_inside. exact Hn.
  - intros [file [t [f [b [Hfile [Hskip [Hr [Hin Hx]]]]]]]].
    exists file. split; [exact Hfile|]. rewrite Hskip. unfold file_endpoints.
    rewrite Hr, extracted_flat_map. apply in_flat_map.
    exists (FunctionDef f b). split; [apply inside_walk; exact Hin|].
    cbn [endpoint_of]. rewrite Hx. left. reflexivity.
Qed.

Lemma build_endpoint_fields (unparse : expr -> string) (file : entry) (f : funcdef)
    (d : expr) (m : string) (path : constant) (e : EndpointInfo) :
  FastAPI.build_endpoint unparse file f d m path = Ok e ->
  Base.path e = path /\ method e = upper m /\ function_name e = fname f /\
  file_path e = rel_str file /\ line_number e = flineno f /\
  status_code e = FastAPI.status_or_200 (FastAPI._extract_status_code d) /\
  tags e = FastAPI._extract_tags d /\
  (request_model e, response_model e) = FastAPI._extract_models unparse f d /\
  FastAPI._extract_parameters unparse f = Ok (parameters e) /\
  (summary e, ep_description e)
    = _parse_docstring (Some (match fdoc f with Some doc => doc | None => "" end)).
Proof.
  unfold FastAPI.build_endpoint.
  destruct (_parse_docstring _) as [sm ds].
  destruct (FastAPI._extract_parameters unparse f) as [ps|x]; cbn [bind]; [|discriminate].
  destruct (FastAPI._extract_models unparse f d) as [rq rs].
  intros H. injection H as <-. cbn. repeat split.
Qed.

Lemma endpoint_origin (unparse : expr -> string) (file : entry) (f : funcdef)
    (e : EndpointInfo) :
  FastAPI._extract_endpoint_from_function unparse file f = Ok (Some e) ->
  exists d m path,
    In d (decorator_list f) /\
    FastAPI._parse_decorator d FastAPI.http_methods = (Some m, Some path) /\
    is_marker d = true /\ FastAPI.build_endpoint unparse file f d m path = Ok e.
Proof. apply first_marker_origin. Qed.

(** X6: every endpoint the single-pass analysis returns was made from a
    [FunctionDef] node found somewhere in the tree of a Python file of the
    project that is not skipped and that parses; it names that function,
    its line and the path of the file relative to the project. Nothing
    comes from a skipped file, from a file that does not parse or from any
    other kind of node. *)
Theorem endpoints_come_from_analysed_files :
  forall (unparse : expr -> string) (p : project) (s : FastAPI.state) (e : EndpointInfo),
    In e (fst (FastAPI.analyze unparse p s)) ->
    exists file t f body,
      In file (entries p) /\ endswith ".py" (Fs.name file) = true /\
      _should_skip_file p file = false /\
      content file <> None /\ tree file = Some t /\
      inside (FunctionDef f body) t /\
      function_name e = fname f /\ line_number e = flineno f /\
      file_path e = rel_str file.
Proof.
  intros unparse p s e He. apply in_analyze in He.
  destruct He as [file [t [f [b [Hfile [Hskip [Hr [Hin Hx]]]]]]]].
  apply endpoint_origin in Hx. destruct Hx as [d [m [pth [_ [_ [_ Hb]]]]]].
  apply build_endpoint_fields in Hb.
  destruct Hb as [_ [_ [Hn [Hf [Hl _]]]]].
  unfold python_files in Hfile. apply filter_In in Hfile. destruct Hfile as [Hent Hpy].
  unfold read_and_parse in Hr.
  destruct (content file) as [text|] eqn:Hc; [|discriminate].
  destruct (tree file) as [t'|] eqn:Ht; [|discriminate]. injection Hr as ->.
  exists file, t, f, b.
  split; [exact Hent|]. split; [exact Hpy|]. split; [exact Hskip|].
  split; [rewrite Hc; discriminate|]. split; [exact Ht|]. tauto.
Qed.

Lemma endpoints_come_from_analysed_files_witness :
  exists file t f body,
    In file (entries Samples.service) /\ endswith ".py" (Fs.name file) = true /\
    _should_skip_file Samples.service file = false /\
    content file <> None /\ tree file = Some t /\
    inside (FunctionDef f body) t /\
    function_name
      {| Base.path := CStr "/items"; method := "GET"; function_name := "items";
         summary := None; ep_description := None; parameters := [];
         request_model := None; response_model := None; tags := [];
         status_code := CInt 200; file_path := "app/main.py"; line_number := 6 |}
      = fname f /\
    line_number
      {| Base.path := CStr "/items"; method := "GET"; function_name := "items";
         summary := None; ep_description := None; parameters := [];
         request_model := None; response_model := None; tags := [];
         status_code := CInt 200; file_path := "app/main.py"; line_number := 6 |}
      = flineno f /\
    file_path
      {| Base.path := CStr "/items"; method := "GET"; function_name := "items";
         summary := None; ep_description := None; parameters := [];
         request_model := None; response_model := None; tags := [];
         status_code := CInt 200; file_path := "app/main.py"; line_number := 6 |}
      = rel_str file.
Proof.
  apply (endpoints_come_from_analysed_files Samples.dotted Samples.service fresh).
  vm_compute. right. left. reflexivity.
Defined.

Lemma upper_http_method (m : string) :
  str_in m FastAPI.http_methods = true ->
  In (upper m) ["GET"; "POST"; "PUT"; "DELETE"; "PATCH"; "OPTIONS"; "HEAD"].
Proof.
  intros H. apply str_in_In in H. unfold FastAPI.http_methods in H. cbn [In] in H.
  destruct H as [<-|[<-|[<-|[<-|[<-|[<-|[<-|[]]]]]]]]; cbn; tauto.
Qed.

Lemma parse_decorator_method (d : expr) (m : string) (path : constant) :
  FastAPI._parse_decorator d FastAPI.http_methods = (Some m, Some path) ->
  str_in m FastAPI.http_methods = true.
Proof.
  unfold FastAPI._parse_decorator.
  destruct d as [| | | |fn ar kw| |]; try discriminate.
  destruct fn as [| |v a| | | |]; try discriminate.
  destruct ar as [|[|c| | | | |] ar]; try discriminate.
  destruct (str_in a FastAPI.http_methods) eqn:Ha; [|discriminate].
  intros H. injection H as <- <-. exact Ha.
Qed.

Lemma status_or_200_truthy (c : option constant) :
  truthy (FastAPI.status_or_200 c) = true.
Proof.
  unfold FastAPI.status_or_200. destruct c as [v|]; [|reflexivity].
  destruct (truthy v) eqn:Hv; [exact Hv|reflexivity].
Qed.

(** X7: in every endpoint the single-pass analysis returns, the method is
    one of the seven verbs in upper case, the path is a literal that is
    not falsy (so never the empty string) and the status code is not
    falsy either (a literal [status_code=0] gives 200). *)
Theorem returned_endpoints_are_well_formed :
  forall (unparse : expr -> string) (p : project) (s : FastAPI.state) (e : EndpointInfo),
    In e (fst (FastAPI.analyze unparse p s)) ->
    In (method e) ["GET"; "POST"; "PUT"; "DELETE"; "PATCH"; "OPTIONS"; "HEAD"] /\
    truthy (Base.path e) = true /\
    truthy (status_code e) = true.
Proof.
  intros unparse p s e He. apply in_analyze in He.
  destruct He as [file [t [f [b [_ [_ [_ [_ Hx]]]]]]]].
  apply endpoint_origin in Hx. destruct Hx as [d [m [pth [_ [Hd [Hm Hb]]]]]].
  apply build_endpoint_fields in Hb.
  destruct Hb as [Hp [Hmeth [_ [_ [_ [Hs _]]]]]].
  rewrite Hp, Hmeth, Hs. split; [|split].
  - apply upper_http_method. eapply parse_decorator_method. exact Hd.
  - unfold is_marker in Hm. rewrite Hd in Hm. cbn [FastAPI.method_and_path] in Hm.
    apply andb_true_iff in Hm. tauto.
  - apply status_or_200_truthy.
Qed.

Lemma returned_endpoints_are_well_formed_witness :
  In "PUT" ["GET"; "POST"; "PUT"; "DELETE"; "PATCH"; "OPTIONS"; "HEAD"] /\
  truthy (CStr "/files/{name}") = true /\
  truthy (CInt 200) = true.
Proof.
  apply (returned_endpoints_are_well_formed Samples.dotted Samples.service fresh
           {| Base.path := CStr "/files/{name}"; method := "PUT";
              function_name := "upload"; summary := None; ep_description := None;
              parameters := [mkParam "meta" "path" "PathBody" true None];
              request_model := None; response_model := None; tags := [];
              status_code := CInt 200; file_path := "app/main.py"; line_number := 9 |}).
  vm_compute. right. right. left. reflexivity.
Defined.

Lemma first_marker_found (unparse : expr -> string) (file : entry) (f : funcdef)
    (ds : list expr) (d : expr) :
  In d ds -> is_marker d = true ->
  exists e, FastAPI.first_marker unparse file f ds = Ok (Some e).
Proof.
  induction ds as [|d' ds IH]; intros Hin Hm; [destruct Hin|].
  cbn [FastAPI.first_marker].
  destruct (FastAPI._parse_decorator d' FastAPI.http_methods) as [[m|] [c|]] eqn:Hd'.
  - destruct (FastAPI.method_and_path (Some m, Some c)) eqn:Hmp.
    + destruct (FastAPI_facts.build_endpoint_ok unparse file f d' m c) as [e [He _]].
      rewrite He. exists e. reflexivity.
    + destruct Hin as [->|Hin]; [|apply IH; assumption].
      unfold is_marker in Hm. rewrite Hd' in Hm. congruence.
  - destruct Hin as [->|Hin]; [|apply IH; assumption].
    unfold is_marker in Hm. rewrite Hd' in Hm. discriminate.
  - destruct Hin as [->|Hin]; [|apply IH; assumption].
    unfold is_marker in Hm. rewrite Hd' in Hm. discriminate.
  - destruct Hin as [->|Hin]; [|apply IH; assumption].
    unfold is_marker in Hm. rewrite Hd' in Hm. discriminate.
Qed.

(** X8: a route function is found wherever it stands in the file: at the
    top, in a class, in another function, under an [if] or a [try]. Every
    [FunctionDef] node of a file that is analysed which carries a route
    marker has its endpoint in the result. *)
Theorem nested_routes_are_found :
  forall (unparse : expr -> string) (p : project) (s : FastAPI.state)
         (file : entry) (t : node) (f : funcdef) (body : list node) (d : expr),
    In file (python_files p) ->
    _should_skip_file p file = false ->
    read_and_parse file = Ok t ->
    inside (FunctionDef f body) t ->
    In d (decorator_list f) ->
    is_marker d = true ->
    exists e,
      In e (fst (FastAPI.analyze unparse p s)) /\
      function_name e = fname f /\ line_number e = flineno f /\
      file_path e = rel_str file.
Proof.
  intros unparse p s file t f body d Hfile Hskip Hr Hin Hd Hm.
  destruct (first_marker_found unparse file f (decorator_list f) d Hd Hm) as [e He].
  exists e. split.
  - apply in_analyze. exists file, t, f, body. repeat split; assumption.
  - apply endpoint_origin in He. destruct He as [d' [m [pth [_ [_ [_ Hb]]]]]].
    apply build_endpoint_fields in Hb. tauto.
Qed.

Lemma nested_routes_are_found_witness :
  exists e,
    In e (fst (FastAPI.analyze Samples.dotted
                 {| root := "svc/"; entries := [nested_py] |} fresh)) /\
    function_name e = fname purge /\ line_number e = flineno purge /\
    file_path e = rel_str nested_py.
Proof.
  apply (nested_routes_are_found Samples.dotted
           {| root := "svc/"; entries := [nested_py] |} fresh nested_py
           nested_tree purge [Other []] (Samples.route "delete" "/users/{uid}")).
  - left. reflexivity.
  - vm_compute. reflexivity.
  - reflexivity.
  - eapply inside_child; [left; reflexivity|].
    eapply inside_child; [left; reflexivity|].
    eapply inside_child; [left; reflexivity|]. apply inside_here.
  - left. reflexivity.
  - reflexivity.
Defined.

(** X9: the analysis of a list of files is the analysis of its first part
    followed by the analysis of the rest: files do not influence one
    another, and the order of the result is the order of the files. *)
Theorem analysis_of_concatenated_files :
  forall (unparse : expr -> string) (r : string) (l1 l2 : list entry) (s : FastAPI.state),
    fst (FastAPI.analyze unparse {| root := r; entries := l1 ++ l2 |} s)
    = (fst (FastAPI.analyze unparse {| root := r; entries := l1 |} s) ++
       fst (FastAPI.analyze unparse {| root := r; entries := l2 |} s))%list.
Proof.
  intros unparse r l1 l2 s. rewrite !FastAPI_facts.analyze_returns.
  unfold python_files. cbn [entries]. rewrite List.filter_app.
  assert (H : forall l files,
             inventory unparse {| root := r; entries := l |} files
             = inventory unparse {| root := r; entries := [] |} files)
    by reflexivity.
  rewrite (H (l1 ++ l2)%list), (H l1), (H l2). apply inventory_app.
Qed.

(** *** Status code and models of a route *)

Lemma status_code_of_no_literal (kws : list keyword) :
  Forall (fun kw => literal_status kw = false) kws ->
  FastAPI.status_code_of kws = None.
Proof.
  induction 1 as [|kw kws Hkw _ IH]; [reflexivity|].
  cbn [FastAPI.status_code_of]. unfold literal_status in Hkw.
  destruct (kw_is "status_code" kw); [|exact IH].
  destruct (kw_value kw); try exact IH. discriminate.
Qed.

Lemma status_code_of_first_literal (pre post : list keyword) (name : option string)
    (v : constant) :
  Forall (fun kw => literal_status kw = false) pre ->
  kw_is "status_code" (name, EConstant v) = true ->
  FastAPI.status_code_of (pre ++ (name, EConstant v) :: post) = Some v.
Proof.
  intros Hpre Hname. induction Hpre as [|kw kws Hkw _ IH].
  - cbn [app FastAPI.status_code_of]. rewrite Hname. reflexivity.
  - cbn [app FastAPI.status_code_of]. unfold literal_status in Hkw.
    destruct (kw_is "status_code" kw); [|exact IH].
    destruct (kw_value kw); try exact IH. discriminate.
Qed.

(** X10: the status code of a route is read from the first [status_code]
    keyword of the marker whose value is a literal; a value that is not a
    literal (a name such as [status.HTTP_201_CREATED]) is passed over, and
    so is a literal that is falsy: the endpoint then has 200. *)
Theorem status_code_needs_a_literal :
  forall (unparse : expr -> string) (file : entry) (f : funcdef)
         (fn : expr) (ar : list expr) (kws : list keyword)
         (m : string) (path : constant) (e : EndpointInfo),
    FastAPI.build_endpoint unparse file f (ECall fn ar kws) m path = Ok e ->
    (Forall (fun kw => literal_status kw = false) kws -> status_code e = CInt 200) /\
    (forall pre post v,
        kws = (pre ++ (Some "status_code", EConstant v) :: post)%list ->
        Forall (fun kw => literal_status kw = false) pre ->
        status_code e = if truthy v then v else CInt 200).
Proof.
  intros unparse file f fn ar kws m path e Hb.
  apply build_endpoint_fields in Hb. destruct Hb as [_ [_ [_ [_ [_ [Hs _]]]]]].
  rewrite Hs. cbn [FastAPI._extract_status_code]. split.
  - intros Hno. rewrite status_code_of_no_literal by exact Hno. reflexivity.
  - intros pre post v -> Hpre.
    rewrite status_code_of_first_literal by (try exact Hpre; reflexivity).
    reflexivity.
Qed.

Lemma status_code_needs_a_literal_witness :
  (Forall (fun kw => literal_status kw = false)
     [(Some "status_code", EAttribute (EName "status") "HTTP_201_CREATED")] ->
   status_code
     {| Base.path := CStr "/items"; method := "POST"; function_name := "items";
        summary := None; ep_description := None; parameters := [];
        request_model := None; response_model := None; tags := [];
        status_code := CInt 200; file_path := "app/main.py"; line_number := 6 |}
   = CInt 200) /\
  (forall pre post v,
      [(Some "status_code", EAttribute (EName "status") "HTTP_201_CREATED")]
        = (pre ++ (Some "status_code", EConstant v) :: post)%list ->
      Forall (fun kw => literal_status kw = false) pre ->
      status_code
        {| Base.path := CStr "/items"; method := "POST"; function_name := "items";
           summary := None; ep_description := None; parameters := [];
           request_model := None; response_model := None; tags := [];
           status_code := CInt 200; file_path := "app/main.py"; line_number := 6 |}
      = if truthy v then v else CInt 200).
Proof.
  apply (status_code_needs_a_literal Samples.dotted Samples.main_py Samples.items
           (EAttribute (EName "app") "post") [EConstant (CStr "/items")]
           [(Some "status_code", EAttribute (EName "status") "HTTP_201_CREATED")]
           "post" (CStr "/items")).
  reflexivity.
Defined.

Lemma request_model_first (unparse : expr -> string) (pre post : list arg) (a : arg)
    (ann : expr) :
  Forall (fun a' => names_request_model unparse a' = false) pre ->
  annotation a = Some ann ->
  names_request_model unparse a = true ->
  FastAPI.request_model_of unparse (pre ++ a :: post)
    = Some (FastAPI._get_type_string unparse ann).
Proof.
  intros Hpre Ha Hq. induction Hpre as [|a' pre Ha' _ IH].
  - cbn [app FastAPI.request_model_of]. unfold names_request_model in Hq.
    rewrite Ha in *. rewrite Hq. reflexivity.
  - cbn [app FastAPI.request_model_of]. unfold names_request_model in Ha'.
    destruct (annotation a') as [ann'|]; [|exact IH]. rewrite Ha'. exact IH.
Qed.

Lemma request_model_none (unparse : expr -> string) (l : list arg) :
  Forall (fun a' => names_request_model unparse a' = false) l ->
  FastAPI.request_model_of unparse l = None.
Proof.
  induction 1 as [|a' l Ha' _ IH]; [reflexivity|].
  cbn [FastAPI.request_model_of]. unfold names_request_model in Ha'.
  destruct (annotation a') as [ann'|]; [|exact IH]. rewrite Ha'. exact IH.
Qed.

(** X11: the request model of a route is the annotation text of the first
    parameter, [self] and [cls] included, whose text starts with an
    upper-case letter and contains neither "Path" nor "Query"; whether the
    name is a model or not plays no part, so [Optional[str]] is taken.
    When no parameter has such an annotation there is no request model. *)
Theorem request_model_is_first_capitalised_annotation :
  forall (unparse : expr -> string) (f : funcdef) (d : expr),
    (forall pre post a ann,
        args (fargs f) = (pre ++ a :: post)%list ->
        Forall (fun a' => names_request_model unparse a' = false) pre ->
        annotation a = Some ann ->
        names_request_model unparse a = true ->
        fst (FastAPI._extract_models unparse f d)
          = Some (FastAPI._get_type_string unparse ann)) /\
    (Forall (fun a' => names_request_model unparse a' = false) (args (fargs f)) ->
     fst (FastAPI._extract_models unparse f d) = None).
Proof.
  intros unparse f d. unfold FastAPI._extract_models. cbn [fst]. split.
  - intros pre post a ann -> Hpre Ha Hq. apply request_model_first; assumption.
  - apply request_model_none.
Qed.

Lemma request_model_is_first_capitalised_annotation_witness :
  fst (FastAPI._extract_models Samples.dotted Samples.read_item
         (Samples.route "get" "/items/{item_id}"))
  = Some (FastAPI._get_type_string Samples.dotted
            (ESubscript (EName "Optional") (EName "str"))).
Proof.
  apply (proj1 (request_model_is_first_capitalised_annotation Samples.dotted
                  Samples.read_item (Samples.route "get" "/items/{item_id}"))
           [ {| arg_name := "item_id"; annotation := Some (EName "int") |} ] []
           {| arg_name := "q";
              annotation := Some (ESubscript (EName "Optional") (EName "str")) |}
           (ESubscript (EName "Optional") (EName "str"))).
  - reflexivity.
  - repeat constructor.
  - reflexivity.
  - reflexivity.
Defined.

Lemma response_model_fold (unparse : expr -> string) (kws : list keyword) :
  forall init,
    Forall (fun kw => kw_is "response_model" kw = false) kws ->
    fold_left
      (fun acc kw =>
         if kw_is "response_model" kw
         then Some (FastAPI._get_type_string unparse (kw_value kw)) else acc)
      kws init = init.
Proof.
  induction kws as [|kw kws IH]; intros init H; [reflexivity|].
  inversion H as [|? ? Hkw Hrest]; subst. cbn [fold_left]. rewrite Hkw.
  apply IH. exact Hrest.
Qed.

(** X12: the response model of a route is the text of its return
    annotation, unless the marker has a [response_model] keyword: the last
    such keyword then decides, whatever the function returns. *)
Theorem response_model_keyword_overrides :
  forall (unparse : expr -> string) (f : funcdef) (fn : expr) (ar : list expr)
         (kws : list keyword),
    (Forall (fun kw => kw_is "response_model" kw = false) kws ->
     snd (FastAPI._extract_models unparse f (ECall fn ar kws))
       = option_map (FastAPI._get_type_string unparse) (returns f)) /\
    (forall pre post v,
        kws = (pre ++ (Some "response_model", v) :: post)%list ->
        Forall (fun kw => kw_is "response_model" kw = false) post ->
        snd (FastAPI._extract_models unparse f (ECall fn ar kws))
          = Some (FastAPI._get_type_string unparse v)).
Proof.
  intros unparse f fn ar kws. unfold FastAPI._extract_models. cbn [snd]. split.
  - intros H. apply response_model_fold. exact H.
  - intros pre post v -> Hpost. rewrite fold_left_app. cbn [fold_left].
    change (kw_is "response_model" (Some "response_model", v)) with true. cbv iota.
    apply response_model_fold. exact Hpost.
Qed.

Lemma response_model_keyword_overrides_witness :
  snd (FastAPI._extract_models Samples.dotted
         {| fname := "get_item"; fargs := {| args := []; defaults := [] |};
            decorator_list := []; returns := Some (EName "dict"); fdoc := None;
            flineno := 1 |}
         (ECall (EAttribute (EName "app") "get") [EConstant (CStr "/item")]
            ([] ++ (Some "response_model", EName "Item") :: [])))
  = Some (FastAPI._get_type_string Samples.dotted (EName "Item")).
Proof.
  apply (proj2 (response_model_keyword_overrides Samples.dotted
                  {| fname := "get_item"; fargs := {| args := []; defaults := [] |};
                     decorator_list := []; returns := Some (EName "dict"); fdoc := None;
                     flineno := 1 |}
                  (EAttribute (EName "app") "get") [EConstant (CStr "/item")]
                  ([] ++ (Some "response_model", EName "Item") :: []))
           [] [] (EName "Item")).
  - reflexivity.
  - constructor.
Defined.

(** *** What the view pass records *)

Lemma upper_char_twice (c : ascii) : upper_char (upper_char c) = upper_char c.
Proof. destruct c as [[] [] [] [] [] [] [] []]; vm_compute; reflexivity. Qed.

Lemma upper_twice (s : string) : upper (upper s) = upper s.
Proof.
  induction s as [|c s IH]; [reflexivity|]. cbn [upper]. rewrite upper_char_twice, IH.
  reflexivity.
Qed.

Lemma set_view_ok (k : string) (v : Django.view) (s : Django.state) :
  record_ok k v -> views_ok s -> views_ok (Django.set_view k v s).
Proof.
  intros Hv Hs k' v' Hk'. cbn [Django.set_view Django.viewsets] in Hk'.
  destruct (decide (k = k')) as [<-|Hne].
  - rewrite lookup_insert_eq in Hk'. injection Hk' as <-. exact Hv.
  - rewrite lookup_insert_ne in Hk' by exact Hne. apply Hs. exact Hk'.
Qed.

Lemma apiview_methods_upper (body : list node) :
  Forall (fun mi => upper (Django.mi_method mi) = Django.mi_method mi)
    (Django._extract_apiview_methods body).
Proof.
  unfold Django._extract_apiview_methods.
  induction body as [|item body IH]; cbn [flat_map]; [constructor|].
  apply Forall_app. split; [|exact IH].
  destruct item as [f b| | | |]; try constructor.
  destruct (str_in (fname f) Django.http_methods); [|constructor].
  constructor; [|constructor]. cbn. apply upper_twice.
Qed.

Lemma map_res_upper (doc : option string) (line : Z) (ms : list constant)
    (infos : list Django.method_info) :
  Django.map_res
    (fun m => bind (Django.upper_method m)
                (fun u => Ok {| Django.mi_method := u; Django.mi_docstring := doc;
                                Django.mi_line := line |})) ms = Ok infos ->
  Forall (fun mi => upper (Django.mi_method mi) = Django.mi_method mi) infos.
Proof.
  revert infos. induction ms as [|m ms IH]; intros infos H; cbn [Django.map_res] in H.
  - injection H as <-. constructor.
  - destruct m as [| | |t]; cbn [Django.upper_method bind] in H; try discriminate.
    destruct (Django.map_res _ ms) as [rest|x]; cbn [bind] in H; [|discriminate].
    injection H as <-. constructor; [apply upper_twice|]. apply IH. reflexivity.
Qed.

Lemma function_based_view_ok (file : entry) (f : funcdef) (s : Django.state) :
  views_ok s -> views_ok (snd (Django._extract_function_based_view file f s)).
Proof.
  intros Hs. unfold Django._extract_function_based_view.
  destruct (Django.map_res _ _) as [infos|x] eqn:Hm; [|exact Hs].
  cbn [snd]. apply set_view_ok; [|exact Hs].
  split; [reflexivity|]. split; [constructor|].
  cbn [Django.get_methods Django.av_methods].
  eapply map_res_upper. exact Hm.
Qed.

Lemma visit_views_ok (unparse : expr -> string) (file : entry) (nodes : list node) :
  forall s, views_ok s -> views_ok (snd (Django.visit_views unparse file nodes s)).
Proof.
  induction nodes as [|n nodes IH]; intros s Hs; [exact Hs|].
  destruct n as [f b|c b| | |]; cbn [Django.visit_views]; try (apply IH; exact Hs).
  - destruct (Django._has_api_view_decorator f); [|apply IH; exact Hs].
    pose proof (function_based_view_ok file f s Hs) as Hf.
    destruct (Django._extract_function_based_view file f s) as [[u|x] s'];
      cbn [snd] in *; [apply IH; exact Hf|exact Hf].
  - destruct (Django._get_view_type unparse c) as [[|]|]; apply IH; try exact Hs.
    + apply set_view_ok; [|exact Hs]. split; [reflexivity|].
      split; [apply extract_viewset_actions_in_table|constructor].
    + apply set_view_ok; [|exact Hs]. split; [reflexivity|].
      split; [constructor|apply apiview_methods_upper].
Qed.

Lemma views_ok_same (s s' : Django.state) :
  Django.viewsets s' = Django.viewsets s -> views_ok s -> views_ok s'.
Proof. intros H Hs k v Hk. rewrite H in Hk. apply Hs. exact Hk. Qed.

Lemma extract_views_ok (unparse : expr -> string) (p : project) (file : entry)
    (s : Django.state) :
  views_ok s -> views_ok (Django._extract_views unparse p file s).
Proof.
  intros Hs. unfold Django._extract_views.
  destruct (read_and_parse file) as [t|x]; [|exact Hs].
  pose proof (visit_views_ok unparse file (walk t) s Hs) as Hv.
  destruct (Django.visit_views unparse file (walk t) s) as [[u|x] s']; exact Hv.
Qed.

Lemma fold_invariant {A S} (Q : S -> Prop) (step : S -> A -> S) (l : list A) :
  (forall s a, Q s -> Q (step s a)) -> forall s, Q s -> Q (fold_left step l s).
Proof.
  intros Hstep. induction l as [|a l IH]; intros s Hs; [exact Hs|].
  cbn [fold_left]. apply IH, Hstep, Hs.
Qed.

Lemma extract_serializers_viewsets (unparse : expr -> string) (p : project)
    (file : entry) (s : Django.state) :
  Django.viewsets (Django._extract_serializers unparse p file s) = Django.viewsets s.
Proof.
  unfold Django._extract_serializers.
  destruct (read_and_parse file) as [t|x]; [|reflexivity].
  apply (fold_keeps Django.viewsets). intros s0 n.
  destruct n as [f b|c b| | |]; try reflexivity.
  destruct (Django._is_serializer_class unparse c); reflexivity.
Qed.

Lemma analyze_viewsets (unparse : expr -> string) (p : project) (s : Django.state) :
  Django.viewsets (snd (Django.analyze unparse p s))
    = Django.viewsets
        (Django.pass2 unparse p (python_files p)
           (Django.pass1 unparse p (python_files p) (Django.set_endpoints [] s))).
Proof.
  unfold Django.analyze, Django._create_endpoints_from_patterns.
  set (s3 := Django.pass3 p (python_files p) _).
  pose proof (Django_facts.join_loop_viewsets (Django.url_patterns s3) s3) as Hj.
  destruct (Django.for_each Django.join_pattern (Django.url_patterns s3) s3)
    as [[u|x] s']; cbn [snd] in *; rewrite Hj; apply pass3_keeps.
Qed.

Lemma analyze_views_ok (unparse : expr -> string) (p : project) (s : Django.state) :
  views_ok s -> views_ok (snd (Django.analyze unparse p s)).
Proof.
  intros Hs. eapply views_ok_same; [apply analyze_viewsets|].
  unfold Django.pass2. apply fold_invariant.
  - intros s0 file H0.
    destruct (_ || _)%bool; [exact H0|apply extract_views_ok; exact H0].
  - eapply views_ok_same; [|exact Hs].
    unfold Django.pass1. rewrite (fold_keeps Django.viewsets); [reflexivity|].
    intros s0 file.
    destruct (_ || _)%bool; [reflexivity|apply extract_serializers_viewsets].
Qed.

(** X13: the records of [self.viewsets] after an analysis: each is kept
    under the name of its class or function; a viewset lists only
    standard actions, so every one of them has a row in the table of the
    join; the HTTP methods of a class view or function view are in upper
    case. *)
Theorem recorded_views_are_well_formed :
  forall (unparse : expr -> string) (p : project) (k : string) (v : Django.view),
    Django.viewsets (snd (Django.analyze unparse p Django.init)) !! k = Some v ->
    Django.view_name v = k /\
    Forall (fun a => fixed_table a <> None) (Django.get_actions v) /\
    Forall (fun mi => upper (Django.mi_method mi) = Django.mi_method mi)
      (Django.get_methods v).
Proof.
  intros unparse p k v Hk.
  assert (H0 : views_ok Django.init).
  { intros k' v' H. cbn in H. rewrite lookup_empty in H. discriminate. }
  destruct (analyze_views_ok unparse p Django.init H0 k v Hk) as [Hn [Ha Hm]].
  split; [exact Hn|]. split; [|exact Hm].
  eapply List.Forall_impl; [|exact Ha].
  intros a Hin. unfold table_actions in Hin. cbn [In] in Hin.
  destruct Hin as [<-|[<-|[<-|[<-|[<-|[<-|[]]]]]]]; discriminate.
Qed.

Lemma recorded_views_are_well_formed_witness :
  Django.view_name (Django.ViewSet Samples.product_info) = "ProductViewSet" /\
  Forall (fun a => fixed_table a <> None)
    (Django.get_actions (Django.ViewSet Samples.product_info)) /\
  Forall (fun mi => upper (Django.mi_method mi) = Django.mi_method mi)
    (Django.get_methods (Django.ViewSet Samples.product_info)).
Proof.
  apply (recorded_views_are_well_formed Samples.dotted Samples.shop).
  vm_compute. reflexivity.
Defined.

(** *** When the join raises *)

Lemma custom_endpoint_outcome (prefix : string) (vs : Django.view)
    (ca : Django.custom_action) (m : constant) :
  match Django.custom_endpoint prefix vs ca m with
  | Ok _ => is_string m = true
  | Raise e => is_string m = false /\ e = AttributeError
  end.
Proof.
  unfold Django.custom_endpoint. destruct (_parse_docstring _) as [sm ds].
  destruct m; cbn; auto.
Qed.

Lemma methods_loop_outcome (prefix : string) (vs : Django.view)
    (ca : Django.custom_action) (ms : list constant) :
  forall s,
    fst (Django.for_each
           (fun method s =>
              match Django.custom_endpoint prefix vs ca method with
              | Ok endpoint => (Ok tt, Django.append_endpoint endpoint s)
              | Raise e => (Raise e, s)
              end) ms s) = outcome (forallb is_string ms).
Proof.
  induction ms as [|m ms IH]; intros s; [reflexivity|].
  cbn [Django.for_each forallb].
  pose proof (custom_endpoint_outcome prefix vs ca m) as Hm.
  destruct (Django.custom_endpoint prefix vs ca m) as [e|x].
  - rewrite Hm. cbn [andb]. apply IH.
  - destruct Hm as [-> ->]. reflexivity.
Qed.

Lemma custom_loop_outcome (prefix : string) (vs : Django.view)
    (cas : list Django.custom_action) :
  forall s,
    fst (Django.for_each
           (fun ca s =>
              Django.for_each
                (fun method s =>
                   match Django.custom_endpoint prefix vs ca method with
                   | Ok endpoint => (Ok tt, Django.append_endpoint endpoint s)
                   | Raise e => (Raise e, s)
                   end) (Django.ca_methods ca) s) cas s)
    = outcome (forallb (fun ca => forallb is_string (Django.ca_methods ca)) cas).
Proof.
  induction cas as [|ca cas IH]; intros s; [reflexivity|].
  cbn [Django.for_each forallb].
  pose proof (methods_loop_outcome prefix vs ca (Django.ca_methods ca) s) as Hm.
  destruct (Django.for_each _ (Django.ca_methods ca) s) as [[u|x] s'];
    cbn [fst] in Hm; destruct (forallb is_string (Django.ca_methods ca));
    cbn [outcome] in Hm; try discriminate; cbn [andb].
  - apply IH.
  - exact Hm.
Qed.

Lemma join_pattern_outcome (pattern : Django.url_pattern) (s : Django.state) :
  fst (Django.join_pattern pattern s) = outcome (joinable s pattern).
Proof.
  destruct pattern as [prefix n f|path n f]; cbn [Django.join_pattern joinable].
  - destruct (Django.viewsets s !! n) as [vs|]; [|reflexivity].
    unfold Django._create_viewset_endpoints. apply custom_loop_outcome.
  - destruct (Django.viewsets s !! n); reflexivity.
Qed.

Lemma forallb_same {A} (f g : A -> bool) (l : list A) :
  (forall x, f x = g x) -> forallb f l = forallb g l.
Proof.
  intros H. induction l as [|x l IH]; [reflexivity|]. cbn. rewrite H, IH. reflexivity.
Qed.

Lemma joinable_same (s s' : Django.state) (pattern : Django.url_pattern) :
  Django.viewsets s' = Django.viewsets s -> joinable s' pattern = joinable s pattern.
Proof. intros H. destruct pattern; cbn [joinable]; rewrite ?H; reflexivity. Qed.

Lemma join_loop_outcome (patterns : list Django.url_pattern) :
  forall s,
    fst (Django.for_each Django.join_pattern patterns s)
      = outcome (forallb (joinable s) patterns).
Proof.
  induction patterns as [|pat patterns IH]; intros s; [reflexivity|].
  cbn [Django.for_each forallb].
  pose proof (join_pattern_outcome pat s) as Hp.
  pose proof (Django_facts.join_pattern_viewsets pat s) as Hv.
  destruct (Django.join_pattern pat s) as [[u|x] s']; cbn [fst snd] in *;
    destruct (joinable s pat); cbn [outcome] in Hp; try discriminate; cbn [andb].
  - rewrite IH. f_equal. apply forallb_same. intros pat'. apply joinable_same. exact Hv.
  - exact Hp.
Qed.

(** X14: the one way [analyze] of the multi-pass extractor can raise:
    when a router registration is joined to a viewset one of whose custom
    actions lists a method literal that is not a string, [method.upper()]
    raises [AttributeError], which nothing catches. In every other case
    [analyze] returns [self.endpoints]. *)
Theorem django_analyze_raises_only_on_method_literals :
  forall (unparse : expr -> string) (p : project) (s : Django.state),
    let after := snd (Django.analyze unparse p s) in
    fst (Django.analyze unparse p s)
    = if forallb (joinable after) (Django.url_patterns after)
      then Ok (Django.endpoints after)
      else Raise AttributeError.
Proof.
  intros unparse p s. unfold Django.analyze, Django._create_endpoints_from_patterns.
  set (s3 := Django.pass3 p (python_files p) _).
  pose proof (join_loop_outcome (Django.url_patterns s3) s3) as Ho.
  destruct (Django_facts.join_loop_adds (Django.url_patterns s3) s3) as [es Hes].
  destruct (Django.for_each Django.join_pattern (Django.url_patterns s3) s3)
    as [[u|x] s']; cbn [fst snd] in *; subst s'; cbn [Django.url_patterns Django.set_endpoints];
    rewrite (forallb_same _ _ (Django.url_patterns s3)
               (fun pat => joinable_same s3 (Django.set_endpoints es s3) pat eq_refl));
    destruct (forallb (joinable s3) (Django.url_patterns s3)); cbn [outcome] in Ho;
    try discriminate; try reflexivity.
  injection Ho as ->. reflexivity.
Qed.

(** [@action(detail=False, methods=[405])] on a registered viewset. *)
Example analyze_raises_on_a_number :
  fst (Django.analyze Samples.dotted
         {| root := "shop/";
            entries :=
              [ Samples.shop_urls;
                {| parts := ["api"; "views.py"];
                   content := Some
                     ("class ProductViewSet(viewsets.ViewSet):" ++ Samples.nl ++
                      "    @action(detail=False, methods=[405])" ++ Samples.nl ++
                      "    def blocked(self, request): ..." ++ Samples.nl);
                   tree := Some
                     (Other
                        [ClassDef Samples.product_class
                           [FunctionDef
                              {| fname := "blocked";
                                 fargs := {| args := map Samples.simple_arg ["self"; "request"];
                                             defaults := [] |};
                                 decorator_list :=
                                   [ECall (EName "action") []
                                      [(Some "detail", EConstant (CBool false));
                                       (Some "methods", EList [EConstant (CInt 405)])]];
                                 returns := None; fdoc := None; flineno := 3 |}
                              [Other []]]]) |} ] |}
         Django.init)
  = Raise AttributeError.
Proof. vm_compute. reflexivity. Qed.

(** *** A function view whose methods cannot be read *)

Lemma visit_views_app (unparse : expr -> string) (file : entry) (l1 l2 : list node) :
  forall s,
    Django.visit_views unparse file (l1 ++ l2) s
    = match Django.visit_views unparse file l1 s with
      | (Ok _, s') => Django.visit_views unparse file l2 s'
      | (Raise e, s') => (Raise e, s')
      end.
Proof.
  induction l1 as [|n l1 IH]; intros s; [reflexivity|].
  destruct n as [f b|c b| | |]; cbn [app Django.visit_views]; try apply IH.
  - destruct (Django._has_api_view_decorator f); [|apply IH].
    destruct (Django._extract_function_based_view file f s) as [[u|x] s'];
      [apply IH|reflexivity].
  - destruct (Django._get_view_type unparse c) as [[|]|]; apply IH.
Qed.

Lemma map_res_raises (doc : option string) (line : Z) (ms : list constant) :
  forallb is_string ms = false ->
  Django.map_res
    (fun m => bind (Django.upper_method m)
                (fun u => Ok {| Django.mi_method := u; Django.mi_docstring := doc;
                                Django.mi_line := line |})) ms
  = Raise AttributeError.
Proof.
  induction ms as [|m ms IH]; intros H; [discriminate|].
  cbn [forallb] in H. cbn [Django.map_res].
  destruct m as [| | |t]; cbn [Django.upper_method bind]; try reflexivity.
  cbn [is_string andb] in H. rewrite (IH H). reflexivity.
Qed.

(** X15: an [@api_view] list with a literal that is not a string makes
    [m.upper()] raise inside [_extract_views]. The exception is caught for
    the whole file: the views recorded from the nodes walked before stay,
    the error is printed, and no node walked after the function is looked
    at. *)
Theorem unreadable_api_view_ends_the_file :
  forall (unparse : expr -> string) (p : project) (file : entry) (t : node)
         (pre post : list node) (f : funcdef) (body : list node) (s : Django.state),
    read_and_parse file = Ok t ->
    walk t = (pre ++ FunctionDef f body :: post)%list ->
    fst (Django.visit_views unparse file pre s) = Ok tt ->
    Django._has_api_view_decorator f = true ->
    forallb is_string (Django._parse_api_view_decorator f) = false ->
    Django._extract_views unparse p file s
    = Django.print (ErrorExtractingViews (path_str p file) AttributeError)
        (snd (Django.visit_views unparse file pre s)).
Proof.
  intros unparse p file t pre post f body s Hr Hw Hpre Hdec Hbad.
  unfold Django._extract_views. rewrite Hr, Hw, visit_views_app.
  destruct (Django.visit_views unparse file pre s) as [[u|x] s']; cbn [fst snd] in *;
    [|discriminate].
  cbn [Django.visit_views]. rewrite Hdec.
  unfold Django._extract_function_based_view.
  destruct (Django._parse_api_view_decorator f) as [|m ms] eqn:Hms; [discriminate|].
  rewrite map_res_raises by exact Hbad. reflexivity.
Qed.

Lemma unreadable_api_view_ends_the_file_witness :
  Django._extract_views Samples.dotted Samples.shop ping_views Django.init
  = Django.print (ErrorExtractingViews (path_str Samples.shop ping_views) AttributeError)
      (snd (Django.visit_views Samples.dotted ping_views [ping_tree] Django.init)).
Proof.
  apply (unreadable_api_view_ends_the_file Samples.dotted Samples.shop ping_views
           ping_tree [ping_tree]
           [ClassDef Samples.order_class Samples.order_body; Other [];
            Samples.method_def "create" ["self"; "request"] 2; Other []]
           ping [Other []] Django.init); reflexivity.
Defined.

(** *** What the regular expressions capture *)

Lemma span_all (cls : ascii -> bool) (s : string) :
  all_chars cls (fst (Re.span cls s)) = true.
Proof.
  induction s as [|c r IH]; [reflexivity|]. cbn [Re.span].
  destruct (cls c) eqn:Hc; [|reflexivity].
  destruct (Re.span cls r) as [a b]. cbn [fst all_chars] in *. rewrite Hc, IH. reflexivity.
Qed.

Lemma word_is_name (s w rest : string) : Re.word s = Some (w, rest) -> is_name w.
Proof.
  unfold Re.word. pose proof (span_all is_word s) as H.
  destruct (Re.span is_word s) as [a b]. cbn [fst] in H.
  destruct a as [|c a]; [discriminate|]. intros Heq. injection Heq as <- <-.
  split; [discriminate|exact H].
Qed.

Lemma router_pattern_captures (s g1 g2 : string) (n : nat) :
  Re.router_pattern s = Some ((g1, g2), n) ->
  g1 <> "" /\ all_chars (fun c => negb (Re.is_quote c)) g1 = true /\ is_name g2.
Proof.
  unfold Re.router_pattern.
  destruct (Re.literal "router.register(" s) as [r0|]; cbn [mbind option_bind];
    [|discriminate].
  destruct (Re.quote _) as [r2|]; cbn [mbind option_bind]; [|discriminate].
  pose proof (span_all (fun c => negb (Re.is_quote c)) r2) as Hg1.
  destruct (Re.span _ r2) as [a r3]. cbn [fst] in Hg1.
  destruct (String.eqb_spec a "") as [->|Ha]; [discriminate|].
  destruct (Re.quote r3) as [r4|]; cbn [mbind option_bind]; [|discriminate].
  destruct (Re.literal "," r4) as [r5|]; cbn [mbind option_bind]; [|discriminate].
  set (r6 := snd (Re.span is_space r5)).
  assert (Hplain : forall x,
             (Re.word r6 ≫= (fun '(g, rest) => Some ((a, g), Re.spanned s rest))) = Some x ->
             fst (fst x) = a /\ is_name (snd (fst x))).
  { intros x Hx. destruct (Re.word r6) as [[g rest]|] eqn:Hw; [|discriminate].
    cbn in Hx. injection Hx as <-. split; [reflexivity|]. eapply word_is_name. exact Hw. }
  intros H.
  assert (Hres : fst (fst ((g1, g2), n)) = a /\ is_name (snd (fst ((g1, g2), n)))).
  { destruct (Re.literal "views." r6) as [r7|]; [|apply Hplain; exact H].
    destruct (Re.word r7) as [[g rest]|] eqn:Hw; [|apply Hplain; exact H].
    injection H as <- <- <-. split; [reflexivity|]. eapply word_is_name. exact Hw. }
  cbn [fst snd] in Hres. destruct Hres as [-> Hname]. auto.
Qed.

Lemma all_chars_app (cls : ascii -> bool) (a b : string) :
  all_chars cls (a ++ b) = (all_chars cls a && all_chars cls b)%bool.
Proof.
  induction a as [|c a IH]; [reflexivity|]. simpl. rewrite IH.
  apply andb_assoc.
Qed.

Lemma path_tail_captures (s g2 rest : string) :
  Re.path_tail s = Some (g2, rest) -> is_name g2.
Proof.
  unfold Re.path_tail.
  destruct (Re.quote s) as [r0|]; cbn [mbind option_bind]; [|discriminate].
  destruct (Re.literal "," r0) as [r1|]; cbn [mbind option_bind]; [|discriminate].
  destruct (Re.word _) as [[w1 r3]|] eqn:Hw1; cbn [mbind option_bind]; [|discriminate].
  apply word_is_name in Hw1.
  destruct (Re.literal "." r3) as [r5|];
    [destruct (Re.word r5) as [[w2 r6]|] eqn:Hw2|];
    cbv beta iota;
    destruct (Re.literal ".as_view()" _); intros H; injection H as <- <-;
    first [exact Hw1 | eapply word_is_name; exact Hw2].
Qed.

Lemma lazy_dots_captures (s : string) :
  forall taken g t,
    all_chars not_newline taken = true ->
    Re.lazy_dots taken s = Some (g, t) ->
    g <> "" /\ all_chars not_newline g = true /\ is_name (fst t).
Proof.
  induction s as [|c r IH]; intros taken g t Htaken H; cbn [Re.lazy_dots] in H;
    [discriminate|].
  destruct (Ascii.eqb c newline) eqn:Hc; [discriminate|].
  assert (Htaken' : all_chars not_newline (taken ++ String c "") = true).
  { rewrite all_chars_app, Htaken. cbn. unfold not_newline. rewrite Hc. reflexivity. }
  destruct (Re.path_tail r) as [[g2 rest]|] eqn:Ht.
  - injection H as <- <-. split; [destruct taken; discriminate|].
    split; [exact Htaken'|]. cbn [fst]. eapply path_tail_captures. exact Ht.
  - eapply IH; eassumption.
Qed.

Lemma path_pattern_captures (s g1 g2 : string) (n : nat) :
  Re.path_pattern s = Some ((g1, g2), n) ->
  g1 <> "" /\ all_chars not_newline g1 = true /\ is_name g2.
Proof.
  unfold Re.path_pattern.
  destruct (Re.literal "path(" s) as [r0|]; cbn [mbind option_bind]; [|discriminate].
  destruct (Re.quote r0) as [r1|]; cbn [mbind option_bind]; [|discriminate].
  destruct (Re.lazy_dots "" r1) as [[g [g' rest]]|] eqn:Hl; cbn [mbind option_bind];
    [|discriminate].
  intros H. injection H as <- <- <-.
  apply (lazy_dots_captures r1 "" g (g', rest) eq_refl Hl).
Qed.

Lemma finditer_from_forall {A} (P : A -> Prop) (pattern : string -> option (A * nat)) :
  (forall s g n, pattern s = Some (g, n) -> P g) ->
  forall s k, Forall P (Re.finditer_from pattern k s).
Proof.
  intros HP. induction s as [|c r IH]; intros k.
  - destruct k; cbn [Re.finditer_from]; [|constructor].
    destruct (pattern "") as [[g n]|] eqn:Hp; [|constructor].
    constructor; [eapply HP; exact Hp|constructor].
  - destruct k; cbn [Re.finditer_from]; [|apply IH].
    destruct (pattern (String c r)) as [[g n]|] eqn:Hp; [|apply IH].
    constructor; [eapply HP; exact Hp|apply IH].
Qed.

Lemma fold_invariant_in {A S} (Q : S -> Prop) (step : S -> A -> S) (l : list A) :
  (forall s a, In a l -> Q s -> Q (step s a)) -> forall s, Q s -> Q (fold_left step l s).
Proof.
  induction l as [|a l IH]; intros Hstep s Hs; [exact Hs|].
  cbn [fold_left]. apply IH.
  - intros s0 a0 Hin. apply Hstep. right. exact Hin.
  - apply Hstep; [left; reflexivity|exact Hs].
Qed.

Lemma append_pattern_ok (P : Django.url_pattern -> Prop) (u : Django.url_pattern)
    (s : Django.state) :
  P u -> Forall P (Django.url_patterns s) ->
  Forall P (Django.url_patterns (Django.append_pattern u s)).
Proof.
  intros Hu Hs. cbn [Django.append_pattern Django.url_patterns].
  apply Forall_app. split; [exact Hs|constructor; [exact Hu|constructor]].
Qed.

Lemma parse_url_patterns_ok (p : project) (file : entry) (s : Django.state) :
  In file (python_files p) -> contains "urls.py" (Fs.name file) = true ->
  Forall (declaration_ok p) (Django.url_patterns s) ->
  Forall (declaration_ok p) (Django.url_patterns (Django._parse_url_patterns p file s)).
Proof.
  intros Hfile Hname Hs. unfold Django._parse_url_patterns.
  destruct (content file) as [text|]; [|exact Hs]. cbv zeta.
  pose proof (finditer_from_forall
                (fun g : string * string =>
                   fst g <> "" /\
                   all_chars (fun c => negb (Re.is_quote c)) (fst g) = true /\
                   is_name (snd g))
                Re.router_pattern
                (fun s0 g n => match g with
                               | (g1, g2) => router_pattern_captures s0 g1 g2 n
                               end) text 0%nat) as Hr.
  pose proof (finditer_from_forall
                (fun g : string * string =>
                   fst g <> "" /\ all_chars not_newline (fst g) = true /\
                   is_name (snd g))
                Re.path_pattern
                (fun s0 g n => match g with
                               | (g1, g2) => path_pattern_captures s0 g1 g2 n
                               end) text 0%nat) as Hp.
  rewrite List.Forall_forall in Hr, Hp.
  apply (fold_invariant_in (fun s0 => Forall (declaration_ok p) (Django.url_patterns s0))).
  - intros s0 [u v] Hin H0. specialize (Hp _ Hin). cbn [fst snd] in Hp.
    destruct (str_in v Django.non_view_names) eqn:Hv; [exact H0|].
    apply append_pattern_ok; [|exact H0]. split.
    + exists file. auto.
    + tauto.
  - apply (fold_invariant_in (fun s0 => Forall (declaration_ok p) (Django.url_patterns s0)));
      [|exact Hs].
    intros s0 [u v] Hin H0. specialize (Hr _ Hin). cbn [fst snd] in Hr.
    destruct (String.eqb_spec v "basename") as [->|Hv]; [exact H0|].
    apply append_pattern_ok; [|exact H0]. split.
    + exists file. auto.
    + tauto.
Qed.

(** X16: what pass 3 records. Every URL declaration comes from a Python
    file whose name contains [urls.py]; of a router registration the
    prefix is not empty and has no quote, and the target is a name other
    than [basename]; of a path declaration the path is not empty and has
    no line break, and the target is a name other than [include], [path],
    [re_path], [name] and [basename]. *)
Theorem recorded_declarations_are_well_formed :
  forall p : project, Forall (declaration_ok p) (declarations p).
Proof.
  intros p. unfold declarations, Django.pass3.
  apply (fold_invariant_in (fun s0 => Forall (declaration_ok p) (Django.url_patterns s0)));
    [|constructor].
  intros s0 file Hin H0.
  destruct (contains "urls.py" (Fs.name file)) eqn:Hn; [|exact H0].
  apply parse_url_patterns_ok; assumption.
Qed.

(** The declarations of [shop]. *)
Example declarations_of_shop :
  declarations Samples.shop
  = [Django.Router "products" "ProductViewSet" "api/urls.py";
     Django.Router "ghosts" "GhostViewSet" "api/urls.py"].
Proof. vm_compute. reflexivity. Qed.

(** *** Declarations joined to a record of the other kind *)

Lemma Forall2_map_right {A B} (R : A -> B -> Prop) (f : A -> B) (l : list A) :
  (forall x, R x (f x)) -> Forall2 R l (map f l).
Proof. intros H. induction l; constructor; auto. Qed.

Lemma create_viewset_endpoints_plain (prefix : string) (vs : Django.view)
    (s : Django.state) :
  Django.get_custom_actions vs = [] ->
  Django._create_viewset_endpoints prefix vs s
  = (Ok tt,
     Django.set_endpoints
       (Django.endpoints s ++ standard_part prefix vs (effective_actions vs)) s).
Proof.
  intros Hnone.
  destruct (Django_facts.create_viewset_endpoints_adds prefix vs s)
    as [customs [Hsnd Hcustoms]].
  rewrite (no_custom_endpoints prefix vs customs Hnone Hcustoms), app_nil_r in Hsnd.
  assert (Hfst : fst (Django._create_viewset_endpoints prefix vs s) = Ok tt).
  { unfold Django._create_viewset_endpoints. rewrite Hnone. reflexivity. }
  destruct (Django._create_viewset_endpoints prefix vs s) as [r s'].
  cbn [fst snd] in *. subst. reflexivity.
Qed.

(** X17: views of all kinds share one dictionary, and the join does not
    tell them apart. A router registration whose target is a class view or
    a function view gets the six endpoints of the whole table, without a
    serializer; a path declaration whose target is a viewset gets no
    endpoint at all. Neither raises. *)
Theorem declaration_joined_to_the_other_kind :
  (forall (s : Django.state) (prefix view_name file : string) (a : Django.apiview_info),
      Django.viewsets s !! view_name = Some (Django.ApiView a) ->
      exists std,
        Django.join_pattern (Django.Router prefix view_name file) s
          = (Ok tt, Django.set_endpoints (Django.endpoints s ++ std) s) /\
        Forall2 (table_row prefix)
          ["list"; "create"; "retrieve"; "update"; "partial_update"; "destroy"] std /\
        Forall (fun e => request_model e = None /\ response_model e = None /\
                         of_view a e) std) /\
  (forall (s : Django.state) (path viewset_name file : string) (v : Django.viewset_info),
      Django.viewsets s !! viewset_name = Some (Django.ViewSet v) ->
      Django.join_pattern (Django.PathDecl path viewset_name file) s = (Ok tt, s)).
Proof.
  split.
  - intros s prefix n file a Hlook. cbn [Django.join_pattern]. rewrite Hlook.
    rewrite create_viewset_endpoints_plain by reflexivity.
    eexists. split; [reflexivity|]. split.
    + apply (standard_part_rows prefix (Django.ApiView a)).
      unfold effective_actions, table_actions. cbn [Django.get_actions].
      repeat (constructor; [cbn [In]; tauto|]). constructor.
    + apply standard_part_forall. intros action method path _.
      unfold Django.standard_endpoint.
      destruct (_parse_docstring _) as [sm ds]. cbn. unfold of_view. cbn. tauto.
  - intros s path n file v Hlook. cbn [Django.join_pattern]. rewrite Hlook.
    reflexivity.
Qed.

Lemma declaration_joined_to_the_other_kind_witness :
  exists std,
    Django.join_pattern (Django.Router "health" "HealthView" "orders/urls.py") health_state
      = (Ok tt, Django.set_endpoints (Django.endpoints health_state ++ std) health_state) /\
    Forall2 (table_row "health")
      ["list"; "create"; "retrieve"; "update"; "partial_update"; "destroy"] std /\
    Forall (fun e => request_model e = None /\ response_model e = None /\
                     of_view health_info e) std.
Proof.
  apply (proj1 declaration_joined_to_the_other_kind health_state "health" "HealthView"
           "orders/urls.py" health_info).
  vm_compute. reflexivity.
Defined.

(** X18: a path declaration whose target is a class view or a function
    view gives one endpoint for each HTTP method recorded for the view, in
    their order: the path is the declared one after a slash, the handler
    name and the line are those of the view (not of the method), there is
    no parameter, the tag is [API] and the status code 200. *)
Theorem path_declaration_endpoints :
  forall (s : Django.state) (path view_name file : string) (a : Django.apiview_info),
    Django.viewsets s !! view_name = Some (Django.ApiView a) ->
    exists es,
      Django.join_pattern (Django.PathDecl path view_name file) s
        = (Ok tt, Django.set_endpoints (Django.endpoints s ++ es) s) /\
      Forall2
        (fun mi e =>
           method e = Django.mi_method mi /\ Base.path e = CStr ("/" ++ path) /\
           function_name e = Django.av_name a /\ parameters e = [] /\
           tags e = [CStr "API"] /\ status_code e = CInt 200 /\ of_view a e)
        (Django.av_methods a) es.
Proof.
  intros s path n file a Hlook. cbn [Django.join_pattern]. rewrite Hlook.
  rewrite Django_facts.create_apiview_endpoints_adds.
  eexists. split; [reflexivity|].
  unfold apiview_part, Django._create_apiview_endpoints.
  destruct (_parse_docstring _) as [sm ds].
  rewrite Django_facts.append_loop. cbn [Django.endpoints Django.set_endpoints Django.init app].
  cbn [Django.get_methods]. apply Forall2_map_right. intros mi. cbn.
  unfold of_view. cbn. tauto.
Qed.

Lemma path_declaration_endpoints_witness :
  exists es,
    Django.join_pattern (Django.PathDecl "health/" "HealthView" "orders/urls.py")
      health_state
      = (Ok tt, Django.set_endpoints (Django.endpoints health_state ++ es) health_state) /\
    Forall2
      (fun mi e =>
         method e = Django.mi_method mi /\ Base.path e = CStr ("/" ++ "health/") /\
         function_name e = Django.av_name health_info /\ parameters e = [] /\
         tags e = [CStr "API"] /\ status_code e = CInt 200 /\ of_view health_info e)
      (Django.av_methods health_info) es.
Proof.
  apply (path_declaration_endpoints health_state "health/" "HealthView"
           "orders/urls.py" health_info).
  vm_compute. reflexivity.
Defined.

(** *** Summary and tag of the endpoints of a viewset *)

Lemma str_or_nonempty (a : option string) (b : string) : b <> "" -> str_or a b <> "".
Proof.
  intros Hb. unfold str_or. destruct a as [t|]; [|exact Hb].
  destruct (String.eqb_spec t ""); assumption.
Qed.

Lemma spaced_nonempty (x y : string) : x ++ " " ++ y <> "".
Proof. destruct x; discriminate. Qed.

(** X19: every endpoint made for a viewset, standard or custom, has a
    summary that is not empty (the first line of the docstring, or the
    name of the action in title case followed by the prefix), is tagged
    with the prefix in title case and nothing else, and names the file of
    the viewset. *)
Theorem viewset_endpoints_are_labelled :
  forall (prefix : string) (vs : Django.view) (s : Django.state),
    exists made,
      Django.endpoints (snd (Django._create_viewset_endpoints prefix vs s))
        = (Django.endpoints s ++ made)%list /\
      Forall (fun e => (exists t, summary e = Some t /\ t <> "") /\
                       tags e = [CStr (title prefix)] /\
                       file_path e = Django.view_file vs) made.
Proof.
  intros prefix vs s.
  destruct (Django_facts.create_viewset_endpoints_adds prefix vs s)
    as [customs [Hsnd Hcustoms]].
  exists (standard_part prefix vs (effective_actions vs) ++ customs)%list.
  split; [rewrite Hsnd; reflexivity|]. apply Forall_app. split.
  - apply standard_part_forall. intros action method path _.
    unfold Django.standard_endpoint. destruct (_parse_docstring _) as [sm ds]. cbn.
    split; [|tauto]. eexists. split; [reflexivity|].
    apply str_or_nonempty, spaced_nonempty.
  - eapply List.Forall_impl; [|exact Hcustoms].
    intros e [ca [m [_ [_ He]]]]. unfold Django.custom_endpoint in He.
    destruct (_parse_docstring _) as [sm ds].
    destruct (Django.upper_method m) as [u|x]; cbn [bind] in He; [|discriminate].
    injection He as <-. cbn. split; [|tauto]. eexists. split; [reflexivity|].
    apply str_or_nonempty, spaced_nonempty.
Qed.

(** *** detector.py: the registry, and what the detection reads *)

(** X20: [get_analyzer] accepts the two names [fastapi] and [django], in
    lower case, and raises [ValueError] for every other name; it always
    accepts what [detect_framework] answers, and then makes the Django
    analyzer exactly when a signal of the split convention was found. *)
Theorem detected_framework_is_supported :
  (forall framework project_path : string,
      (exists a, Detector.get_analyzer framework project_path = Detector.Made a) <->
      framework = "fastapi" \/ framework = "django") /\
  (forall (p : project) (project_path : string),
      exists a,
        Detector.get_analyzer (Detector.detect_framework p) project_path = Detector.Made a /\
        (a = Detector.DjangoAnalyzer project_path <-> django_signal p) /\
        (a = Detector.FastAPIAnalyzer project_path <-> ~ django_signal p)).
Proof.
  split.
  - intros framework project_path. unfold Detector.get_analyzer.
    destruct (String.eqb_spec framework "fastapi") as [->|Hf].
    + split; [tauto|]. intros _. eexists. reflexivity.
    + destruct (String.eqb_spec framework "django") as [->|Hd].
      * split; [tauto|]. intros _. eexists. reflexivity.
      * split; [intros [a Ha]; discriminate|]. intros [H|H]; contradiction.
  - intros p project_path.
    pose proof (is_django_project_signal p) as Hsig.
    unfold Detector.detect_framework.
    destruct (Detector._is_django_project p).
    + exists (Detector.DjangoAnalyzer project_path). split; [reflexivity|]. split.
      * split; [intros _; apply Hsig; reflexivity|reflexivity].
      * split; [discriminate|]. intros Hn. exfalso. apply Hn, Hsig. reflexivity.
    + assert (Hno : ~ django_signal p) by (intros H; apply Hsig in H; discriminate).
      assert (Hfa : Detector.get_analyzer
                      (if Detector._is_fastapi_project p then "fastapi" else "fastapi")
                      project_path = Detector.Made (Detector.FastAPIAnalyzer project_path))
        by (destruct (Detector._is_fastapi_project p); reflexivity).
      exists (Detector.FastAPIAnalyzer project_path). split; [exact Hfa|]. split.
      * split; [discriminate|]. intros H. contradiction.
      * split; [intros _; exact Hno|reflexivity].
Qed.

(** A name in capitals is not accepted. *)
Example capitalised_framework_name :
  Detector.get_analyzer "Django" "/srv/shop"
  = Detector.ValueError "Unsupported framework: Django. Supported: fastapi, django".
Proof. reflexivity. Qed.

Lemma existsb_through {X Y} (test : Y -> bool) (view : X -> Y) (xs : list X) :
  existsb (fun x => test (view x)) xs = existsb test (map view xs).
Proof. induction xs as [|x xs IH]; [reflexivity|]. cbn. rewrite IH. reflexivity. Qed.

Lemma filter_nonempty {A} (g : A -> bool) (l : list A) :
  match List.filter g l with [] => false | _ => true end = existsb g l.
Proof.
  induction l as [|x l IH]; [reflexivity|]. cbn. destruct (g x); [reflexivity|exact IH].
Qed.

Lemma is_django_project_reads (p : project) :
  Detector._is_django_project p
  = (named_signals (map parts (entries p))
     || existsb (fun c => match c with
                          | Some text => Re.search_import "django" text
                          | None => false
                          end)
          (map content (firstn 20 (python_files p))))%bool.
Proof.
  unfold Detector._is_django_project, named_signals, Detector.exists_at_root,
    Detector.settings_patterns, Detector.sample, Detector.scan_imports, Detector.glob.
  cbn [existsb]. rewrite !filter_nonempty, <- !existsb_through. unfold Fs.name.
  destruct (existsb _ (entries p)); [reflexivity|]. cbn [orb].
  destruct (existsb _ (entries p)); [reflexivity|]. cbn [orb].
  destruct (existsb _ (entries p)); [reflexivity|]. cbn [orb].
  destruct (existsb _ (firstn 20 (python_files p))); reflexivity.
Qed.

(** X21: the detection reads the names of the files and directories of
    the project and the text of its first twenty Python files, and nothing
    else: two projects that agree on these are detected alike, whatever
    the other files hold. *)
Theorem detection_reads_names_and_twenty_files :
  forall p p' : project,
    map parts (entries p) = map parts (entries p') ->
    map content (firstn 20 (python_files p)) = map content (firstn 20 (python_files p')) ->
    Detector.detect_framework p = Detector.detect_framework p'.
Proof.
  intros p p' Hnames Htexts.
  assert (H : Detector._is_django_project p = Detector._is_django_project p')
    by (rewrite !is_django_project_reads, Hnames, Htexts; reflexivity).
  unfold Detector.detect_framework. rewrite H.
  destruct (Detector._is_django_project p'); [reflexivity|].
  destruct (Detector._is_fastapi_project p), (Detector._is_fastapi_project p');
    reflexivity.
Qed.

Lemma detection_reads_names_and_twenty_files_witness :
  Detector.detect_framework (flat_project "import django")
  = Detector.detect_framework (flat_project "import os").
Proof.
  apply (detection_reads_names_and_twenty_files
           (flat_project "import django") (flat_project "import os")); reflexivity.
Defined.

Lemma prefix_self_app (x rest : string) : String.prefix x (x ++ rest) = true.
Proof.
  induction x as [|c x IH]; [destruct rest; reflexivity|]. simpl.
  destruct (ascii_dec c c); [exact IH|contradiction].
Qed.

Lemma span_space_indent (indent r : string) :
  all_chars is_space indent = true ->
  snd (Re.span is_space (indent ++ r)) = snd (Re.span is_space r).
Proof.
  induction indent as [|c indent IH]; intros H; [reflexivity|].
  cbn [all_chars] in H. apply andb_true_iff in H. destruct H as [Hc H].
  simpl. rewrite Hc. specialize (IH H).
  destruct (Re.span is_space (indent ++ r)) as [a b]. exact IH.
Qed.

Lemma app_assoc_string (a b c : string) : a ++ b ++ c = (a ++ b) ++ c.
Proof.
  induction a as [|x a IH]; [reflexivity|].
  change (String x (a ++ b ++ c) = String x ((a ++ b) ++ c)). f_equal. exact IH.
Qed.

Lemma import_here_indent (module indent r : string) :
  all_chars is_space indent = true ->
  Re.import_here module (indent ++ r) = Re.import_here module r.
Proof.
  intros H. unfold Re.import_here. rewrite span_space_indent by exact H. reflexivity.
Qed.

Lemma import_here_from (module rest : string) :
  Re.import_here module ("from " ++ module ++ rest) = true.
Proof.
  unfold Re.import_here.
  change (snd (Re.span is_space ("from " ++ module ++ rest)))
    with ("from " ++ module ++ rest).
  rewrite (app_assoc_string "from "), prefix_self_app. reflexivity.
Qed.

Lemma import_here_import (module rest : string) :
  Re.import_here module ("import " ++ module ++ rest) = true.
Proof.
  unfold Re.import_here.
  change (snd (Re.span is_space ("import " ++ module ++ rest)))
    with ("import " ++ module ++ rest).
  rewrite (app_assoc_string "import "), prefix_self_app. apply orb_true_r.
Qed.

Lemma import_here_indented (module indent rest : string) :
  all_chars is_space indent = true ->
  Re.import_here module (indent ++ "from " ++ module ++ rest) = true /\
  Re.import_here module (indent ++ "import " ++ module ++ rest) = true.
Proof.
  intros H. split.
  - rewrite (import_here_indent module indent _ H). apply import_here_from.
  - rewrite (import_here_indent module indent _ H). apply import_here_import.
Qed.

Lemma search_at_line_start (module s : string) :
  Re.import_here module s = true -> Re.search_import_from module true s = true.
Proof. intros H. destruct s; cbn [Re.search_import_from]; rewrite H; reflexivity. Qed.

Lemma search_after_newline (module before s : string) :
  forall b,
    Re.search_import_from module true s = true ->
    Re.search_import_from module b (before ++ String newline s) = true.
Proof.
  induction before as [|c before IH]; intros b H.
  - simpl. rewrite H. apply orb_true_r.
  - simpl. rewrite IH by exact H. apply orb_true_r.
Qed.

(** X22: a Python file among the first twenty in which a line starts,
    after any indentation, with [from django] or [import django] makes the
    project a Django project. Whatever follows on the line is not looked
    at, so [import django_filters] counts as well. *)
Theorem django_import_line_is_a_signal :
  forall (p : project) (file : entry) (above indent rest : string),
    In file (firstn 20 (python_files p)) ->
    all_chars is_space indent = true ->
    content file = Some (above ++ indent ++ "from django" ++ rest) \/
    content file = Some (above ++ indent ++ "import django" ++ rest) ->
    above = "" \/ (exists lines, above = lines ++ String newline "") ->
    Detector.detect_framework p = "django".
Proof.
  intros p file above indent rest Hin Hindent Hcontent Habove.
  assert (Hsig : django_signal p).
  { right. right. right.
    destruct (import_here_indented "django" indent rest Hindent) as [Hfrom Himport].
    assert (Hline : forall stmt,
               Re.import_here "django" (indent ++ stmt) = true ->
               Re.search_import "django" (above ++ indent ++ stmt) = true).
    { intros stmt Hh. unfold Re.search_import.
      destruct Habove as [->|[lines ->]].
      - apply search_at_line_start. exact Hh.
      - rewrite <- app_assoc_string. apply search_after_newline.
        apply search_at_line_start. exact Hh. }
    destruct Hcontent as [Hc|Hc]; exists file; eexists;
      (split; [exact Hin|]); (split; [exact Hc|]); apply Hline; assumption. }
  apply is_django_project_signal in Hsig.
  unfold Detector.detect_framework. rewrite Hsig. reflexivity.
Qed.

Lemma django_import_line_is_a_signal_witness :
  Detector.detect_framework filters_project = "django".
Proof.
  apply (django_import_line_is_a_signal filters_project filters_py
           ("import os" ++ String newline "") "    " "_filters").
  - left. reflexivity.
  - reflexivity.
  - right. reflexivity.
  - right. exists "import os". reflexivity.
Defined.

(** *** What the result of the multi-pass analysis depends on *)

Lemma same_core_refl (s : Django.state) : same_core s s.
Proof. repeat split. Qed.

Lemma same_core_sym (s s' : Django.state) : same_core s s' -> same_core s' s.
Proof. intros (He & Hu & Hv). repeat split; congruence. Qed.

Lemma same_core_trans (s1 s2 s3 : Django.state) :
  same_core s1 s2 -> same_core s2 s3 -> same_core s1 s3.
Proof. intros (He & Hu & Hv) (He' & Hu' & Hv'). repeat split; congruence. Qed.

Lemma fold_respects {A} (f : Django.state -> A -> Django.state) (l : list A) :
  (forall x, respects (fun s => f s x)) -> respects (fun s => fold_left f l s).
Proof.
  intros Hf. induction l as [|x l IH]; intros s s' H; [exact H|].
  cbn [fold_left]. apply IH. apply Hf. exact H.
Qed.

Lemma fold_core {A} (f : Django.state -> A -> Django.state) (l : list A) :
  (forall x s, same_core (f s x) s) -> forall s, same_core (fold_left f l s) s.
Proof.
  intros Hf. induction l as [|x l IH]; intros s; [apply same_core_refl|].
  cbn [fold_left]. eapply same_core_trans; [apply IH|apply Hf].
Qed.

Lemma for_each_respects {A} (body : A -> Django.state -> res unit * Django.state)
    (l : list A) :
  (forall x, respects_res (body x)) -> respects_res (Django.for_each body l).
Proof.
  intros Hb. induction l as [|x l IH]; intros s s' H.
  - split; [reflexivity|exact H].
  - cbn [Django.for_each]. destruct (Hb x s s' H) as [Hr Hs].
    destruct (body x s) as [[u|e] t], (body x s') as [[u'|e'] t'];
      cbn [fst snd] in Hr, Hs; try discriminate.
    + apply IH. exact Hs.
    + split; [exact Hr|exact Hs].
Qed.

Lemma print_core (d : diagnostic) (s : Django.state) : same_core (Django.print d s) s.
Proof. repeat split. Qed.

Lemma set_serializer_core (k : string) (i : Django.serializer_info) (s : Django.state) :
  same_core (Django.set_serializer k i s) s.
Proof. repeat split. Qed.

Lemma print_respects (d : diagnostic) : respects (Django.print d).
Proof. intros s s' (He & Hu & Hv). repeat split; assumption. Qed.

Lemma set_view_respects (k : string) (v : Django.view) : respects (Django.set_view k v).
Proof. intros s s' (He & Hu & Hv). repeat split; cbn; congruence. Qed.

Lemma append_pattern_respects (u : Django.url_pattern) : respects (Django.append_pattern u).
Proof. intros s s' (He & Hu & Hv). repeat split; cbn; congruence. Qed.

Lemma append_endpoint_respects (e : EndpointInfo) : respects (Django.append_endpoint e).
Proof. intros s s' (He & Hu & Hv). repeat split; cbn; congruence. Qed.

Lemma set_endpoints_respects (es : list EndpointInfo) : respects (Django.set_endpoints es).
Proof. intros s s' (He & Hu & Hv). repeat split; cbn; congruence. Qed.

Section Core.
Variable unparse : expr -> string.
Variable p : project.

Lemma extract_serializers_core (file : entry) (s : Django.state) :
  same_core (Django._extract_serializers unparse p file s) s.
Proof.
  unfold Django._extract_serializers.
  destruct (read_and_parse file) as [t|e]; [|apply print_core].
  apply fold_core. intros n s0. destruct n as [f b|c b| | |l]; try apply same_core_refl.
  destruct (Django._is_serializer_class unparse c);
    [apply set_serializer_core|apply same_core_refl].
Qed.

Lemma pass1_core (files : list entry) (s : Django.state) :
  same_core (Django.pass1 unparse p files s) s.
Proof.
  unfold Django.pass1. apply fold_core. intros file s0.
  destruct (_ || _)%bool; [apply same_core_refl|apply extract_serializers_core].
Qed.

Lemma function_based_view_respects (file : entry) (f : funcdef) :
  respects_res (Django._extract_function_based_view file f).
Proof.
  intros s s' H. unfold Django._extract_function_based_view.
  destruct (Django.map_res _ _) as [infos|e]; cbn [fst snd].
  - split; [reflexivity|]. apply set_view_respects. exact H.
  - split; [reflexivity|exact H].
Qed.

Lemma visit_views_respects (file : entry) (nodes : list node) :
  respects_res (Django.visit_views unparse file nodes).
Proof.
  induction nodes as [|n nodes IH]; intros s s' H; [split; [reflexivity|exact H]|].
  destruct n as [f b|c b| | |l]; cbn [Django.visit_views]; try (apply IH; exact H).
  - destruct (Django._has_api_view_decorator f); [|apply IH; exact H].
    destruct (function_based_view_respects file f s s' H) as [Hr Hs].
    destruct (Django._extract_function_based_view file f s) as [[u|e] t],
             (Django._extract_function_based_view file f s') as [[u'|e'] t'];
      cbn [fst snd] in Hr, Hs; try discriminate.
    + apply IH. exact Hs.
    + split; [exact Hr|exact Hs].
  - destruct (Django._get_view_type unparse c) as [[|]|]; apply IH;
      [apply set_view_respects|apply set_view_respects|]; exact H.
Qed.

Lemma extract_views_respects (file : entry) :
  respects (Django._extract_views unparse p file).
Proof.
  intros s s' H. unfold Django._extract_views.
  destruct (read_and_parse file) as [t|e]; [|apply print_respects; exact H].
  destruct (visit_views_respects file (walk t) s s' H) as [Hr Hs].
  destruct (Django.visit_views unparse file (walk t) s) as [[u|e] t1],
           (Django.visit_views unparse file (walk t) s') as [[u'|e'] t1'];
    cbn [fst snd] in Hr, Hs; try discriminate; [exact Hs|].
  injection Hr as ->. apply print_respects. exact Hs.
Qed.

Lemma pass2_respects (files : list entry) :
  respects (Django.pass2 unparse p files).
Proof.
  unfold Django.pass2. apply fold_respects. intros file s s' H.
  destruct (_ || _)%bool; [exact H|apply extract_views_respects; exact H].
Qed.

Lemma parse_url_patterns_respects (file : entry) :
  respects (Django._parse_url_patterns p file).
Proof.
  intros s s' H. unfold Django._parse_url_patterns.
  destruct (content file) as [text|]; [|apply print_respects; exact H].
  apply (fold_respects
           (fun s m => let '(url_path, view_name) := m in
                       if str_in view_name Django.non_view_names then s
                       else Django.append_pattern
                              (Django.PathDecl url_path view_name (rel_str file)) s)).
  { intros [a b] t t' Ht. destruct (str_in b Django.non_view_names);
      [exact Ht|apply append_pattern_respects; exact Ht]. }
  apply (fold_respects
           (fun s m => let '(url_prefix, viewset_name) := m in
                       if String.eqb viewset_name "basename" then s
                       else Django.append_pattern
                              (Django.Router url_prefix viewset_name (rel_str file)) s)).
  { intros [a b] t t' Ht. destruct (String.eqb b "basename");
      [exact Ht|apply append_pattern_respects; exact Ht]. }
  exact H.
Qed.

Lemma pass3_respects (files : list entry) : respects (Django.pass3 p files).
Proof.
  unfold Django.pass3. apply fold_respects. intros file s s' H.
  destruct (contains "urls.py" (Fs.name file));
    [apply parse_url_patterns_respects; exact H|exact H].
Qed.

End Core.

Lemma create_viewset_endpoints_respects (prefix : string) (vs : Django.view) :
  respects_res (Django._create_viewset_endpoints prefix vs).
Proof.
  intros s s' H. unfold Django._create_viewset_endpoints.
  apply for_each_respects.
  - intros ca. apply for_each_respects. intros m t t' Ht.
    destruct (Django.custom_endpoint prefix vs ca m) as [e|x]; cbn [fst snd].
    + split; [reflexivity|apply append_endpoint_respects; exact Ht].
    + split; [reflexivity|exact Ht].
  - apply (fold_respects
             (fun s action =>
                match Django.lookup_action action (Django.action_mappings prefix) with
                | Some (method, path) =>
                    Django.append_endpoint
                      (Django.standard_endpoint prefix vs action method path) s
                | None => s
                end)); [|exact H].
    intros a t t' Ht.
    destruct (Django.lookup_action a (Django.action_mappings prefix)) as [[m pa]|];
      [apply append_endpoint_respects; exact Ht|exact Ht].
Qed.

Lemma create_apiview_endpoints_respects (path : string) (v : Django.view) :
  respects (Django._create_apiview_endpoints path v).
Proof.
  unfold Django._create_apiview_endpoints. apply fold_respects.
  intros mi s s' H. destruct (_parse_docstring (Django.view_docstring v)) as [sm ds].
  apply append_endpoint_respects. exact H.
Qed.

Lemma join_pattern_respects (pattern : Django.url_pattern) :
  respects_res (Django.join_pattern pattern).
Proof.
  intros s s' H. pose proof H as (_ & _ & Hv).
  destruct pattern as [prefix vn f|path vn f]; cbn [Django.join_pattern]; rewrite <- Hv.
  - destruct (Django.viewsets s !! vn) as [vs|];
      [apply create_viewset_endpoints_respects; exact H|split; [reflexivity|exact H]].
  - destruct (Django.viewsets s !! vn) as [v|]; cbn [fst snd];
      (split; [reflexivity|]); [apply create_apiview_endpoints_respects; exact H|exact H].
Qed.

Lemma create_endpoints_from_patterns_respects :
  respects_res Django._create_endpoints_from_patterns.
Proof.
  intros s s' H. pose proof H as (_ & Hu & _).
  unfold Django._create_endpoints_from_patterns. rewrite <- Hu.
  apply for_each_respects; [apply join_pattern_respects|exact H].
Qed.

(** The value [analyze] hands back, read off the outcome of the join. *)
Lemma analyze_result (unparse : expr -> string) (p : project) (s : Django.state) :
  fst (Django.analyze unparse p s)
  = let joined :=
      Django._create_endpoints_from_patterns
        (Django.pass3 p (python_files p)
           (Django.pass2 unparse p (python_files p)
              (Django.pass1 unparse p (python_files p) (Django.set_endpoints [] s)))) in
    match fst joined with
    | Ok _ => Ok (Django.endpoints (snd joined))
    | Raise e => Raise e
    end.
Proof.
  unfold Django.analyze. cbv zeta.
  destruct (Django._create_endpoints_from_patterns _) as [[u|e] t]; reflexivity.
Qed.

Lemma serializer_pass_result (unparse : expr -> string) (p : project)
    (s : Django.state) :
  fst (Django.analyze unparse p s)
  = let joined :=
      Django._create_endpoints_from_patterns
        (Django.pass3 p (python_files p)
           (Django.pass2 unparse p (python_files p) (Django.set_endpoints [] s))) in
    match fst joined with
    | Ok _ => Ok (Django.endpoints (snd joined))
    | Raise e => Raise e
    end.
Proof.
  rewrite analyze_result. cbv zeta.
  destruct (create_endpoints_from_patterns_respects
              (Django.pass3 p (python_files p)
                 (Django.pass2 unparse p (python_files p)
                    (Django.pass1 unparse p (python_files p) (Django.set_endpoints [] s))))
              (Django.pass3 p (python_files p)
                 (Django.pass2 unparse p (python_files p) (Django.set_endpoints [] s))))
    as [Hr (He & _)].
  { apply pass3_respects, pass2_respects, pass1_core. }
  rewrite Hr, He. reflexivity.
Qed.

(** X23: the serializer records of pass 1 are written and never read. What
    [analyze] returns, a list or an exception, is what passes 2 to 4 alone
    give: the views, the URL declarations and their join. *)
Theorem serializer_pass_does_not_reach_the_result :
  forall (unparse : expr -> string) (p : project) (s : Django.state),
    fst (Django.analyze unparse p s)
    = let joined :=
        Django._create_endpoints_from_patterns
          (Django.pass3 p (python_files p)
             (Django.pass2 unparse p (python_files p) (Django.set_endpoints [] s))) in
      match fst joined with
      | Ok _ => Ok (Django.endpoints (snd joined))
      | Raise e => Raise e
      end.
Proof. intros unparse p s. apply serializer_pass_result. Qed.

(** The shop's analysis is the join of its views and URL declarations. *)
Example shop_without_serializer_pass :
  fst (Django.analyze Samples.dotted Samples.shop Django.init)
  = Ok (Django.endpoints
          (snd (Django._create_endpoints_from_patterns
                  (Django.pass3 Samples.shop (python_files Samples.shop)
                     (Django.pass2 Samples.dotted Samples.shop (python_files Samples.shop)
                        Django.init))))).
Proof. vm_compute. reflexivity. Qed.

Lemma pass2_unparsed (unparse : expr -> string) (p : project)
    (pre post : list entry) (file : entry) (e : exn) (s : Django.state) :
  read_and_parse file = Raise e ->
  same_core (Django.pass2 unparse p (pre ++ file :: post) s)
            (Django.pass2 unparse p (pre ++ post) s).
Proof.
  intros Hf. unfold Django.pass2. rewrite !fold_left_app. cbn [fold_left].
  apply (pass2_respects unparse p post).
  destruct (_ || _)%bool; [apply same_core_refl|].
  unfold Django._extract_views. rewrite Hf. apply print_core.
Qed.

Lemma pass3_other_file (p : project) (pre post : list entry) (file : entry)
    (s : Django.state) :
  contains "urls.py" (Fs.name file) = false ->
  Django.pass3 p (pre ++ file :: post) s = Django.pass3 p (pre ++ post) s.
Proof.
  intros Hn. unfold Django.pass3. rewrite !fold_left_app. cbn [fold_left].
  rewrite Hn. reflexivity.
Qed.

(** X24: in the multi-pass analysis a file that cannot be read or parsed,
    and whose name does not contain [urls.py], changes nothing in what
    [analyze] returns: the result is that of the project without it. *)
Theorem django_unparsed_file_is_skipped :
  forall (unparse : expr -> string) (r : string) (pre post : list entry)
         (file : entry) (e : exn) (s : Django.state),
    read_and_parse file = Raise e ->
    contains "urls.py" (Fs.name file) = false ->
    fst (Django.analyze unparse {| root := r; entries := pre ++ file :: post |} s)
    = fst (Django.analyze unparse {| root := r; entries := pre ++ post |} s).
Proof.
  intros unparse r pre post file e s Hf Hn.
  rewrite !serializer_pass_result.
  set (p := {| root := r; entries := pre ++ file :: post |}).
  set (p' := {| root := r; entries := pre ++ post |}).
  assert (Hp2 : forall files t, Django.pass2 unparse p files t = Django.pass2 unparse p' files t)
    by reflexivity.
  assert (Hp3 : forall files t, Django.pass3 p files t = Django.pass3 p' files t)
    by reflexivity.
  assert (Hfiles : python_files p = python_files p' \/
                   python_files p
                   = (python_files {| root := r; entries := pre |}
                        ++ file :: python_files {| root := r; entries := post |})%list /\
                   python_files p'
                   = (python_files {| root := r; entries := pre |}
                        ++ python_files {| root := r; entries := post |})%list).
  { unfold python_files, p, p'. cbn [entries].
    rewrite !List.filter_app. cbn [List.filter].
    destruct (endswith ".py" (Fs.name file)); [right; split; reflexivity|left; reflexivity]. }
  cbv zeta. rewrite !Hp2, !Hp3.
  destruct Hfiles as [->|[-> ->]]; [reflexivity|].
  destruct (create_endpoints_from_patterns_respects
              (Django.pass3 p'
                 (python_files {| root := r; entries := pre |}
                    ++ file :: python_files {| root := r; entries := post |})
                 (Django.pass2 unparse p'
                    (python_files {| root := r; entries := pre |}
                       ++ file :: python_files {| root := r; entries := post |})
                    (Django.set_endpoints [] s)))
              (Django.pass3 p'
                 (python_files {| root := r; entries := pre |}
                    ++ python_files {| root := r; entries := post |})
                 (Django.pass2 unparse p'
                    (python_files {| root := r; entries := pre |}
                       ++ python_files {| root := r; entries := post |})
                    (Django.set_endpoints [] s))))
    as [Hr (He & _)].
  { rewrite (pass3_other_file p' _ _ file _ Hn).
    apply pass3_respects. apply (pass2_unparsed unparse p' _ _ file e _ Hf). }
  rewrite Hr, He. reflexivity.
Qed.

Lemma django_unparsed_file_is_skipped_witness :
  fst (Django.analyze Samples.dotted
         {| root := "shop/"; entries := Samples.broken_py :: entries Samples.shop |}
         Django.init)
  = fst (Django.analyze Samples.dotted
           {| root := "shop/"; entries := entries Samples.shop |} Django.init).
Proof.
  apply (django_unparsed_file_is_skipped Samples.dotted "shop/" []
           (entries Samples.shop) Samples.broken_py SyntaxError Django.init);
    reflexivity.
Defined.
